(** * update_publications: a shallow embedding of [scripts/update_publications.py]

    The script turns the publication records of one author into an HTML
    fragment and patches it between two markers of [index.html].  This file
    embeds its functions and proves the properties of the specification.

    ** Modelling conventions

    - A Python [str] is modelled by its UTF-8 encoding, as a Rocq [string]
      (one [ascii] per byte).  Concatenation, equality, [in], [join] and the
      replacement of ASCII characters act on the encoding exactly as they do
      on the code points.  What Python does code point by code point
      ([s[0]], [len(s)], [str.strip], [str.upper], [str.lower],
      [str.title], and [\s] and [\d] in a pattern) is done on the list of
      the code points of the string ([Str.chars]).  The character classes
      and the case mappings are those of CPython: fixed on the ASCII range,
      and read from the Unicode database beyond it, which is a parameter
      ([unicode]).
    - A JSON object the script reads with [d.get(key, default)] is a record
      with one [option] field per key that is read: [None] is an absent key.
      Where the script tests the truth of a dict ([if book:]) the record
      also says whether the dict holds keys the script does not read.
      A field that is present holds a value of the type the script expects.
    - The network loop and the file system are state that is passed in and
      out: [main] takes the fetched records and the text of [index.html] and
      returns the exit status, the text of the file afterwards and what was
      printed. *)

From Stdlib Require Import ZArith NArith List Bool Ascii String Lia Arith.
From Stdlib Require Import Numbers.DecimalString.
From Stdlib Require Import Sorting.Permutation Sorting.Sorted.
From Stdlib Require FSets.FMapPositive.
Import ListNotations.
Open Scope string_scope.

(** ** The Unicode database

    What Python knows of a code point beyond ASCII it reads from the
    Unicode database its interpreter is built with
    ([Objects/unicodectype.c]): whether the code point is white space
    ([str.strip], [\s]), a decimal digit ([\d]), cased or case-ignorable,
    and its full upper-case, lower-case and title-case mappings.  The
    database is a parameter of the model.  A code point is given by its
    UTF-8 encoding, a mapping by the list of the code points it gives. *)
Class unicode := {
  IsWhitespace : string -> bool;
  IsDecimalDigit : string -> bool;
  IsCased : string -> bool;
  IsCaseIgnorable : string -> bool;
  ToUpperFull : string -> list string;
  ToLowerFull : string -> list string;
  ToTitleFull : string -> list string
}.

(** ** Python strings *)

Module Str.

(** [d.get(key, default)] on an optional field. *)
Definition get {A : Type} (o : option A) (d : A) : A :=
  match o with Some v => v | None => d end.

Definition code (c : ascii) : nat := nat_of_ascii c.

Definition in_range (lo hi : nat) (c : ascii) : bool :=
  (lo <=? code c)%nat && (code c <=? hi)%nat.

(** *** The ASCII range *)

(** [str.isspace] on the ASCII range: TAB, LF, VT, FF, CR, FS, GS, RS, US
    and the space. *)
Definition is_space (c : ascii) : bool :=
  in_range 9 13 c || in_range 28 32 c.

(** [\d] on the ASCII range. *)
Definition is_digit (c : ascii) : bool := in_range 48 57 c.

Definition is_upper (c : ascii) : bool := in_range 65 90 c.
Definition is_lower (c : ascii) : bool := in_range 97 122 c.
Definition is_cased (c : ascii) : bool := is_upper c || is_lower c.

(** The ASCII characters that are case-ignorable: the apostrophe, the full
    stop, the colon, the circumflex and the grave accent. *)
Definition is_case_ignorable (c : ascii) : bool :=
  Ascii.eqb c "'" || Ascii.eqb c "." || Ascii.eqb c ":" || Ascii.eqb c "^"
  || Ascii.eqb c "`".

Definition to_upper (c : ascii) : ascii :=
  if is_lower c then ascii_of_nat (code c - 32) else c.
Definition to_lower (c : ascii) : ascii :=
  if is_upper c then ascii_of_nat (code c + 32) else c.

(** *** Code points *)

(** A byte [10xxxxxx] continues a code point. *)
Definition is_continuation (c : ascii) : bool := in_range 128 191 c.

Fixpoint all_continuation (s : string) : bool :=
  match s with
  | EmptyString => true
  | String c r => is_continuation c && all_continuation r
  end.

(** The encoding of one code point: a byte that continues none, then
    continuation bytes. *)
Definition code_point (x : string) : bool :=
  match x with
  | EmptyString => false
  | String c r => negb (is_continuation c) && all_continuation r
  end.

(** The string begins inside a code point. *)
Definition continues_code_point (s : string) : bool :=
  match s with
  | String c _ => is_continuation c
  | EmptyString => false
  end.

(** The code points of [s], in order: each byte that is no continuation
    byte begins one. *)
Fixpoint chars (s : string) : list string :=
  match s with
  | EmptyString => []
  | String c r =>
      match chars r with
      | x :: l =>
          if continues_code_point x then String c x :: l
          else String c EmptyString :: x :: l
      | [] => [String c EmptyString]
      end
  end.

(** The string of a list of code points. *)
Fixpoint concat (l : list string) : string :=
  match l with
  | [] => EmptyString
  | x :: r => x ++ concat r
  end.

Fixpoint take_continuation (s : string) : string :=
  match s with
  | String c r => if is_continuation c then String c (take_continuation r)
                  else EmptyString
  | EmptyString => EmptyString
  end.

(** [s[0]] for a non-empty [s]: the first code point. *)
Definition first_char (s : string) : string :=
  match s with
  | EmptyString => EmptyString
  | String c r => String c (take_continuation r)
  end.

(** [len(s)]: the number of code points. *)
Definition py_len (s : string) : nat := List.length (chars s).

(** The ASCII character a code point is, if it is one. *)
Definition ascii_char (x : string) : option ascii :=
  match x with
  | String c EmptyString => if (code c <? 128)%nat then Some c else None
  | _ => None
  end.

(** *** Character classes and case mappings

    On the ASCII range they are fixed; beyond it they are those of the
    database. *)

(** [Py_UNICODE_ISSPACE]: [str.isspace], [str.strip] and [\s]. *)
Definition isspace `{unicode} (x : string) : bool :=
  match ascii_char x with
  | Some c => is_space c
  | None => IsWhitespace x
  end.

(** [Py_UNICODE_ISDECIMAL]: [\d] in a pattern on [str]. *)
Definition isdecimal `{unicode} (x : string) : bool :=
  match ascii_char x with
  | Some c => is_digit c
  | None => IsDecimalDigit x
  end.

Definition iscased `{unicode} (x : string) : bool :=
  match ascii_char x with
  | Some c => is_cased c
  | None => IsCased x
  end.

Definition iscaseignorable `{unicode} (x : string) : bool :=
  match ascii_char x with
  | Some c => is_case_ignorable c
  | None => IsCaseIgnorable x
  end.

(** The mappings of one code point.  Bytes that encode no code point are
    kept as they are. *)
Definition upper_char `{unicode} (x : string) : list string :=
  match ascii_char x with
  | Some c => [String (to_upper c) EmptyString]
  | None => if code_point x then ToUpperFull x else [x]
  end.

Definition lower_char `{unicode} (x : string) : list string :=
  match ascii_char x with
  | Some c => [String (to_lower c) EmptyString]
  | None => if code_point x then ToLowerFull x else [x]
  end.

Definition title_char `{unicode} (x : string) : list string :=
  match ascii_char x with
  | Some c => [String (to_upper c) EmptyString]
  | None => if code_point x then ToTitleFull x else [x]
  end.

(** U+03A3, U+03C3 and U+03C2: the capital sigma, the small sigma and the
    small final sigma. *)
Definition capital_sigma : string := String "206" (String "163" "").
Definition small_sigma : string := String "207" (String "131" "").
Definition final_sigma : string := String "207" (String "130" "").

(** [\p{case-ignorable}*\p{cased}] at the head of [l]. *)
Fixpoint cased_next `{unicode} (l : list string) : bool :=
  match l with
  | [] => false
  | x :: r => if iscaseignorable x then cased_next r else iscased x
  end.

(** [handle_capital_sigma]: the lower case of a capital sigma is the final
    sigma when a cased letter stands before it and none behind it,
    case-ignorable characters set aside.  [before] is what stands before
    it, the nearest first. *)
Definition handle_capital_sigma `{unicode} (before after : list string)
    : string :=
  if cased_next before && negb (cased_next after) then final_sigma
  else small_sigma.

(** [lower_ucs4]: the lower case of [x] between [before] and [after]. *)
Definition lower_ucs4 `{unicode} (before after : list string) (x : string)
    : list string :=
  if String.eqb x capital_sigma then [handle_capital_sigma before after]
  else lower_char x.

Definition upper_chars `{unicode} (l : list string) : list string :=
  flat_map upper_char l.

Fixpoint lower_from `{unicode} (before l : list string) : list string :=
  match l with
  | [] => []
  | x :: r => lower_ucs4 before r x ++ lower_from (x :: before) r
  end.

(** The body of the loop of [do_title]: a character is title-cased when
    the character before it is not cased, and lower-cased when it is. *)
Definition title_ucs4 `{unicode} (previous_is_cased : bool)
    (before after : list string) (x : string) : list string :=
  if previous_is_cased then lower_ucs4 before after x else title_char x.

Fixpoint title_from `{unicode} (before : list string)
    (previous_is_cased : bool) (l : list string) : list string :=
  match l with
  | [] => []
  | x :: r =>
      title_ucs4 previous_is_cased before r x
      ++ title_from (x :: before) (iscased x) r
  end.

(** [s.upper()], [s.lower()] and [s.title()]. *)
Definition upper `{unicode} (s : string) : string :=
  concat (upper_chars (chars s)).
Definition lower `{unicode} (s : string) : string :=
  concat (lower_from [] (chars s)).
Definition title `{unicode} (s : string) : string :=
  concat (title_from [] false (chars s)).

(** [s[n:]] and [s[:n]] on bytes. *)
Fixpoint drop (n : nat) (s : string) : string :=
  match n, s with
  | S k, String _ r => drop k r
  | _, _ => s
  end.

Fixpoint take (n : nat) (s : string) : string :=
  match n, s with
  | S k, String c r => String c (take k r)
  | _, _ => EmptyString
  end.

(** Truth value of a string: [if s:]. *)
Definition nonempty (s : string) : bool :=
  match s with EmptyString => false | _ => true end.

Fixpoint lstrip_chars `{unicode} (l : list string) : list string :=
  match l with
  | x :: r => if isspace x then lstrip_chars r else l
  | [] => []
  end.

Fixpoint rstrip_chars `{unicode} (l : list string) : list string :=
  match l with
  | [] => []
  | x :: r =>
      match rstrip_chars r with
      | [] => if isspace x then [] else [x]
      | r' => x :: r'
      end
  end.

Definition strip_chars `{unicode} (l : list string) : list string :=
  rstrip_chars (lstrip_chars l).

(** [s.strip()]. *)
Definition strip `{unicode} (s : string) : string :=
  concat (strip_chars (chars s)).

(** [sub in s]. *)
Fixpoint contains (sub s : string) : bool :=
  prefix sub s ||
  match s with
  | EmptyString => false
  | String _ r => contains sub r
  end.

(** [s.replace(c, by)] for a one-character [c]. *)
Fixpoint replace (c : ascii) (by_ : string) (s : string) : string :=
  match s with
  | EmptyString => EmptyString
  | String x r =>
      if Ascii.eqb x c then by_ ++ replace c by_ r
      else String x (replace c by_ r)
  end.

(** [sep.join(parts)]. *)
Fixpoint join (sep : string) (parts : list string) : string :=
  match parts with
  | [] => ""
  | [p] => p
  | p :: rest => p ++ sep ++ join sep rest
  end.

(** [str(n)] for an integer. *)
Definition of_Z (n : Z) : string := NilZero.string_of_int (Z.to_int n).

End Str.

(** [html.escape(s)] with its default [quote=True]: the ampersand first,
    then the angle brackets and both quotes. *)
Definition html_escape (s : string) : string :=
  let s := Str.replace "&" "&amp;" s in
  let s := Str.replace "<" "&lt;" s in
  let s := Str.replace ">" "&gt;" s in
  let s := Str.replace "034" "&quot;" s in
  let s := Str.replace "'" "&#x27;" s in
  s.

(** ** The records of the metadata service *)

Record SourceType := { st_label : option string }.
Record Source := { src_type : option SourceType }.
Record Identifier := {
  id_source : option Source;
  realUrl : option string
}.

Record Author := { mtid : option Z }.
Record Authorship := {
  authorTyped : option bool;
  listPosition : option Z;
  givenName : option string;
  familyName : option string;
  author : option Author
}.

Record PartOf := { part_label : option string }.
Record Place := {
  place_label : option string;
  partOf : option PartOf
}.

(** [book_other_keys] and [journal_other_keys]: the dict has a key that the
    script does not read, so it is true as a condition even when the keys
    below are absent. *)
Record Book := {
  book_title : option string;
  publishedAt : option (list Place);
  book_other_keys : bool
}.
Record Journal := {
  journal_title : option string;
  journal_label : option string;
  journal_other_keys : bool
}.

Record SubType := { nameEng : option string }.
Record MainType := { type_label : option string }.

Record Publication := {
  identifiers : option (list Identifier);
  authorships : option (list Authorship);
  book : option Book;
  journal : option Journal;
  volume : option string;
  issue : option string;
  firstPage : option string;
  lastPage : option string;
  subType : option SubType;
  type_ : option MainType;
  conferencePublication : option bool;
  publishedYear : option Z;
  title : option string;
  citingPubCount : option Z
}.

(** The empty dicts used as defaults. *)
Definition no_source : Source := {| src_type := None |}.
Definition no_source_type : SourceType := {| st_label := None |}.
Definition no_author : Author := {| mtid := None |}.
Definition no_part : PartOf := {| part_label := None |}.
Definition no_book : Book :=
  {| book_title := None; publishedAt := None; book_other_keys := false |}.
Definition no_journal : Journal :=
  {| journal_title := None; journal_label := None;
     journal_other_keys := false |}.
Definition no_sub_type : SubType := {| nameEng := None |}.
Definition no_main_type : MainType := {| type_label := None |}.

(** Truth of a dict: it has at least one key. *)
Definition is_some {A : Type} (o : option A) : bool :=
  match o with Some _ => true | None => false end.
Definition book_true (b : Book) : bool :=
  is_some (book_title b) || is_some (publishedAt b) || book_other_keys b.
Definition journal_true (j : Journal) : bool :=
  is_some (journal_title j) || is_some (journal_label j)
  || journal_other_keys j.

(** A record with every key absent, to build examples from. *)
Definition empty_pub : Publication :=
  {| identifiers := None; authorships := None; book := None;
     journal := None; volume := None; issue := None; firstPage := None;
     lastPage := None; subType := None; type_ := None;
     conferencePublication := None; publishedYear := None; title := None;
     citingPubCount := None |}.

Definition AUTHOR_MTID : Z := 10081350.
Definition INDEX_PATH : string := "index.html".
Definition MARKER_START : string := "<!-- PUBLICATIONS_START -->".
Definition MARKER_END : string := "<!-- PUBLICATIONS_END -->".

(** ** extract_doi *)

(** [source_type.get("label") == "DOI"] *)
Definition is_doi (ident : Identifier) : bool :=
  let source := Str.get (id_source ident) no_source in
  let source_type := Str.get (src_type source) no_source_type in
  match st_label source_type with
  | Some l => String.eqb l "DOI"
  | None => false
  end.

Fixpoint extract_doi_loop (idents : list Identifier) : string :=
  match idents with
  | [] => ""
  | ident :: rest =>
      if is_doi ident then Str.get (realUrl ident) ""
      else extract_doi_loop rest
  end.

Definition extract_doi (pub : Publication) : string :=
  extract_doi_loop (Str.get (identifiers pub) []).

(** ** extract_authors *)

(** [sorted(l, key=key)]: the stable sort, by insertion from the right, an
    element going before the elements of the same key that followed it. *)
Fixpoint insert_by {A : Type} (key : A -> Z) (x : A) (l : list A) : list A :=
  match l with
  | [] => [x]
  | y :: r => if (key x <=? key y)%Z then x :: l else y :: insert_by key x r
  end.

Definition sorted {A : Type} (key : A -> Z) (l : list A) : list A :=
  fold_right (insert_by key) [] l.

Definition position_key (a : Authorship) : Z := Str.get (listPosition a) 999%Z.

Definition sorted_authorships (pub : Publication) : list Authorship :=
  sorted position_key
    (filter (fun a => Str.get (authorTyped a) false)
            (Str.get (authorships pub) [])).

(** The body of the loop: the text appended to [parts] for one authorship. *)
Definition author_part `{unicode} (a : Authorship) : string :=
  let given := Str.get (givenName a) "" in
  let family := Str.get (familyName a) "" in
  let initial := if Str.nonempty given then Str.first_char given ++ "." else "" in
  let name := Str.strip (initial ++ " " ++ family) in
  let author_obj := Str.get (author a) no_author in
  match mtid author_obj with
  | Some m => if (m =? AUTHOR_MTID)%Z then "<strong>" ++ name ++ "</strong>"
              else name
  | None => name
  end.

Definition extract_authors `{unicode} (pub : Publication) : string :=
  Str.join ", " (List.map author_part (sorted_authorships pub)).

(** ** clean_journal_title *)

Module Issn.

(** The number of white-space characters at the head of [l]: what [\s+]
    takes at first. *)
Fixpoint spaces `{unicode} (l : list string) : nat :=
  match l with
  | x :: r => if Str.isspace x then S (spaces r) else 0
  | [] => 0
  end.

(** [\d{4}-\d{3}[\dXx]] at the head of [l]. *)
Definition token `{unicode} (l : list string) : bool :=
  match l with
  | d1 :: d2 :: d3 :: d4 :: h :: e1 :: e2 :: e3 :: k :: _ =>
      Str.isdecimal d1 && Str.isdecimal d2 && Str.isdecimal d3
      && Str.isdecimal d4
      && String.eqb h "-"
      && Str.isdecimal e1 && Str.isdecimal e2 && Str.isdecimal e3
      && (Str.isdecimal k || String.eqb k "X" || String.eqb k "x")
  | _ => false
  end.

(** [\s+\d{4}-\d{3}[\dXx]] at the head of [l], for [\s+] taking at most
    [n] characters: it gives them back one by one until the token
    follows.  The length that is taken. *)
Fixpoint backtrack `{unicode} (n : nat) (l : list string) : option nat :=
  match n with
  | 0 => None
  | S k => if token (skipn n l) then Some (n + 9) else backtrack k l
  end.

Definition group `{unicode} (l : list string) : option nat :=
  backtrack (spaces l) l.

(** [(\s+\d{4}-\d{3}[\dXx])*] at the head of [l], as many as there are;
    [skip] characters are passed over first. *)
Fixpoint groups_from `{unicode} (skip : nat) (l : list string) : nat :=
  match l with
  | [] => 0
  | _ :: r =>
      match skip with
      | S k => groups_from k r
      | 0 => match group l with
             | Some (S n) => S n + groups_from n r
             | _ => 0
             end
      end
  end.

(** The whole pattern at the head of [l]: the length of the match. *)
Definition match_at `{unicode} (l : list string) : option nat :=
  match group l with
  | Some n => Some (n + groups_from n l)
  | None => None
  end.

(** [re.sub(pattern, "", s)] on the characters of [s]: the matches are
    found from left to right, each search starting where the match before
    ended. *)
Fixpoint sub_from `{unicode} (skip : nat) (l : list string) : list string :=
  match l with
  | [] => []
  | x :: r =>
      match skip with
      | S k => sub_from k r
      | 0 => match match_at l with
             | Some (S n) => sub_from n r
             | _ => x :: sub_from 0 r
             end
      end
  end.

Definition sub `{unicode} (s : string) : string :=
  Str.concat (sub_from 0 (Str.chars s)).

End Issn.

Definition clean_journal_title `{unicode} (raw_title : string) : string :=
  let cleaned := Issn.sub raw_title in
  let cleaned := Str.strip cleaned in
  if String.eqb cleaned (Str.upper cleaned) && (5 <? Str.py_len cleaned)%nat
  then Str.title cleaned
  else cleaned.

(** ** extract_venue *)

(** U+2013, the en dash. *)
Definition en_dash : string := String "226" (String "128" (String "147" "")).

Definition extract_venue `{unicode} (pub : Publication) : string :=
  let book := Str.get (book pub) no_book in
  let venue := if book_true book then Str.get (book_title book) "" else "" in
  let journal := Str.get (journal pub) no_journal in
  let venue :=
    if journal_true journal then
      let raw := Str.get (journal_title journal)
                         (Str.get (journal_label journal) venue) in
      clean_journal_title raw
    else venue in
  let volume := Str.get (volume pub) "" in
  let issue := Str.get (issue pub) "" in
  let venue := if Str.nonempty volume then venue ++ ", vol. " ++ volume
               else venue in
  let venue := if Str.nonempty issue then venue ++ ", no. " ++ issue
               else venue in
  let first_page := Str.get (firstPage pub) "" in
  let last_page := Str.get (lastPage pub) "" in
  let venue :=
    if Str.nonempty first_page && Str.nonempty last_page
       && negb (String.eqb first_page last_page)
    then venue ++ ", pp. " ++ first_page ++ en_dash ++ last_page
    else if Str.nonempty first_page && Str.nonempty last_page
    then venue ++ ", p. " ++ first_page
    else venue in
  venue.

(** ** get_pub_type *)

Definition get_pub_type `{unicode} (pub : Publication) : string :=
  let sub_type := Str.get (subType pub) no_sub_type in
  let sub_label := Str.lower (Str.get (nameEng sub_type) "") in
  let main_type := Str.get (type_ pub) no_main_type in
  let main_label := Str.lower (Str.get (type_label main_type) "") in
  if Str.contains "journal" main_label
     || match journal pub with Some j => journal_true j | None => false end
  then "journal"
  else if Str.contains "conference" sub_label
          || Str.get (conferencePublication pub) false
  then "conference"
  else if Str.contains "book" main_label
  then (if Str.contains "conference" sub_label then "conference"
        else "journal")
  else "conference".

(** ** get_publisher *)

(** The first block: [Some] is an early return. *)
Definition publisher_of_book (pub : Publication) : option string :=
  let book := Str.get (book pub) no_book in
  if book_true book then
    match Str.get (publishedAt book) [] with
    | first :: _ =>
        let city_label := Str.get (place_label first) "" in
        let country :=
          Str.get (part_label (Str.get (partOf first) no_part)) "" in
        if Str.contains "Piscataway" city_label then Some "IEEE" else None
    | [] => None
    end
  else None.

(** The loop over the identifiers: [Some] is an early return. *)
Fixpoint publisher_of_identifiers (idents : list Identifier) : option string :=
  match idents with
  | [] => None
  | ident :: rest =>
      let url := Str.get (realUrl ident) "" in
      if Str.contains "ieeexplore" url then Some "IEEE"
      else if Str.contains "springer" url then Some "Springer"
      else publisher_of_identifiers rest
  end.

Definition publisher_of_doi (doi : string) : string :=
  if Str.contains "10.1109" doi || Str.contains "10.23919" doi then "IEEE"
  else if Str.contains "10.1007" doi then "Springer"
  else if Str.contains "10.36244" doi then ""
  else "".

Definition get_publisher (pub : Publication) : string :=
  match publisher_of_book pub with
  | Some p => p
  | None =>
      match publisher_of_identifiers (Str.get (identifiers pub) []) with
      | Some p => p
      | None => publisher_of_doi (extract_doi pub)
      end
  end.

(** ** build_html *)

Definition dquote : string := String "034" "".

(** An attribute value between double quotes. *)
Definition quoted (s : string) : string := dquote ++ s ++ dquote.

(** [by_year[year].append(pub)] on a [defaultdict(list)]; the dict keeps
    its keys in the order of their first insertion. *)
Fixpoint by_year_append (year : Z) (pub : Publication)
    (by_year : list (Z * list Publication)) : list (Z * list Publication) :=
  match by_year with
  | [] => [(year, [pub])]
  | (y, pubs) :: rest =>
      if (y =? year)%Z then (y, (pubs ++ [pub])%list) :: rest
      else (y, pubs) :: by_year_append year pub rest
  end.

(** The body of the first loop of [build_html]. *)
Definition group_step (by_year : list (Z * list Publication))
    (pub : Publication) : list (Z * list Publication) :=
  let year := Str.get (publishedYear pub) 0%Z in
  if (year =? 0)%Z then by_year else by_year_append year pub by_year.

(** The first loop of [build_html]. *)
Definition group_by_year (publications : list Publication)
    : list (Z * list Publication) :=
  fold_left group_step publications [].

(** [by_year[year]] for a key of the dict. *)
Fixpoint lookup_year (year : Z) (by_year : list (Z * list Publication))
    : list Publication :=
  match by_year with
  | [] => []
  | (y, pubs) :: rest => if (y =? year)%Z then pubs else lookup_year year rest
  end.

(** [sorted(keys, reverse=True)]. *)
Definition sorted_reverse (keys : list Z) : list Z :=
  sorted Z.opp keys.

(** Base indentation: 12 spaces. *)
Definition I : string := "            ".

Definition title_html (pub : Publication) : string :=
  let title := html_escape (Str.get (title pub) "Unknown Title") in
  let doi_url := extract_doi pub in
  if Str.nonempty doi_url
  then "<a href=" ++ quoted doi_url ++ " target=" ++ quoted "_blank"
       ++ " rel=" ++ quoted "noopener" ++ ">" ++ title ++ "</a>"
  else title.

Definition meta_parts `{unicode} (pub : Publication) : list string :=
  let pub_type := get_pub_type pub in
  let publisher := get_publisher pub in
  let citing_total := Str.get (citingPubCount pub) 0%Z in
  let badge_class := if String.eqb pub_type "journal" then "badge-journal"
                     else "badge-conference" in
  let badge_label := if String.eqb pub_type "journal" then "Journal"
                     else "Conference" in
  ["<span class=" ++ quoted ("pub-badge " ++ badge_class) ++ ">"
     ++ badge_label ++ "</span>"]
  ++ (if Str.nonempty publisher then ["<span>" ++ publisher ++ "</span>"]
      else [])
  ++ (if (0 <? citing_total)%Z
      then ["<span class=" ++ quoted "badge-citations" ++ ">Cited by "
              ++ Str.of_Z citing_total ++ "</span>"]
      else []).

(** The lines appended to [html_parts] for one publication. *)
Definition pub_parts `{unicode} (pub : Publication) : list string :=
  let authors := extract_authors pub in
  let venue := html_escape (extract_venue pub) in
  [ I ++ "    <div class=" ++ quoted "pub-item" ++ ">";
    I ++ "        <div class=" ++ quoted "pub-title" ++ ">";
    I ++ "            " ++ title_html pub;
    I ++ "        </div>";
    I ++ "        <div class=" ++ quoted "pub-authors" ++ ">" ++ authors
      ++ "</div>";
    I ++ "        <div class=" ++ quoted "pub-venue" ++ ">" ++ venue
      ++ "</div>";
    I ++ "        <div class=" ++ quoted "pub-meta" ++ ">" ]
  ++ List.map (fun mp => I ++ "            " ++ mp) (meta_parts pub)
  ++ [ I ++ "        </div>";
       I ++ "    </div>";
       "" ].

(** The lines appended to [html_parts] for one year. *)
Definition year_parts `{unicode} (year : Z) (pubs : list Publication) : list string :=
  [ I ++ "<div class=" ++ quoted "year-group" ++ ">";
    I ++ "    <div class=" ++ quoted "year-label" ++ ">" ++ Str.of_Z year
      ++ "</div>";
    "" ]
  ++ flat_map pub_parts pubs
  ++ [ I ++ "</div>"; "" ].

Definition html_parts `{unicode} (publications : list Publication) : list string :=
  let by_year := group_by_year publications in
  flat_map (fun year => year_parts year (lookup_year year by_year))
           (sorted_reverse (List.map fst by_year)).

Definition newline : string := String "010" "".

Definition build_html `{unicode} (publications : list Publication) : string :=
  Str.join newline (html_parts publications).

(** ** update_index *)

(** The replacement string of [re.subn] is a template: [re] reads its
    backslash escapes before it looks for a match (CPython 3.12,
    [re._parser.parse_template]), for a pattern without groups. *)
Module Template.

(** A literal text, or the text of the whole match ([\g<0>]). *)
Inductive piece := Lit (s : string) | Group0.

Definition is_octdigit (c : ascii) : bool := Str.in_range 48 55 c.
Definition digit_value (c : ascii) : nat := Str.code c - 48.

(** [chr(v)] for [v < 256], in UTF-8. *)
Definition chr (v : nat) : string :=
  if (v <? 128)%nat then String (ascii_of_nat v) ""
  else String (ascii_of_nat (192 + v / 64))
         (String (ascii_of_nat (128 + v mod 64)) "").

(** [ESCAPES]: the escapes that stand for one character. *)
Definition escape_of (c : ascii) : option ascii :=
  if Ascii.eqb c "a" then Some "007"%char
  else if Ascii.eqb c "b" then Some "008"%char
  else if Ascii.eqb c "f" then Some "012"%char
  else if Ascii.eqb c "n" then Some "010"%char
  else if Ascii.eqb c "r" then Some "013"%char
  else if Ascii.eqb c "t" then Some "009"%char
  else if Ascii.eqb c "v" then Some "011"%char
  else if Ascii.eqb c "\" then Some "\"%char
  else None.

(** The group name of [\g<name>]: the text up to the first [>]. *)
Fixpoint name_until_gt (s : string) : option string :=
  match s with
  | EmptyString => None
  | String c r =>
      if Ascii.eqb c ">" then Some EmptyString
      else option_map (String c) (name_until_gt r)
  end.

Fixpoint all_zero (s : string) : bool :=
  match s with
  | EmptyString => true
  | String c r => Ascii.eqb c "0" && all_zero r
  end.

Definition emit (p : piece) (rest : option (list piece))
    : option (list piece) :=
  option_map (cons p) rest.

(** [None]: an exception is raised ([re.error], or [IndexError] for a group
    name the pattern does not have).  The pattern has no group, so only
    group 0 can be named. *)
Fixpoint parse_from (skip : nat) (s : string) : option (list piece) :=
  match s with
  | EmptyString => Some []
  | String c r =>
      match skip with
      | S k => parse_from k r
      | 0 =>
          if negb (Ascii.eqb c "\")
          then emit (Lit (String c "")) (parse_from 0 r)
          else
            match r with
            | EmptyString => None
            | String e r' =>
                if Ascii.eqb e "g" then
                  match r' with
                  | String "<" r2 =>
                      match name_until_gt r2 with
                      | Some name =>
                          if Str.nonempty name && all_zero name
                          then emit Group0 (parse_from (3 + length name) r)
                          else None
                      | None => None
                      end
                  | _ => None
                  end
                else if Ascii.eqb e "0" then
                  match r' with
                  | String d1 r1 =>
                      if is_octdigit d1 then
                        match r1 with
                        | String d2 _ =>
                            if is_octdigit d2
                            then emit (Lit (chr (digit_value d1 * 8
                                                 + digit_value d2)))
                                      (parse_from 3 r)
                            else emit (Lit (chr (digit_value d1)))
                                      (parse_from 2 r)
                        | EmptyString =>
                            emit (Lit (chr (digit_value d1))) (parse_from 2 r)
                        end
                      else emit (Lit (chr 0)) (parse_from 1 r)
                  | EmptyString => emit (Lit (chr 0)) (parse_from 1 r)
                  end
                else if Str.is_digit e then
                  match r' with
                  | String d2 (String d3 _) =>
                      if is_octdigit e && is_octdigit d2 && is_octdigit d3
                      then
                        let v := digit_value e * 64 + digit_value d2 * 8
                                 + digit_value d3 in
                        if (255 <? v)%nat then None
                        else emit (Lit (chr v)) (parse_from 3 r)
                      else None
                  | _ => None
                  end
                else
                  match escape_of e with
                  | Some x => emit (Lit (String x "")) (parse_from 1 r)
                  | None =>
                      if Str.is_cased e then None
                      else emit (Lit (String c (String e "")))
                                (parse_from 1 r)
                  end
            end
      end
  end.

Definition parse (template : string) : option (list piece) :=
  parse_from 0 template.

(** The text that replaces the match [m]. *)
Fixpoint expand (template : list piece) (m : string) : string :=
  match template with
  | [] => ""
  | Lit s :: rest => s ++ expand rest m
  | Group0 :: rest => m ++ expand rest m
  end.

End Template.

(** The pattern [re.escape(MARKER_START) + ".*?" + re.escape(MARKER_END)]
    with [re.DOTALL], and [re.subn] on it. *)
Module Marker.

(** [s.find(pat)]: the index of the first occurrence. *)
Fixpoint find (pat s : string) : option nat :=
  if prefix pat s then Some 0
  else match s with
       | EmptyString => None
       | String _ r => option_map S (find pat r)
       end.

(** The pattern at the head of [s]: the start marker, then as few
    characters as possible (any character, the line feed too), then the end
    marker.  The length of the match. *)
Definition match_at (s : string) : option nat :=
  if prefix MARKER_START s then
    match find MARKER_END (Str.drop (length MARKER_START) s) with
    | Some i => Some (length MARKER_START + i + length MARKER_END)
    | None => None
    end
  else None.

(** [re.subn(pattern, repl, s)]: every match is replaced, from left to
    right, each search starting where the match before ended; the number of
    replacements is returned with the new text. *)
Fixpoint subn_from (repl : string -> string) (skip : nat) (s : string)
    : string * nat :=
  match s with
  | EmptyString => (EmptyString, 0)
  | String c r =>
      match skip with
      | S k => subn_from repl k r
      | 0 =>
          match match_at s with
          | Some (S n) =>
              let (out, count) := subn_from repl n r in
              (repl (Str.take (S n) s) ++ out, S count)
          | _ =>
              let (out, count) := subn_from repl 0 r in
              (String c out, count)
          end
      end
  end.

Definition subn (repl : string -> string) (s : string) : string * nat :=
  subn_from repl 0 s.

End Marker.

(** What a call has returned, or that it has raised an exception. *)
Inductive returned (A : Type) :=
| Returns (v : A)
| Raises.
Arguments Returns {A} v.
Arguments Raises {A}.

(** A run on the file [index.html]: its text afterwards, the texts written
    to it, in order, and the lines printed. *)
Record run (A : Type) := {
  result : returned A;
  file : string;
  writes : list string;
  printed : list string
}.
Arguments result {A} r.
Arguments file {A} r.
Arguments writes {A} r.
Arguments printed {A} r.

Definition of_nat (n : nat) : string := Str.of_Z (Z.of_nat n).

(** [content] is the text of [index.html] when the function is called. *)
Definition update_index (publications_html : string) (content : string)
    : run bool :=
  let replacement :=
    MARKER_START ++ newline ++ publications_html ++ newline ++ "        "
    ++ MARKER_END in
  match Template.parse replacement with
  | None =>
      {| result := Raises; file := content; writes := []; printed := [] |}
  | Some template =>
      let (new_content, count) :=
        Marker.subn (Template.expand template) content in
      if (count =? 0)%nat then
        {| result := Returns false; file := content; writes := [];
           printed :=
             [ "ERROR: Could not find publication markers in index.html!";
               "Looking for: " ++ MARKER_START ++ " ... " ++ MARKER_END ] |}
      else
        {| result := Returns true; file := new_content;
           writes := [new_content];
           printed :=
             [ "Updated index.html (" ++ of_nat count
               ++ " replacement(s) made)." ] |}
  end.

(** ** main *)

(** [publications] is what [fetch_publications] returned (the lines that
    the fetch loop prints are left out); the result is the exit status of
    the process: 0 when [main] returns, 1 for [exit(1)] and for an
    exception that nothing catches. *)
Definition main `{unicode} (publications : list Publication) (content : string)
    : run Z :=
  match publications with
  | [] =>
      {| result := Returns 0%Z; file := content; writes := [];
         printed := [ "Fetching publications from MTMT...";
                      "No publications found. Exiting without changes." ] |}
  | _ =>
      let publications_html := build_html publications in
      let r := update_index publications_html content in
      let before :=
        [ "Fetching publications from MTMT...";
          newline ++ "Processing " ++ of_nat (List.length publications)
            ++ " publications...";
          newline ++ "Updating index.html..." ] in
      match result r with
      | Returns true =>
          {| result := Returns 0%Z; file := file r; writes := writes r;
             printed := before ++ printed r
                        ++ ["Done! Publications updated successfully."] |}
      | Returns false =>
          {| result := Returns 1%Z; file := file r; writes := writes r;
             printed := before ++ printed r
                        ++ ["Failed to update index.html."] |}
      | Raises =>
          {| result := Returns 1%Z; file := file r; writes := writes r;
             printed := before ++ printed r |}
      end
  end.

(** ** fetch_publications *)

(** What the service answers to one request: [urlopen] raises [URLError]
    (with the text that is printed for it), or the body is a JSON object
    with the keys [content] and [paging]. *)
Record Paging := { last : option bool }.
Record PageData := {
  content : option (list Publication);
  paging : option Paging
}.
Inductive response :=
| UrlError (e : string)
| Json (data : PageData).

Definition no_paging : Paging := {| last := None |}.

(** [MTMT_API.format(author_id=AUTHOR_MTID) + f"&page={page}"] *)
Definition MTMT_API (author_id : string) : string :=
  "https://m2.mtmt.hu/api/publication"
  ++ "?cond=authors;eq;" ++ author_id
  ++ "&sort=publishedYear,desc"
  ++ "&size=50"
  ++ "&labelLang=eng"
  ++ "&format=json".

Definition page_url (page : nat) : string :=
  MTMT_API (Str.of_Z AUTHOR_MTID) ++ "&page=" ++ of_nat page.

(** The [while True] loop, from the page [page] on, with the list
    collected so far; [server] answers a request by its URL.  The loop
    has no bound of its own: [fuel] bounds the number of requests, and
    [None] says that it did not suffice.  The result is the list and the
    lines printed. *)
Fixpoint fetch_loop (fuel : nat) (server : string -> response) (page : nat)
    (publications : list Publication) : option (list Publication * list string) :=
  match fuel with
  | 0 => None
  | S fuel' =>
      let url := page_url page in
      let line := "Fetching page " ++ of_nat page ++ ": " ++ url in
      match server url with
      | UrlError e =>
          Some (publications,
                [ line; "Error fetching page " ++ of_nat page ++ ": " ++ e ])
      | Json data =>
          match Str.get (content data) [] with
          | [] => Some (publications, [line])
          | c :: cs =>
              let publications := (publications ++ c :: cs)%list in
              let paging := Str.get (paging data) no_paging in
              if Str.get (last paging) true then Some (publications, [line])
              else
                match fetch_loop fuel' server (S page) publications with
                | Some (found, lines) => Some (found, line :: lines)
                | None => None
                end
          end
      end
  end.

Definition fetch_publications (fuel : nat) (server : string -> response)
    : option (list Publication * list string) :=
  match fetch_loop fuel server 1 [] with
  | Some (publications, lines) =>
      Some (publications,
            app lines
              [ "Fetched " ++ of_nat (List.length publications)
                ++ " publications total." ])
  | None => None
  end.

(** The script as it is run: [main] on what [fetch_publications] returns. *)
Definition script `{unicode} (fuel : nat) (server : string -> response)
    (content : string) : option (run Z) :=
  match fetch_publications fuel server with
  | Some (publications, _) => Some (main publications content)
  | None => None
  end.

(** * Specification

    The notions the properties are stated with, in the words of the
    specification, and the records used as examples. *)

(** ** Identifiers *)

(** The source-type label of the identifier equals ["DOI"]. *)
Definition doi_typed (ident : Identifier) : Prop :=
  exists source source_type,
    id_source ident = Some source /\ src_type source = Some source_type
    /\ st_label source_type = Some "DOI".

(** ** Venues *)

(** [if book:] and [if journal:] in [extract_venue]. *)
Definition has_book (pub : Publication) : bool :=
  book_true (Str.get (book pub) no_book).
Definition has_journal (pub : Publication) : bool :=
  journal_true (Str.get (journal pub) no_journal).

(** The venue seeded from the parent book. *)
Definition book_venue (pub : Publication) : string :=
  if has_book pub then Str.get (book_title (Str.get (book pub) no_book)) ""
  else "".

(** The title the journal entry gives: its title, else its label, else the
    venue seeded from the book. *)
Definition journal_raw (pub : Publication) : string :=
  let j := Str.get (journal pub) no_journal in
  match journal_title j, journal_label j with
  | Some t, _ => t
  | None, Some l => l
  | None, None => book_venue pub
  end.

(** Both page fields are present and not empty. *)
Definition has_pages (pub : Publication) : bool :=
  Str.nonempty (Str.get (firstPage pub) "")
  && Str.nonempty (Str.get (lastPage pub) "").

(** The locator: volume, then issue, then pages. *)
Definition locator (pub : Publication) : string :=
  let volume := Str.get (volume pub) "" in
  let issue := Str.get (issue pub) "" in
  let first_page := Str.get (firstPage pub) "" in
  let last_page := Str.get (lastPage pub) "" in
  (if Str.nonempty volume then ", vol. " ++ volume else "")
  ++ (if Str.nonempty issue then ", no. " ++ issue else "")
  ++ (if has_pages pub then
        if String.eqb first_page last_page then ", p. " ++ first_page
        else ", pp. " ++ first_page ++ en_dash ++ last_page
      else "").

(** ** Strings *)

(** A list of code points as [Str.chars] gives it: every element encodes
    one code point, but the first when the string begins inside one. *)
Definition chunk (x : string) : bool :=
  match x with
  | EmptyString => false
  | String _ r => Str.all_continuation r
  end.

Definition segmented (l : list string) : Prop :=
  match l with
  | [] => True
  | x :: r => chunk x = true /\ Forall (fun y => Str.code_point y = true) r
  end.

(** [l'] is [l] without some of its elements. *)
Inductive subsequence {A : Type} : list A -> list A -> Prop :=
| subsequence_nil : subsequence [] []
| subsequence_skip x l' l : subsequence l' l -> subsequence l' (x :: l)
| subsequence_keep x l' l : subsequence l' l -> subsequence (x :: l') (x :: l).

(** The list is empty or begins with a character that is no space. *)
Definition starts_clean `{unicode} (l : list string) : bool :=
  match l with
  | [] => true
  | x :: _ => negb (Str.isspace x)
  end.

(** ** The Unicode database: what the proofs use of it *)

(** The code point is its own upper case. *)
Definition upper_fixed `{unicode} (x : string) : Prop :=
  Str.upper_char x = [x].

(** A case mapping gives code points, and at least one. *)
Definition full_mapping (f : string -> list string) : Prop :=
  forall x, Str.code_point x = true ->
    f x <> [] /\ Forall (fun y => Str.code_point y = true) (f x).

(** A case mapping makes no white space. *)
Definition keeps_text `{unicode} (f : string -> list string) : Prop :=
  forall x, Str.isspace x = false ->
    Forall (fun y => Str.isspace y = false) (f x).

(** A case mapping that changes a code point which is its own upper case
    gives one that is not. *)
Definition leaves_upper_case `{unicode} (f : string -> list string) : Prop :=
  forall x, upper_fixed x -> Forall upper_fixed (f x) -> f x = [x].

(** The database is regular: the case mappings are full; the title case
    and the lower case of a character that is no white space hold none,
    and neither sigma is white space; the title case and the lower case
    of a character that is its own upper case are the character or are
    not their own upper case, and neither small sigma is its own upper
    case.  The Unicode Character Database is regular (version 14.0, that
    of CPython 3.11): it is proved of the tables below. *)
Definition regular `{unicode} : Prop :=
  (full_mapping Str.upper_char /\ full_mapping Str.lower_char
   /\ full_mapping Str.title_char)
  /\ (keeps_text Str.lower_char /\ keeps_text Str.title_char
      /\ Str.isspace Str.small_sigma = false
      /\ Str.isspace Str.final_sigma = false)
  /\ (leaves_upper_case Str.lower_char /\ leaves_upper_case Str.title_char
      /\ ~ upper_fixed Str.small_sigma /\ ~ upper_fixed Str.final_sigma).

(** The character [c] is one of [s]. *)
Fixpoint has_char (c : ascii) (s : string) : bool :=
  match s with
  | EmptyString => false
  | String x r => Ascii.eqb x c || has_char c r
  end.

(** [pat] occurs in [s]. *)
Definition occurs (pat s : string) : Prop :=
  exists a b, s = a ++ pat ++ b.

(** ** Publisher inference *)

(** A book entry exists with a non-empty "published at" list, and the city
    label of its first entry contains ["Piscataway"]. *)
Definition city_is_piscataway (pub : Publication) : Prop :=
  exists b first rest,
    book pub = Some b /\ book_true b = true
    /\ publishedAt b = Some (first :: rest)
    /\ occurs "Piscataway" (Str.get (place_label first) "").

(** The URL of an identifier, and that it names a publisher. *)
Definition url_of (ident : Identifier) : string :=
  Str.get (realUrl ident) "".

Definition names_publisher (ident : Identifier) : Prop :=
  occurs "ieeexplore" (url_of ident) \/ occurs "springer" (url_of ident).

(** The characters of [s] that [html.escape] replaces. *)
Definition is_markup (c : ascii) : bool :=
  Ascii.eqb c "<" || Ascii.eqb c ">" || Ascii.eqb c "034" || Ascii.eqb c "'".

Fixpoint has_markup (s : string) : bool :=
  match s with
  | EmptyString => false
  | String c r => is_markup c || has_markup r
  end.

(** ** The fragment *)

(** The text of the block of a record down to its title: the opening of
    the item, then the title element around what is shown as the title,
    each line ended by a line feed. *)
Definition title_block (shown : string) : string :=
  I ++ "    <div class=" ++ quoted "pub-item" ++ ">" ++ newline
  ++ I ++ "        <div class=" ++ quoted "pub-title" ++ ">" ++ newline
  ++ I ++ "            " ++ shown ++ newline
  ++ I ++ "        </div>" ++ newline.

(** ** Marker pairs *)

(** [pat] occurs in [s] at its end only. *)
Definition only_at_end (pat s : string) : Prop :=
  forall a b, s ++ pat = a ++ pat ++ b -> b = "".

(** The document holds a start marker with an end marker after it. *)
Definition has_marker_pair (doc : string) : Prop :=
  exists pre mid post,
    doc = pre ++ MARKER_START ++ mid ++ MARKER_END ++ post.

(** [replaced repl doc out n]: [out] is [doc] with each of its [n] marker
    spans replaced, the spans taken from left to right without overlap: a
    span goes from the first start marker to the nearest end marker after
    it, and the next one is looked for behind it. *)
Inductive replaced (repl : string -> string) : string -> string -> nat -> Prop :=
| replaced_none doc :
    ~ has_marker_pair doc ->
    replaced repl doc doc 0
| replaced_span pre mid post out n :
    only_at_end MARKER_START pre ->
    only_at_end MARKER_END mid ->
    replaced repl post out n ->
    replaced repl
      (pre ++ MARKER_START ++ mid ++ MARKER_END ++ post)
      (pre ++ repl (MARKER_START ++ mid ++ MARKER_END) ++ out)
      (S n).

(** The replacement string [update_index] builds. *)
Definition replacement_of (publications_html : string) : string :=
  MARKER_START ++ newline ++ publications_html ++ newline ++ "        "
  ++ MARKER_END.

(** The template of a replacement string without backslash: the string
    itself. *)
Fixpoint literal (s : string) : list Template.piece :=
  match s with
  | EmptyString => []
  | String c r => Template.Lit (String c "") :: literal r
  end.

(** ** The Unicode database of CPython 3.11

    The examples are run with the Unicode Character Database in version
    14.0, as CPython 3.11 holds it ([Objects/unicodetype_db.h]).  For the
    code points beyond ASCII it says, by ranges of their numbers, which are
    white space, decimal digits, cased and case-ignorable, and it gives
    the case mappings of those that have one. *)

(** [chr(n)]: the code point [n] in UTF-8. *)
Definition utf8 (n : N) : string :=
  let byte (lead shift : N) := ascii_of_N (lead + (n / shift) mod 0x40)%N in
  (if n <? 0x80 then String (ascii_of_N n) EmptyString
   else if n <? 0x800 then
     String (byte 0xC0 0x40) (String (byte 0x80 1) EmptyString)
   else if n <? 0x10000 then
     String (byte 0xE0 0x1000)
       (String (byte 0x80 0x40) (String (byte 0x80 1) EmptyString))
   else
     String (byte 0xF0 0x40000)
       (String (byte 0x80 0x1000)
          (String (byte 0x80 0x40) (String (byte 0x80 1) EmptyString))))%N.

(** [ord(x)]: the number of the code point that [x] encodes. *)
Definition ord (x : string) : option N :=
  let low (c : ascii) := (N_of_ascii c mod 0x40)%N in
  let n :=
    match x with
    | String a EmptyString => N_of_ascii a
    | String a (String b EmptyString) =>
        (N_of_ascii a - 0xC0) * 0x40 + low b
    | String a (String b (String c EmptyString)) =>
        (N_of_ascii a - 0xE0) * 0x1000 + low b * 0x40 + low c
    | String a (String b (String c (String d EmptyString))) =>
        (N_of_ascii a - 0xF0) * 0x40000 + low b * 0x1000 + low c * 0x40
        + low d
    | _ => 0
    end%N in
  if String.eqb (utf8 n) x then Some n else None.

Definition in_ranges (n : N) (ranges : list (N * N)) : bool :=
  existsb (fun r => (fst r <=? n)%N && (n <=? snd r)%N) ranges.

(** [str.isspace]: the characters of bidirectional type WS, B or S, and of
    category Zs. *)
Definition White_Space : list (N * N) :=
  [
    (0x0085, 0x0085); (0x00A0, 0x00A0); (0x1680, 0x1680); (0x2000, 0x200A);
    (0x2028, 0x2029); (0x202F, 0x202F); (0x205F, 0x205F); (0x3000, 0x3000)
  ]%N.

(** Category Nd. *)
Definition Decimal_Number : list (N * N) :=
  [
    (0x0660, 0x0669); (0x06F0, 0x06F9); (0x07C0, 0x07C9); (0x0966, 0x096F);
    (0x09E6, 0x09EF); (0x0A66, 0x0A6F); (0x0AE6, 0x0AEF); (0x0B66, 0x0B6F);
    (0x0BE6, 0x0BEF); (0x0C66, 0x0C6F); (0x0CE6, 0x0CEF); (0x0D66, 0x0D6F);
    (0x0DE6, 0x0DEF); (0x0E50, 0x0E59); (0x0ED0, 0x0ED9); (0x0F20, 0x0F29);
    (0x1040, 0x1049); (0x1090, 0x1099); (0x17E0, 0x17E9); (0x1810, 0x1819);
    (0x1946, 0x194F); (0x19D0, 0x19D9); (0x1A80, 0x1A89); (0x1A90, 0x1A99);
    (0x1B50, 0x1B59); (0x1BB0, 0x1BB9); (0x1C40, 0x1C49); (0x1C50, 0x1C59);
    (0xA620, 0xA629); (0xA8D0, 0xA8D9); (0xA900, 0xA909); (0xA9D0, 0xA9D9);
    (0xA9F0, 0xA9F9); (0xAA50, 0xAA59); (0xABF0, 0xABF9); (0xFF10, 0xFF19);
    (0x104A0, 0x104A9); (0x10D30, 0x10D39); (0x11066, 0x1106F);
    (0x110F0, 0x110F9); (0x11136, 0x1113F); (0x111D0, 0x111D9);
    (0x112F0, 0x112F9); (0x11450, 0x11459); (0x114D0, 0x114D9);
    (0x11650, 0x11659); (0x116C0, 0x116C9); (0x11730, 0x11739);
    (0x118E0, 0x118E9); (0x11950, 0x11959); (0x11C50, 0x11C59);
    (0x11D50, 0x11D59); (0x11DA0, 0x11DA9); (0x16A60, 0x16A69);
    (0x16AC0, 0x16AC9); (0x16B50, 0x16B59); (0x1D7CE, 0x1D7FF);
    (0x1E140, 0x1E149); (0x1E2F0, 0x1E2F9); (0x1E950, 0x1E959);
    (0x1FBF0, 0x1FBF9)
  ]%N.

(** Derived property Cased. *)
Definition Cased : list (N * N) :=
  [
    (0x00AA, 0x00AA); (0x00B5, 0x00B5); (0x00BA, 0x00BA); (0x00C0, 0x00D6);
    (0x00D8, 0x00F6); (0x00F8, 0x01BA); (0x01BC, 0x01BF); (0x01C4, 0x0293);
    (0x0295, 0x02B8); (0x02C0, 0x02C1); (0x02E0, 0x02E4); (0x0345, 0x0345);
    (0x0370, 0x0373); (0x0376, 0x0377); (0x037A, 0x037D); (0x037F, 0x037F);
    (0x0386, 0x0386); (0x0388, 0x038A); (0x038C, 0x038C); (0x038E, 0x03A1);
    (0x03A3, 0x03F5); (0x03F7, 0x0481); (0x048A, 0x052F); (0x0531, 0x0556);
    (0x0560, 0x0588); (0x10A0, 0x10C5); (0x10C7, 0x10C7); (0x10CD, 0x10CD);
    (0x10D0, 0x10FA); (0x10FD, 0x10FF); (0x13A0, 0x13F5); (0x13F8, 0x13FD);
    (0x1C80, 0x1C88); (0x1C90, 0x1CBA); (0x1CBD, 0x1CBF); (0x1D00, 0x1DBF);
    (0x1E00, 0x1F15); (0x1F18, 0x1F1D); (0x1F20, 0x1F45); (0x1F48, 0x1F4D);
    (0x1F50, 0x1F57); (0x1F59, 0x1F59); (0x1F5B, 0x1F5B); (0x1F5D, 0x1F5D);
    (0x1F5F, 0x1F7D); (0x1F80, 0x1FB4); (0x1FB6, 0x1FBC); (0x1FBE, 0x1FBE);
    (0x1FC2, 0x1FC4); (0x1FC6, 0x1FCC); (0x1FD0, 0x1FD3); (0x1FD6, 0x1FDB);
    (0x1FE0, 0x1FEC); (0x1FF2, 0x1FF4); (0x1FF6, 0x1FFC); (0x2071, 0x2071);
    (0x207F, 0x207F); (0x2090, 0x209C); (0x2102, 0x2102); (0x2107, 0x2107);
    (0x210A, 0x2113); (0x2115, 0x2115); (0x2119, 0x211D); (0x2124, 0x2124);
    (0x2126, 0x2126); (0x2128, 0x2128); (0x212A, 0x212D); (0x212F, 0x2134);
    (0x2139, 0x2139); (0x213C, 0x213F); (0x2145, 0x2149); (0x214E, 0x214E);
    (0x2160, 0x217F); (0x2183, 0x2184); (0x24B6, 0x24E9); (0x2C00, 0x2CE4);
    (0x2CEB, 0x2CEE); (0x2CF2, 0x2CF3); (0x2D00, 0x2D25); (0x2D27, 0x2D27);
    (0x2D2D, 0x2D2D); (0xA640, 0xA66D); (0xA680, 0xA69D); (0xA722, 0xA787);
    (0xA78B, 0xA78E); (0xA790, 0xA7CA); (0xA7D0, 0xA7D1); (0xA7D3, 0xA7D3);
    (0xA7D5, 0xA7D9); (0xA7F5, 0xA7F6); (0xA7F8, 0xA7FA); (0xAB30, 0xAB5A);
    (0xAB5C, 0xAB68); (0xAB70, 0xABBF); (0xFB00, 0xFB06); (0xFB13, 0xFB17);
    (0xFF21, 0xFF3A); (0xFF41, 0xFF5A); (0x10400, 0x1044F);
    (0x104B0, 0x104D3); (0x104D8, 0x104FB); (0x10570, 0x1057A);
    (0x1057C, 0x1058A); (0x1058C, 0x10592); (0x10594, 0x10595);
    (0x10597, 0x105A1); (0x105A3, 0x105B1); (0x105B3, 0x105B9);
    (0x105BB, 0x105BC); (0x10780, 0x10780); (0x10783, 0x10785);
    (0x10787, 0x107B0); (0x107B2, 0x107BA); (0x10C80, 0x10CB2);
    (0x10CC0, 0x10CF2); (0x118A0, 0x118DF); (0x16E40, 0x16E7F);
    (0x1D400, 0x1D454); (0x1D456, 0x1D49C); (0x1D49E, 0x1D49F);
    (0x1D4A2, 0x1D4A2); (0x1D4A5, 0x1D4A6); (0x1D4A9, 0x1D4AC);
    (0x1D4AE, 0x1D4B9); (0x1D4BB, 0x1D4BB); (0x1D4BD, 0x1D4C3);
    (0x1D4C5, 0x1D505); (0x1D507, 0x1D50A); (0x1D50D, 0x1D514);
    (0x1D516, 0x1D51C); (0x1D51E, 0x1D539); (0x1D53B, 0x1D53E);
    (0x1D540, 0x1D544); (0x1D546, 0x1D546); (0x1D54A, 0x1D550);
    (0x1D552, 0x1D6A5); (0x1D6A8, 0x1D6C0); (0x1D6C2, 0x1D6DA);
    (0x1D6DC, 0x1D6FA); (0x1D6FC, 0x1D714); (0x1D716, 0x1D734);
    (0x1D736, 0x1D74E); (0x1D750, 0x1D76E); (0x1D770, 0x1D788);
    (0x1D78A, 0x1D7A8); (0x1D7AA, 0x1D7C2); (0x1D7C4, 0x1D7CB);
    (0x1DF00, 0x1DF09); (0x1DF0B, 0x1DF1E); (0x1E900, 0x1E943);
    (0x1F130, 0x1F149); (0x1F150, 0x1F169); (0x1F170, 0x1F189)
  ]%N.

(** Derived property Case_Ignorable. *)
Definition Case_Ignorable : list (N * N) :=
  [
    (0x00A8, 0x00A8); (0x00AD, 0x00AD); (0x00AF, 0x00AF); (0x00B4, 0x00B4);
    (0x00B7, 0x00B8); (0x02B0, 0x036F); (0x0374, 0x0375); (0x037A, 0x037A);
    (0x0384, 0x0385); (0x0387, 0x0387); (0x0483, 0x0489); (0x0559, 0x0559);
    (0x055F, 0x055F); (0x0591, 0x05BD); (0x05BF, 0x05BF); (0x05C1, 0x05C2);
    (0x05C4, 0x05C5); (0x05C7, 0x05C7); (0x05F4, 0x05F4); (0x0600, 0x0605);
    (0x0610, 0x061A); (0x061C, 0x061C); (0x0640, 0x0640); (0x064B, 0x065F);
    (0x0670, 0x0670); (0x06D6, 0x06DD); (0x06DF, 0x06E8); (0x06EA, 0x06ED);
    (0x070F, 0x070F); (0x0711, 0x0711); (0x0730, 0x074A); (0x07A6, 0x07B0);
    (0x07EB, 0x07F5); (0x07FA, 0x07FA); (0x07FD, 0x07FD); (0x0816, 0x082D);
    (0x0859, 0x085B); (0x0888, 0x0888); (0x0890, 0x0891); (0x0898, 0x089F);
    (0x08C9, 0x0902); (0x093A, 0x093A); (0x093C, 0x093C); (0x0941, 0x0948);
    (0x094D, 0x094D); (0x0951, 0x0957); (0x0962, 0x0963); (0x0971, 0x0971);
    (0x0981, 0x0981); (0x09BC, 0x09BC); (0x09C1, 0x09C4); (0x09CD, 0x09CD);
    (0x09E2, 0x09E3); (0x09FE, 0x09FE); (0x0A01, 0x0A02); (0x0A3C, 0x0A3C);
    (0x0A41, 0x0A42); (0x0A47, 0x0A48); (0x0A4B, 0x0A4D); (0x0A51, 0x0A51);
    (0x0A70, 0x0A71); (0x0A75, 0x0A75); (0x0A81, 0x0A82); (0x0ABC, 0x0ABC);
    (0x0AC1, 0x0AC5); (0x0AC7, 0x0AC8); (0x0ACD, 0x0ACD); (0x0AE2, 0x0AE3);
    (0x0AFA, 0x0AFF); (0x0B01, 0x0B01); (0x0B3C, 0x0B3C); (0x0B3F, 0x0B3F);
    (0x0B41, 0x0B44); (0x0B4D, 0x0B4D); (0x0B55, 0x0B56); (0x0B62, 0x0B63);
    (0x0B82, 0x0B82); (0x0BC0, 0x0BC0); (0x0BCD, 0x0BCD); (0x0C00, 0x0C00);
    (0x0C04, 0x0C04); (0x0C3C, 0x0C3C); (0x0C3E, 0x0C40); (0x0C46, 0x0C48);
    (0x0C4A, 0x0C4D); (0x0C55, 0x0C56); (0x0C62, 0x0C63); (0x0C81, 0x0C81);
    (0x0CBC, 0x0CBC); (0x0CBF, 0x0CBF); (0x0CC6, 0x0CC6); (0x0CCC, 0x0CCD);
    (0x0CE2, 0x0CE3); (0x0D00, 0x0D01); (0x0D3B, 0x0D3C); (0x0D41, 0x0D44);
    (0x0D4D, 0x0D4D); (0x0D62, 0x0D63); (0x0D81, 0x0D81); (0x0DCA, 0x0DCA);
    (0x0DD2, 0x0DD4); (0x0DD6, 0x0DD6); (0x0E31, 0x0E31); (0x0E34, 0x0E3A);
    (0x0E46, 0x0E4E); (0x0EB1, 0x0EB1); (0x0EB4, 0x0EBC); (0x0EC6, 0x0EC6);
    (0x0EC8, 0x0ECD); (0x0F18, 0x0F19); (0x0F35, 0x0F35); (0x0F37, 0x0F37);
    (0x0F39, 0x0F39); (0x0F71, 0x0F7E); (0x0F80, 0x0F84); (0x0F86, 0x0F87);
    (0x0F8D, 0x0F97); (0x0F99, 0x0FBC); (0x0FC6, 0x0FC6); (0x102D, 0x1030);
    (0x1032, 0x1037); (0x1039, 0x103A); (0x103D, 0x103E); (0x1058, 0x1059);
    (0x105E, 0x1060); (0x1071, 0x1074); (0x1082, 0x1082); (0x1085, 0x1086);
    (0x108D, 0x108D); (0x109D, 0x109D); (0x10FC, 0x10FC); (0x135D, 0x135F);
    (0x1712, 0x1714); (0x1732, 0x1733); (0x1752, 0x1753); (0x1772, 0x1773);
    (0x17B4, 0x17B5); (0x17B7, 0x17BD); (0x17C6, 0x17C6); (0x17C9, 0x17D3);
    (0x17D7, 0x17D7); (0x17DD, 0x17DD); (0x180B, 0x180F); (0x1843, 0x1843);
    (0x1885, 0x1886); (0x18A9, 0x18A9); (0x1920, 0x1922); (0x1927, 0x1928);
    (0x1932, 0x1932); (0x1939, 0x193B); (0x1A17, 0x1A18); (0x1A1B, 0x1A1B);
    (0x1A56, 0x1A56); (0x1A58, 0x1A5E); (0x1A60, 0x1A60); (0x1A62, 0x1A62);
    (0x1A65, 0x1A6C); (0x1A73, 0x1A7C); (0x1A7F, 0x1A7F); (0x1AA7, 0x1AA7);
    (0x1AB0, 0x1ACE); (0x1B00, 0x1B03); (0x1B34, 0x1B34); (0x1B36, 0x1B3A);
    (0x1B3C, 0x1B3C); (0x1B42, 0x1B42); (0x1B6B, 0x1B73); (0x1B80, 0x1B81);
    (0x1BA2, 0x1BA5); (0x1BA8, 0x1BA9); (0x1BAB, 0x1BAD); (0x1BE6, 0x1BE6);
    (0x1BE8, 0x1BE9); (0x1BED, 0x1BED); (0x1BEF, 0x1BF1); (0x1C2C, 0x1C33);
    (0x1C36, 0x1C37); (0x1C78, 0x1C7D); (0x1CD0, 0x1CD2); (0x1CD4, 0x1CE0);
    (0x1CE2, 0x1CE8); (0x1CED, 0x1CED); (0x1CF4, 0x1CF4); (0x1CF8, 0x1CF9);
    (0x1D2C, 0x1D6A); (0x1D78, 0x1D78); (0x1D9B, 0x1DFF); (0x1FBD, 0x1FBD);
    (0x1FBF, 0x1FC1); (0x1FCD, 0x1FCF); (0x1FDD, 0x1FDF); (0x1FED, 0x1FEF);
    (0x1FFD, 0x1FFE); (0x200B, 0x200F); (0x2018, 0x2019); (0x2024, 0x2024);
    (0x2027, 0x2027); (0x202A, 0x202E); (0x2060, 0x2064); (0x2066, 0x206F);
    (0x2071, 0x2071); (0x207F, 0x207F); (0x2090, 0x209C); (0x20D0, 0x20F0);
    (0x2C7C, 0x2C7D); (0x2CEF, 0x2CF1); (0x2D6F, 0x2D6F); (0x2D7F, 0x2D7F);
    (0x2DE0, 0x2DFF); (0x2E2F, 0x2E2F); (0x3005, 0x3005); (0x302A, 0x302D);
    (0x3031, 0x3035); (0x303B, 0x303B); (0x3099, 0x309E); (0x30FC, 0x30FE);
    (0xA015, 0xA015); (0xA4F8, 0xA4FD); (0xA60C, 0xA60C); (0xA66F, 0xA672);
    (0xA674, 0xA67D); (0xA67F, 0xA67F); (0xA69C, 0xA69F); (0xA6F0, 0xA6F1);
    (0xA700, 0xA721); (0xA770, 0xA770); (0xA788, 0xA78A); (0xA7F2, 0xA7F4);
    (0xA7F8, 0xA7F9); (0xA802, 0xA802); (0xA806, 0xA806); (0xA80B, 0xA80B);
    (0xA825, 0xA826); (0xA82C, 0xA82C); (0xA8C4, 0xA8C5); (0xA8E0, 0xA8F1);
    (0xA8FF, 0xA8FF); (0xA926, 0xA92D); (0xA947, 0xA951); (0xA980, 0xA982);
    (0xA9B3, 0xA9B3); (0xA9B6, 0xA9B9); (0xA9BC, 0xA9BD); (0xA9CF, 0xA9CF);
    (0xA9E5, 0xA9E6); (0xAA29, 0xAA2E); (0xAA31, 0xAA32); (0xAA35, 0xAA36);
    (0xAA43, 0xAA43); (0xAA4C, 0xAA4C); (0xAA70, 0xAA70); (0xAA7C, 0xAA7C);
    (0xAAB0, 0xAAB0); (0xAAB2, 0xAAB4); (0xAAB7, 0xAAB8); (0xAABE, 0xAABF);
    (0xAAC1, 0xAAC1); (0xAADD, 0xAADD); (0xAAEC, 0xAAED); (0xAAF3, 0xAAF4);
    (0xAAF6, 0xAAF6); (0xAB5B, 0xAB5F); (0xAB69, 0xAB6B); (0xABE5, 0xABE5);
    (0xABE8, 0xABE8); (0xABED, 0xABED); (0xFB1E, 0xFB1E); (0xFBB2, 0xFBC2);
    (0xFE00, 0xFE0F); (0xFE13, 0xFE13); (0xFE20, 0xFE2F); (0xFE52, 0xFE52);
    (0xFE55, 0xFE55); (0xFEFF, 0xFEFF); (0xFF07, 0xFF07); (0xFF0E, 0xFF0E);
    (0xFF1A, 0xFF1A); (0xFF3E, 0xFF3E); (0xFF40, 0xFF40); (0xFF70, 0xFF70);
    (0xFF9E, 0xFF9F); (0xFFE3, 0xFFE3); (0xFFF9, 0xFFFB); (0x101FD, 0x101FD);
    (0x102E0, 0x102E0); (0x10376, 0x1037A); (0x10780, 0x10785);
    (0x10787, 0x107B0); (0x107B2, 0x107BA); (0x10A01, 0x10A03);
    (0x10A05, 0x10A06); (0x10A0C, 0x10A0F); (0x10A38, 0x10A3A);
    (0x10A3F, 0x10A3F); (0x10AE5, 0x10AE6); (0x10D24, 0x10D27);
    (0x10EAB, 0x10EAC); (0x10F46, 0x10F50); (0x10F82, 0x10F85);
    (0x11001, 0x11001); (0x11038, 0x11046); (0x11070, 0x11070);
    (0x11073, 0x11074); (0x1107F, 0x11081); (0x110B3, 0x110B6);
    (0x110B9, 0x110BA); (0x110BD, 0x110BD); (0x110C2, 0x110C2);
    (0x110CD, 0x110CD); (0x11100, 0x11102); (0x11127, 0x1112B);
    (0x1112D, 0x11134); (0x11173, 0x11173); (0x11180, 0x11181);
    (0x111B6, 0x111BE); (0x111C9, 0x111CC); (0x111CF, 0x111CF);
    (0x1122F, 0x11231); (0x11234, 0x11234); (0x11236, 0x11237);
    (0x1123E, 0x1123E); (0x112DF, 0x112DF); (0x112E3, 0x112EA);
    (0x11300, 0x11301); (0x1133B, 0x1133C); (0x11340, 0x11340);
    (0x11366, 0x1136C); (0x11370, 0x11374); (0x11438, 0x1143F);
    (0x11442, 0x11444); (0x11446, 0x11446); (0x1145E, 0x1145E);
    (0x114B3, 0x114B8); (0x114BA, 0x114BA); (0x114BF, 0x114C0);
    (0x114C2, 0x114C3); (0x115B2, 0x115B5); (0x115BC, 0x115BD);
    (0x115BF, 0x115C0); (0x115DC, 0x115DD); (0x11633, 0x1163A);
    (0x1163D, 0x1163D); (0x1163F, 0x11640); (0x116AB, 0x116AB);
    (0x116AD, 0x116AD); (0x116B0, 0x116B5); (0x116B7, 0x116B7);
    (0x1171D, 0x1171F); (0x11722, 0x11725); (0x11727, 0x1172B);
    (0x1182F, 0x11837); (0x11839, 0x1183A); (0x1193B, 0x1193C);
    (0x1193E, 0x1193E); (0x11943, 0x11943); (0x119D4, 0x119D7);
    (0x119DA, 0x119DB); (0x119E0, 0x119E0); (0x11A01, 0x11A0A);
    (0x11A33, 0x11A38); (0x11A3B, 0x11A3E); (0x11A47, 0x11A47);
    (0x11A51, 0x11A56); (0x11A59, 0x11A5B); (0x11A8A, 0x11A96);
    (0x11A98, 0x11A99); (0x11C30, 0x11C36); (0x11C38, 0x11C3D);
    (0x11C3F, 0x11C3F); (0x11C92, 0x11CA7); (0x11CAA, 0x11CB0);
    (0x11CB2, 0x11CB3); (0x11CB5, 0x11CB6); (0x11D31, 0x11D36);
    (0x11D3A, 0x11D3A); (0x11D3C, 0x11D3D); (0x11D3F, 0x11D45);
    (0x11D47, 0x11D47); (0x11D90, 0x11D91); (0x11D95, 0x11D95);
    (0x11D97, 0x11D97); (0x11EF3, 0x11EF4); (0x13430, 0x13438);
    (0x16AF0, 0x16AF4); (0x16B30, 0x16B36); (0x16B40, 0x16B43);
    (0x16F4F, 0x16F4F); (0x16F8F, 0x16F9F); (0x16FE0, 0x16FE1);
    (0x16FE3, 0x16FE4); (0x1AFF0, 0x1AFF3); (0x1AFF5, 0x1AFFB);
    (0x1AFFD, 0x1AFFE); (0x1BC9D, 0x1BC9E); (0x1BCA0, 0x1BCA3);
    (0x1CF00, 0x1CF2D); (0x1CF30, 0x1CF46); (0x1D167, 0x1D169);
    (0x1D173, 0x1D182); (0x1D185, 0x1D18B); (0x1D1AA, 0x1D1AD);
    (0x1D242, 0x1D244); (0x1DA00, 0x1DA36); (0x1DA3B, 0x1DA6C);
    (0x1DA75, 0x1DA75); (0x1DA84, 0x1DA84); (0x1DA9B, 0x1DA9F);
    (0x1DAA1, 0x1DAAF); (0x1E000, 0x1E006); (0x1E008, 0x1E018);
    (0x1E01B, 0x1E021); (0x1E023, 0x1E024); (0x1E026, 0x1E02A);
    (0x1E130, 0x1E13D); (0x1E2AE, 0x1E2AE); (0x1E2EC, 0x1E2EF);
    (0x1E8D0, 0x1E8D6); (0x1E944, 0x1E94B); (0x1F3FB, 0x1F3FF);
    (0xE0001, 0xE0001); (0xE0020, 0xE007F); (0xE0100, 0xE01EF)
  ]%N.

(** The pairs of an upper-case and a lower-case letter that are the case
    mappings of each other, the upper-case letter also being the title
    case of both: [(u, l, count, step)] stands for the pairs
    [(u + i * step, l + i * step)] with [i < count]. *)
Definition case_pairs : list (N * N * N * N) :=
  [
    (0x00C0, 0x00E0, 23, 1); (0x00D8, 0x00F8, 7, 1); (0x0100, 0x0101, 24, 2);
    (0x0132, 0x0133, 3, 2); (0x0139, 0x013A, 8, 2); (0x014A, 0x014B, 23, 2);
    (0x0178, 0x00FF, 1, 1); (0x0179, 0x017A, 3, 2); (0x0181, 0x0253, 1, 1);
    (0x0182, 0x0183, 2, 2); (0x0186, 0x0254, 1, 1); (0x0187, 0x0188, 1, 1);
    (0x0189, 0x0256, 2, 1); (0x018B, 0x018C, 1, 1); (0x018E, 0x01DD, 1, 1);
    (0x018F, 0x0259, 1, 1); (0x0190, 0x025B, 1, 1); (0x0191, 0x0192, 1, 1);
    (0x0193, 0x0260, 1, 1); (0x0194, 0x0263, 1, 1); (0x0196, 0x0269, 1, 1);
    (0x0197, 0x0268, 1, 1); (0x0198, 0x0199, 1, 1); (0x019C, 0x026F, 1, 1);
    (0x019D, 0x0272, 1, 1); (0x019F, 0x0275, 1, 1); (0x01A0, 0x01A1, 3, 2);
    (0x01A6, 0x0280, 1, 1); (0x01A7, 0x01A8, 1, 1); (0x01A9, 0x0283, 1, 1);
    (0x01AC, 0x01AD, 1, 1); (0x01AE, 0x0288, 1, 1); (0x01AF, 0x01B0, 1, 1);
    (0x01B1, 0x028A, 2, 1); (0x01B3, 0x01B4, 2, 2); (0x01B7, 0x0292, 1, 1);
    (0x01B8, 0x01B9, 1, 1); (0x01BC, 0x01BD, 1, 1); (0x01CD, 0x01CE, 8, 2);
    (0x01DE, 0x01DF, 9, 2); (0x01F4, 0x01F5, 1, 1); (0x01F6, 0x0195, 1, 1);
    (0x01F7, 0x01BF, 1, 1); (0x01F8, 0x01F9, 20, 2); (0x0220, 0x019E, 1, 1);
    (0x0222, 0x0223, 9, 2); (0x023A, 0x2C65, 1, 1); (0x023B, 0x023C, 1, 1);
    (0x023D, 0x019A, 1, 1); (0x023E, 0x2C66, 1, 1); (0x0241, 0x0242, 1, 1);
    (0x0243, 0x0180, 1, 1); (0x0244, 0x0289, 1, 1); (0x0245, 0x028C, 1, 1);
    (0x0246, 0x0247, 5, 2); (0x0370, 0x0371, 2, 2); (0x0376, 0x0377, 1, 1);
    (0x037F, 0x03F3, 1, 1); (0x0386, 0x03AC, 1, 1); (0x0388, 0x03AD, 3, 1);
    (0x038C, 0x03CC, 1, 1); (0x038E, 0x03CD, 2, 1); (0x0391, 0x03B1, 17, 1);
    (0x03A3, 0x03C3, 9, 1); (0x03CF, 0x03D7, 1, 1); (0x03D8, 0x03D9, 12, 2);
    (0x03F7, 0x03F8, 1, 1); (0x03F9, 0x03F2, 1, 1); (0x03FA, 0x03FB, 1, 1);
    (0x03FD, 0x037B, 3, 1); (0x0400, 0x0450, 16, 1); (0x0410, 0x0430, 32, 1);
    (0x0460, 0x0461, 17, 2); (0x048A, 0x048B, 27, 2); (0x04C0, 0x04CF, 1, 1);
    (0x04C1, 0x04C2, 7, 2); (0x04D0, 0x04D1, 48, 2); (0x0531, 0x0561, 38, 1);
    (0x10A0, 0x2D00, 38, 1); (0x10C7, 0x2D27, 1, 1); (0x10CD, 0x2D2D, 1, 1);
    (0x13A0, 0xAB70, 80, 1); (0x13F0, 0x13F8, 6, 1); (0x1E00, 0x1E01, 75, 2);
    (0x1EA0, 0x1EA1, 48, 2); (0x1F08, 0x1F00, 8, 1); (0x1F18, 0x1F10, 6, 1);
    (0x1F28, 0x1F20, 8, 1); (0x1F38, 0x1F30, 8, 1); (0x1F48, 0x1F40, 6, 1);
    (0x1F59, 0x1F51, 4, 2); (0x1F68, 0x1F60, 8, 1); (0x1FB8, 0x1FB0, 2, 1);
    (0x1FBA, 0x1F70, 2, 1); (0x1FC8, 0x1F72, 4, 1); (0x1FD8, 0x1FD0, 2, 1);
    (0x1FDA, 0x1F76, 2, 1); (0x1FE8, 0x1FE0, 2, 1); (0x1FEA, 0x1F7A, 2, 1);
    (0x1FEC, 0x1FE5, 1, 1); (0x1FF8, 0x1F78, 2, 1); (0x1FFA, 0x1F7C, 2, 1);
    (0x2132, 0x214E, 1, 1); (0x2160, 0x2170, 16, 1); (0x2183, 0x2184, 1, 1);
    (0x24B6, 0x24D0, 26, 1); (0x2C00, 0x2C30, 48, 1); (0x2C60, 0x2C61, 1, 1);
    (0x2C62, 0x026B, 1, 1); (0x2C63, 0x1D7D, 1, 1); (0x2C64, 0x027D, 1, 1);
    (0x2C67, 0x2C68, 3, 2); (0x2C6D, 0x0251, 1, 1); (0x2C6E, 0x0271, 1, 1);
    (0x2C6F, 0x0250, 1, 1); (0x2C70, 0x0252, 1, 1); (0x2C72, 0x2C73, 1, 1);
    (0x2C75, 0x2C76, 1, 1); (0x2C7E, 0x023F, 2, 1); (0x2C80, 0x2C81, 50, 2);
    (0x2CEB, 0x2CEC, 2, 2); (0x2CF2, 0x2CF3, 1, 1); (0xA640, 0xA641, 23, 2);
    (0xA680, 0xA681, 14, 2); (0xA722, 0xA723, 7, 2); (0xA732, 0xA733, 31, 2);
    (0xA779, 0xA77A, 2, 2); (0xA77D, 0x1D79, 1, 1); (0xA77E, 0xA77F, 5, 2);
    (0xA78B, 0xA78C, 1, 1); (0xA78D, 0x0265, 1, 1); (0xA790, 0xA791, 2, 2);
    (0xA796, 0xA797, 10, 2); (0xA7AA, 0x0266, 1, 1); (0xA7AB, 0x025C, 1, 1);
    (0xA7AC, 0x0261, 1, 1); (0xA7AD, 0x026C, 1, 1); (0xA7AE, 0x026A, 1, 1);
    (0xA7B0, 0x029E, 1, 1); (0xA7B1, 0x0287, 1, 1); (0xA7B2, 0x029D, 1, 1);
    (0xA7B3, 0xAB53, 1, 1); (0xA7B4, 0xA7B5, 8, 2); (0xA7C4, 0xA794, 1, 1);
    (0xA7C5, 0x0282, 1, 1); (0xA7C6, 0x1D8E, 1, 1); (0xA7C7, 0xA7C8, 2, 2);
    (0xA7D0, 0xA7D1, 1, 1); (0xA7D6, 0xA7D7, 2, 2); (0xA7F5, 0xA7F6, 1, 1);
    (0xFF21, 0xFF41, 26, 1); (0x10400, 0x10428, 40, 1);
    (0x104B0, 0x104D8, 36, 1); (0x10570, 0x10597, 11, 1);
    (0x1057C, 0x105A3, 15, 1); (0x1058C, 0x105B3, 7, 1);
    (0x10594, 0x105BB, 2, 1); (0x10C80, 0x10CC0, 51, 1);
    (0x118A0, 0x118C0, 32, 1); (0x16E40, 0x16E60, 32, 1);
    (0x1E900, 0x1E922, 34, 1)
  ]%N.

(** The other code points with a case mapping: their upper case, lower
    case and title case. *)
Definition special_casing : list (N * list N * list N * list N) :=
  [
    (0x00B5, [0x039C], [0x00B5], [0x039C]);
    (0x00DF, [0x0053; 0x0053], [0x00DF], [0x0053; 0x0073]);
    (0x0130, [0x0130], [0x0069; 0x0307], [0x0130]);
    (0x0131, [0x0049], [0x0131], [0x0049]);
    (0x0149, [0x02BC; 0x004E], [0x0149], [0x02BC; 0x004E]);
    (0x017F, [0x0053], [0x017F], [0x0053]);
    (0x01C4, [0x01C4], [0x01C6], [0x01C5]);
    (0x01C5, [0x01C4], [0x01C6], [0x01C5]);
    (0x01C6, [0x01C4], [0x01C6], [0x01C5]);
    (0x01C7, [0x01C7], [0x01C9], [0x01C8]);
    (0x01C8, [0x01C7], [0x01C9], [0x01C8]);
    (0x01C9, [0x01C7], [0x01C9], [0x01C8]);
    (0x01CA, [0x01CA], [0x01CC], [0x01CB]);
    (0x01CB, [0x01CA], [0x01CC], [0x01CB]);
    (0x01CC, [0x01CA], [0x01CC], [0x01CB]);
    (0x01F0, [0x004A; 0x030C], [0x01F0], [0x004A; 0x030C]);
    (0x01F1, [0x01F1], [0x01F3], [0x01F2]);
    (0x01F2, [0x01F1], [0x01F3], [0x01F2]);
    (0x01F3, [0x01F1], [0x01F3], [0x01F2]);
    (0x0345, [0x0399], [0x0345], [0x0399]);
    (0x0390, [0x0399; 0x0308; 0x0301], [0x0390], [0x0399; 0x0308; 0x0301]);
    (0x03B0, [0x03A5; 0x0308; 0x0301], [0x03B0], [0x03A5; 0x0308; 0x0301]);
    (0x03C2, [0x03A3], [0x03C2], [0x03A3]);
    (0x03D0, [0x0392], [0x03D0], [0x0392]);
    (0x03D1, [0x0398], [0x03D1], [0x0398]);
    (0x03D5, [0x03A6], [0x03D5], [0x03A6]);
    (0x03D6, [0x03A0], [0x03D6], [0x03A0]);
    (0x03F0, [0x039A], [0x03F0], [0x039A]);
    (0x03F1, [0x03A1], [0x03F1], [0x03A1]);
    (0x03F4, [0x03F4], [0x03B8], [0x03F4]);
    (0x03F5, [0x0395], [0x03F5], [0x0395]);
    (0x0587, [0x0535; 0x0552], [0x0587], [0x0535; 0x0582]);
    (0x10D0, [0x1C90], [0x10D0], [0x10D0]);
    (0x10D1, [0x1C91], [0x10D1], [0x10D1]);
    (0x10D2, [0x1C92], [0x10D2], [0x10D2]);
    (0x10D3, [0x1C93], [0x10D3], [0x10D3]);
    (0x10D4, [0x1C94], [0x10D4], [0x10D4]);
    (0x10D5, [0x1C95], [0x10D5], [0x10D5]);
    (0x10D6, [0x1C96], [0x10D6], [0x10D6]);
    (0x10D7, [0x1C97], [0x10D7], [0x10D7]);
    (0x10D8, [0x1C98], [0x10D8], [0x10D8]);
    (0x10D9, [0x1C99], [0x10D9], [0x10D9]);
    (0x10DA, [0x1C9A], [0x10DA], [0x10DA]);
    (0x10DB, [0x1C9B], [0x10DB], [0x10DB]);
    (0x10DC, [0x1C9C], [0x10DC], [0x10DC]);
    (0x10DD, [0x1C9D], [0x10DD], [0x10DD]);
    (0x10DE, [0x1C9E], [0x10DE], [0x10DE]);
    (0x10DF, [0x1C9F], [0x10DF], [0x10DF]);
    (0x10E0, [0x1CA0], [0x10E0], [0x10E0]);
    (0x10E1, [0x1CA1], [0x10E1], [0x10E1]);
    (0x10E2, [0x1CA2], [0x10E2], [0x10E2]);
    (0x10E3, [0x1CA3], [0x10E3], [0x10E3]);
    (0x10E4, [0x1CA4], [0x10E4], [0x10E4]);
    (0x10E5, [0x1CA5], [0x10E5], [0x10E5]);
    (0x10E6, [0x1CA6], [0x10E6], [0x10E6]);
    (0x10E7, [0x1CA7], [0x10E7], [0x10E7]);
    (0x10E8, [0x1CA8], [0x10E8], [0x10E8]);
    (0x10E9, [0x1CA9], [0x10E9], [0x10E9]);
    (0x10EA, [0x1CAA], [0x10EA], [0x10EA]);
    (0x10EB, [0x1CAB], [0x10EB], [0x10EB]);
    (0x10EC, [0x1CAC], [0x10EC], [0x10EC]);
    (0x10ED, [0x1CAD], [0x10ED], [0x10ED]);
    (0x10EE, [0x1CAE], [0x10EE], [0x10EE]);
    (0x10EF, [0x1CAF], [0x10EF], [0x10EF]);
    (0x10F0, [0x1CB0], [0x10F0], [0x10F0]);
    (0x10F1, [0x1CB1], [0x10F1], [0x10F1]);
    (0x10F2, [0x1CB2], [0x10F2], [0x10F2]);
    (0x10F3, [0x1CB3], [0x10F3], [0x10F3]);
    (0x10F4, [0x1CB4], [0x10F4], [0x10F4]);
    (0x10F5, [0x1CB5], [0x10F5], [0x10F5]);
    (0x10F6, [0x1CB6], [0x10F6], [0x10F6]);
    (0x10F7, [0x1CB7], [0x10F7], [0x10F7]);
    (0x10F8, [0x1CB8], [0x10F8], [0x10F8]);
    (0x10F9, [0x1CB9], [0x10F9], [0x10F9]);
    (0x10FA, [0x1CBA], [0x10FA], [0x10FA]);
    (0x10FD, [0x1CBD], [0x10FD], [0x10FD]);
    (0x10FE, [0x1CBE], [0x10FE], [0x10FE]);
    (0x10FF, [0x1CBF], [0x10FF], [0x10FF]);
    (0x1C80, [0x0412], [0x1C80], [0x0412]);
    (0x1C81, [0x0414], [0x1C81], [0x0414]);
    (0x1C82, [0x041E], [0x1C82], [0x041E]);
    (0x1C83, [0x0421], [0x1C83], [0x0421]);
    (0x1C84, [0x0422], [0x1C84], [0x0422]);
    (0x1C85, [0x0422], [0x1C85], [0x0422]);
    (0x1C86, [0x042A], [0x1C86], [0x042A]);
    (0x1C87, [0x0462], [0x1C87], [0x0462]);
    (0x1C88, [0xA64A], [0x1C88], [0xA64A]);
    (0x1C90, [0x1C90], [0x10D0], [0x1C90]);
    (0x1C91, [0x1C91], [0x10D1], [0x1C91]);
    (0x1C92, [0x1C92], [0x10D2], [0x1C92]);
    (0x1C93, [0x1C93], [0x10D3], [0x1C93]);
    (0x1C94, [0x1C94], [0x10D4], [0x1C94]);
    (0x1C95, [0x1C95], [0x10D5], [0x1C95]);
    (0x1C96, [0x1C96], [0x10D6], [0x1C96]);
    (0x1C97, [0x1C97], [0x10D7], [0x1C97]);
    (0x1C98, [0x1C98], [0x10D8], [0x1C98]);
    (0x1C99, [0x1C99], [0x10D9], [0x1C99]);
    (0x1C9A, [0x1C9A], [0x10DA], [0x1C9A]);
    (0x1C9B, [0x1C9B], [0x10DB], [0x1C9B]);
    (0x1C9C, [0x1C9C], [0x10DC], [0x1C9C]);
    (0x1C9D, [0x1C9D], [0x10DD], [0x1C9D]);
    (0x1C9E, [0x1C9E], [0x10DE], [0x1C9E]);
    (0x1C9F, [0x1C9F], [0x10DF], [0x1C9F]);
    (0x1CA0, [0x1CA0], [0x10E0], [0x1CA0]);
    (0x1CA1, [0x1CA1], [0x10E1], [0x1CA1]);
    (0x1CA2, [0x1CA2], [0x10E2], [0x1CA2]);
    (0x1CA3, [0x1CA3], [0x10E3], [0x1CA3]);
    (0x1CA4, [0x1CA4], [0x10E4], [0x1CA4]);
    (0x1CA5, [0x1CA5], [0x10E5], [0x1CA5]);
    (0x1CA6, [0x1CA6], [0x10E6], [0x1CA6]);
    (0x1CA7, [0x1CA7], [0x10E7], [0x1CA7]);
    (0x1CA8, [0x1CA8], [0x10E8], [0x1CA8]);
    (0x1CA9, [0x1CA9], [0x10E9], [0x1CA9]);
    (0x1CAA, [0x1CAA], [0x10EA], [0x1CAA]);
    (0x1CAB, [0x1CAB], [0x10EB], [0x1CAB]);
    (0x1CAC, [0x1CAC], [0x10EC], [0x1CAC]);
    (0x1CAD, [0x1CAD], [0x10ED], [0x1CAD]);
    (0x1CAE, [0x1CAE], [0x10EE], [0x1CAE]);
    (0x1CAF, [0x1CAF], [0x10EF], [0x1CAF]);
    (0x1CB0, [0x1CB0], [0x10F0], [0x1CB0]);
    (0x1CB1, [0x1CB1], [0x10F1], [0x1CB1]);
    (0x1CB2, [0x1CB2], [0x10F2], [0x1CB2]);
    (0x1CB3, [0x1CB3], [0x10F3], [0x1CB3]);
    (0x1CB4, [0x1CB4], [0x10F4], [0x1CB4]);
    (0x1CB5, [0x1CB5], [0x10F5], [0x1CB5]);
    (0x1CB6, [0x1CB6], [0x10F6], [0x1CB6]);
    (0x1CB7, [0x1CB7], [0x10F7], [0x1CB7]);
    (0x1CB8, [0x1CB8], [0x10F8], [0x1CB8]);
    (0x1CB9, [0x1CB9], [0x10F9], [0x1CB9]);
    (0x1CBA, [0x1CBA], [0x10FA], [0x1CBA]);
    (0x1CBD, [0x1CBD], [0x10FD], [0x1CBD]);
    (0x1CBE, [0x1CBE], [0x10FE], [0x1CBE]);
    (0x1CBF, [0x1CBF], [0x10FF], [0x1CBF]);
    (0x1E96, [0x0048; 0x0331], [0x1E96], [0x0048; 0x0331]);
    (0x1E97, [0x0054; 0x0308], [0x1E97], [0x0054; 0x0308]);
    (0x1E98, [0x0057; 0x030A], [0x1E98], [0x0057; 0x030A]);
    (0x1E99, [0x0059; 0x030A], [0x1E99], [0x0059; 0x030A]);
    (0x1E9A, [0x0041; 0x02BE], [0x1E9A], [0x0041; 0x02BE]);
    (0x1E9B, [0x1E60], [0x1E9B], [0x1E60]);
    (0x1E9E, [0x1E9E], [0x00DF], [0x1E9E]);
    (0x1F50, [0x03A5; 0x0313], [0x1F50], [0x03A5; 0x0313]);
    (0x1F52, [0x03A5; 0x0313; 0x0300], [0x1F52], [0x03A5; 0x0313; 0x0300]);
    (0x1F54, [0x03A5; 0x0313; 0x0301], [0x1F54], [0x03A5; 0x0313; 0x0301]);
    (0x1F56, [0x03A5; 0x0313; 0x0342], [0x1F56], [0x03A5; 0x0313; 0x0342]);
    (0x1F80, [0x1F08; 0x0399], [0x1F80], [0x1F88]);
    (0x1F81, [0x1F09; 0x0399], [0x1F81], [0x1F89]);
    (0x1F82, [0x1F0A; 0x0399], [0x1F82], [0x1F8A]);
    (0x1F83, [0x1F0B; 0x0399], [0x1F83], [0x1F8B]);
    (0x1F84, [0x1F0C; 0x0399], [0x1F84], [0x1F8C]);
    (0x1F85, [0x1F0D; 0x0399], [0x1F85], [0x1F8D]);
    (0x1F86, [0x1F0E; 0x0399], [0x1F86], [0x1F8E]);
    (0x1F87, [0x1F0F; 0x0399], [0x1F87], [0x1F8F]);
    (0x1F88, [0x1F08; 0x0399], [0x1F80], [0x1F88]);
    (0x1F89, [0x1F09; 0x0399], [0x1F81], [0x1F89]);
    (0x1F8A, [0x1F0A; 0x0399], [0x1F82], [0x1F8A]);
    (0x1F8B, [0x1F0B; 0x0399], [0x1F83], [0x1F8B]);
    (0x1F8C, [0x1F0C; 0x0399], [0x1F84], [0x1F8C]);
    (0x1F8D, [0x1F0D; 0x0399], [0x1F85], [0x1F8D]);
    (0x1F8E, [0x1F0E; 0x0399], [0x1F86], [0x1F8E]);
    (0x1F8F, [0x1F0F; 0x0399], [0x1F87], [0x1F8F]);
    (0x1F90, [0x1F28; 0x0399], [0x1F90], [0x1F98]);
    (0x1F91, [0x1F29; 0x0399], [0x1F91], [0x1F99]);
    (0x1F92, [0x1F2A; 0x0399], [0x1F92], [0x1F9A]);
    (0x1F93, [0x1F2B; 0x0399], [0x1F93], [0x1F9B]);
    (0x1F94, [0x1F2C; 0x0399], [0x1F94], [0x1F9C]);
    (0x1F95, [0x1F2D; 0x0399], [0x1F95], [0x1F9D]);
    (0x1F96, [0x1F2E; 0x0399], [0x1F96], [0x1F9E]);
    (0x1F97, [0x1F2F; 0x0399], [0x1F97], [0x1F9F]);
    (0x1F98, [0x1F28; 0x0399], [0x1F90], [0x1F98]);
    (0x1F99, [0x1F29; 0x0399], [0x1F91], [0x1F99]);
    (0x1F9A, [0x1F2A; 0x0399], [0x1F92], [0x1F9A]);
    (0x1F9B, [0x1F2B; 0x0399], [0x1F93], [0x1F9B]);
    (0x1F9C, [0x1F2C; 0x0399], [0x1F94], [0x1F9C]);
    (0x1F9D, [0x1F2D; 0x0399], [0x1F95], [0x1F9D]);
    (0x1F9E, [0x1F2E; 0x0399], [0x1F96], [0x1F9E]);
    (0x1F9F, [0x1F2F; 0x0399], [0x1F97], [0x1F9F]);
    (0x1FA0, [0x1F68; 0x0399], [0x1FA0], [0x1FA8]);
    (0x1FA1, [0x1F69; 0x0399], [0x1FA1], [0x1FA9]);
    (0x1FA2, [0x1F6A; 0x0399], [0x1FA2], [0x1FAA]);
    (0x1FA3, [0x1F6B; 0x0399], [0x1FA3], [0x1FAB]);
    (0x1FA4, [0x1F6C; 0x0399], [0x1FA4], [0x1FAC]);
    (0x1FA5, [0x1F6D; 0x0399], [0x1FA5], [0x1FAD]);
    (0x1FA6, [0x1F6E; 0x0399], [0x1FA6], [0x1FAE]);
    (0x1FA7, [0x1F6F; 0x0399], [0x1FA7], [0x1FAF]);
    (0x1FA8, [0x1F68; 0x0399], [0x1FA0], [0x1FA8]);
    (0x1FA9, [0x1F69; 0x0399], [0x1FA1], [0x1FA9]);
    (0x1FAA, [0x1F6A; 0x0399], [0x1FA2], [0x1FAA]);
    (0x1FAB, [0x1F6B; 0x0399], [0x1FA3], [0x1FAB]);
    (0x1FAC, [0x1F6C; 0x0399], [0x1FA4], [0x1FAC]);
    (0x1FAD, [0x1F6D; 0x0399], [0x1FA5], [0x1FAD]);
    (0x1FAE, [0x1F6E; 0x0399], [0x1FA6], [0x1FAE]);
    (0x1FAF, [0x1F6F; 0x0399], [0x1FA7], [0x1FAF]);
    (0x1FB2, [0x1FBA; 0x0399], [0x1FB2], [0x1FBA; 0x0345]);
    (0x1FB3, [0x0391; 0x0399], [0x1FB3], [0x1FBC]);
    (0x1FB4, [0x0386; 0x0399], [0x1FB4], [0x0386; 0x0345]);
    (0x1FB6, [0x0391; 0x0342], [0x1FB6], [0x0391; 0x0342]);
    (0x1FB7, [0x0391; 0x0342; 0x0399], [0x1FB7], [0x0391; 0x0342; 0x0345]);
    (0x1FBC, [0x0391; 0x0399], [0x1FB3], [0x1FBC]);
    (0x1FBE, [0x0399], [0x1FBE], [0x0399]);
    (0x1FC2, [0x1FCA; 0x0399], [0x1FC2], [0x1FCA; 0x0345]);
    (0x1FC3, [0x0397; 0x0399], [0x1FC3], [0x1FCC]);
    (0x1FC4, [0x0389; 0x0399], [0x1FC4], [0x0389; 0x0345]);
    (0x1FC6, [0x0397; 0x0342], [0x1FC6], [0x0397; 0x0342]);
    (0x1FC7, [0x0397; 0x0342; 0x0399], [0x1FC7], [0x0397; 0x0342; 0x0345]);
    (0x1FCC, [0x0397; 0x0399], [0x1FC3], [0x1FCC]);
    (0x1FD2, [0x0399; 0x0308; 0x0300], [0x1FD2], [0x0399; 0x0308; 0x0300]);
    (0x1FD3, [0x0399; 0x0308; 0x0301], [0x1FD3], [0x0399; 0x0308; 0x0301]);
    (0x1FD6, [0x0399; 0x0342], [0x1FD6], [0x0399; 0x0342]);
    (0x1FD7, [0x0399; 0x0308; 0x0342], [0x1FD7], [0x0399; 0x0308; 0x0342]);
    (0x1FE2, [0x03A5; 0x0308; 0x0300], [0x1FE2], [0x03A5; 0x0308; 0x0300]);
    (0x1FE3, [0x03A5; 0x0308; 0x0301], [0x1FE3], [0x03A5; 0x0308; 0x0301]);
    (0x1FE4, [0x03A1; 0x0313], [0x1FE4], [0x03A1; 0x0313]);
    (0x1FE6, [0x03A5; 0x0342], [0x1FE6], [0x03A5; 0x0342]);
    (0x1FE7, [0x03A5; 0x0308; 0x0342], [0x1FE7], [0x03A5; 0x0308; 0x0342]);
    (0x1FF2, [0x1FFA; 0x0399], [0x1FF2], [0x1FFA; 0x0345]);
    (0x1FF3, [0x03A9; 0x0399], [0x1FF3], [0x1FFC]);
    (0x1FF4, [0x038F; 0x0399], [0x1FF4], [0x038F; 0x0345]);
    (0x1FF6, [0x03A9; 0x0342], [0x1FF6], [0x03A9; 0x0342]);
    (0x1FF7, [0x03A9; 0x0342; 0x0399], [0x1FF7], [0x03A9; 0x0342; 0x0345]);
    (0x1FFC, [0x03A9; 0x0399], [0x1FF3], [0x1FFC]);
    (0x2126, [0x2126], [0x03C9], [0x2126]);
    (0x212A, [0x212A], [0x006B], [0x212A]);
    (0x212B, [0x212B], [0x00E5], [0x212B]);
    (0xFB00, [0x0046; 0x0046], [0xFB00], [0x0046; 0x0066]);
    (0xFB01, [0x0046; 0x0049], [0xFB01], [0x0046; 0x0069]);
    (0xFB02, [0x0046; 0x004C], [0xFB02], [0x0046; 0x006C]);
    (0xFB03, [0x0046; 0x0046; 0x0049], [0xFB03], [0x0046; 0x0066; 0x0069]);
    (0xFB04, [0x0046; 0x0046; 0x004C], [0xFB04], [0x0046; 0x0066; 0x006C]);
    (0xFB05, [0x0053; 0x0054], [0xFB05], [0x0053; 0x0074]);
    (0xFB06, [0x0053; 0x0054], [0xFB06], [0x0053; 0x0074]);
    (0xFB13, [0x0544; 0x0546], [0xFB13], [0x0544; 0x0576]);
    (0xFB14, [0x0544; 0x0535], [0xFB14], [0x0544; 0x0565]);
    (0xFB15, [0x0544; 0x053B], [0xFB15], [0x0544; 0x056B]);
    (0xFB16, [0x054E; 0x0546], [0xFB16], [0x054E; 0x0576]);
    (0xFB17, [0x0544; 0x053D], [0xFB17], [0x0544; 0x056D])
  ]%N.

(** The case mappings of one code point, encoded. *)
Record casing := {
  uppercase : list string;
  lowercase : list string;
  titlecase : list string
}.

Fixpoint pairs_of_run (u l : N) (count : nat) (step : N)
    : list (N * casing) :=
  match count with
  | 0 => []
  | S k =>
      let c := {| uppercase := [utf8 u]; lowercase := [utf8 l];
                  titlecase := [utf8 u] |} in
      (u, c) :: (l, c) :: pairs_of_run (u + step) (l + step) k step
  end.

Definition case_entries : list (N * casing) :=
  flat_map (fun r : N * N * N * N =>
              let '(u, l, count, step) := r in
              pairs_of_run u l (N.to_nat count) step)
           case_pairs
  ++ List.map (fun s : N * list N * list N * list N =>
                 let '(n, upper, lower, title) := s in
                 (n, {| uppercase := List.map utf8 upper;
                        lowercase := List.map utf8 lower;
                        titlecase := List.map utf8 title |}))
              special_casing.

(** The table of the case mappings, by code point number. *)
Definition case_table : FMapPositive.PositiveMap.t casing :=
  Eval vm_compute in
    fold_right
      (fun e m =>
         FMapPositive.PositiveMap.add (N.succ_pos (fst e)) (snd e) m)
      (FMapPositive.PositiveMap.empty casing) case_entries.

Definition case_of (x : string) : option casing :=
  match ord x with
  | Some n => FMapPositive.PositiveMap.find (N.succ_pos n) case_table
  | None => None
  end.

Definition has_property (ranges : list (N * N)) (x : string) : bool :=
  match ord x with
  | Some n => in_ranges n ranges
  | None => false
  end.

Definition unicode_14 : unicode :=
  {| IsWhitespace := has_property White_Space;
     IsDecimalDigit := has_property Decimal_Number;
     IsCased := has_property Cased;
     IsCaseIgnorable := has_property Case_Ignorable;
     ToUpperFull := fun x =>
       match case_of x with Some c => uppercase c | None => [x] end;
     ToLowerFull := fun x =>
       match case_of x with Some c => lowercase c | None => [x] end;
     ToTitleFull := fun x =>
       match case_of x with Some c => titlecase c | None => [x] end |}.

(** ** The regular database, decided *)

Definition same (a b : list string) : bool :=
  if list_eq_dec string_dec a b then true else false.

Definition full (m : list string) : bool :=
  negb (same m []) && forallb Str.code_point m.

Definition text `{unicode} (m : list string) : bool :=
  forallb (fun y => negb (Str.isspace y)) m.

Definition is_upper_fixed `{unicode} (x : string) : bool :=
  same (Str.upper_char x) [x].

Definition leaves `{unicode} (m : list string) (x : string) : bool :=
  negb (forallb is_upper_fixed m) || same m [x].

(** What [regular] says of the code point [x]. *)
Definition regular_at `{unicode} (x : string) : bool :=
  (negb (Str.code_point x)
   || (full (Str.upper_char x) && full (Str.lower_char x)
       && full (Str.title_char x)))
  && (Str.isspace x
      || (text (Str.lower_char x) && text (Str.title_char x)))
  && (negb (is_upper_fixed x)
      || (leaves (Str.lower_char x) x && leaves (Str.title_char x) x)).

(** ** Example records *)

Definition doi_identifier (url : string) : Identifier :=
  {| id_source :=
       Some {| src_type := Some {| st_label := Some "DOI" |} |};
     realUrl := Some url |}.

Definition url_identifier (url : string) : Identifier :=
  {| id_source := None; realUrl := Some url |}.

Definition counted_author (position : option Z) (given family : string)
    : Authorship :=
  {| authorTyped := Some true; listPosition := position;
     givenName := Some given; familyName := Some family; author := None |}.

(** A record whose DOI has the prefix 10.36244 and holds 10.1109 further
    on, and one with a DOI of that prefix that does not. *)
Definition pub_of_doi (url : string) : Publication :=
  {| identifiers := Some [ doi_identifier url ];
     authorships := None; book := None; journal := None; volume := None;
     issue := None; firstPage := None; lastPage := None; subType := None;
     type_ := None; conferencePublication := None;
     publishedYear := Some 2010%Z; title := Some "An article";
     citingPubCount := None |}.

Definition pub_doi_suffix : Publication :=
  pub_of_doi "https://doi.org/10.36244/ICJ.2010.1109.3".

Definition pub_doi_plain : Publication :=
  pub_of_doi "https://doi.org/10.36244/ICJ.2021.1.1".

(** A record with an IEEE Xplore link before its two DOI identifiers. *)
Definition pub_two_dois : Publication :=
  {| identifiers :=
       Some [ url_identifier "https://ieeexplore.ieee.org/document/771073";
              doi_identifier "https://doi.org/10.1109/5.771073";
              doi_identifier "https://doi.org/10.1007/s00145-001-0001-1" ];
     authorships := None; book := None; journal := None; volume := None;
     issue := None; firstPage := None; lastPage := None; subType := None;
     type_ := None; conferencePublication := None;
     publishedYear := Some 1999%Z; title := Some "An article";
     citingPubCount := None |}.

(** A record without book and journal that has a volume. *)
Definition pub_volume_only : Publication :=
  {| identifiers := None; authorships := None; book := None;
     journal := None; volume := Some "12"; issue := None; firstPage := None;
     lastPage := None; subType := None; type_ := None;
     conferencePublication := None; publishedYear := Some 2020%Z;
     title := Some "A report"; citingPubCount := None |}.

(** A record without book and journal whose only locator field is its
    first page. *)
Definition pub_first_page_only : Publication :=
  {| identifiers := None; authorships := None; book := None;
     journal := None; volume := None; issue := None; firstPage := Some "7";
     lastPage := None; subType := None; type_ := None;
     conferencePublication := None; publishedYear := Some 2020%Z;
     title := Some "A report"; citingPubCount := None |}.

(** A chapter of a book whose journal entry has neither title nor label. *)
Definition pub_book_in_series : Publication :=
  {| identifiers := None; authorships := None;
     book := Some {| book_title := Some "PROCEEDINGS OF ICC 1938-1883";
                     publishedAt := None; book_other_keys := false |};
     journal := Some {| journal_title := None; journal_label := None;
                        journal_other_keys := true |};
     volume := None; issue := None; firstPage := None; lastPage := None;
     subType := None; type_ := None; conferencePublication := None;
     publishedYear := Some 2020%Z; title := Some "A chapter";
     citingPubCount := None |}.

(** The same chapter without the journal entry. *)
Definition pub_book_chapter : Publication :=
  {| identifiers := None; authorships := None;
     book := Some {| book_title := Some "PROCEEDINGS OF ICC 1938-1883";
                     publishedAt := None; book_other_keys := false |};
     journal := None;
     volume := None; issue := None; firstPage := None; lastPage := None;
     subType := None; type_ := None; conferencePublication := None;
     publishedYear := Some 2020%Z; title := Some "A chapter";
     citingPubCount := None |}.

(** A record with authorships to build examples from. *)
Definition pub_of_authorships (l : list Authorship) : Publication :=
  {| identifiers := None; authorships := Some l; book := None;
     journal := None; volume := None; issue := None; firstPage := None;
     lastPage := None; subType := None; type_ := None;
     conferencePublication := None; publishedYear := Some 2024%Z;
     title := Some "A measurement"; citingPubCount := None |}.

(** The thousandth author of a collaboration, and one without position. *)
Definition pub_large_collaboration : Publication :=
  pub_of_authorships
    [ counted_author (Some 1000%Z) "Ann" "Able";
      counted_author None "Bob" "Baker" ].

Definition pub_three_authors : Publication :=
  pub_of_authorships
    [ counted_author (Some 2%Z) "Ann" "Able";
      counted_author None "Bob" "Baker";
      counted_author (Some 1%Z) "Cid" "Cole" ].

(** A record whose title, author name and journal title hold characters
    of HTML markup. *)
Definition pub_markup : Publication :=
  {| identifiers := None;
     authorships :=
       Some [ counted_author (Some 1%Z) "Eve"
                "Moneypenny <img src=x onerror=alert(1)>" ];
     book := None;
     journal := Some {| journal_title := Some "Q&A Letters";
                        journal_label := None; journal_other_keys := false |};
     volume := None; issue := None; firstPage := None; lastPage := None;
     subType := None; type_ := None; conferencePublication := None;
     publishedYear := Some 2024%Z;
     title := Some "Safety of <b>R&D</b>";
     citingPubCount := None |}.

(** A record without title, with and without a DOI. *)
Definition pub_untitled : Publication :=
  {| identifiers := None; authorships := None; book := None;
     journal := None; volume := None; issue := None; firstPage := None;
     lastPage := None; subType := None; type_ := None;
     conferencePublication := None; publishedYear := Some 2023%Z;
     title := None; citingPubCount := None |}.

Definition pub_untitled_doi : Publication :=
  {| identifiers := Some [ doi_identifier "https://doi.org/10.1109/5.771073" ];
     authorships := None; book := None;
     journal := None; volume := None; issue := None; firstPage := None;
     lastPage := None; subType := None; type_ := None;
     conferencePublication := None; publishedYear := Some 2021%Z;
     title := None; citingPubCount := None |}.

(** A document with two marker pairs, and one without markers. *)
Definition doc_two_pairs : string :=
  "<ul>" ++ MARKER_START ++ "old list" ++ MARKER_END ++ "</ul><ol>"
  ++ MARKER_START ++ "old copy" ++ MARKER_END ++ "</ol>".

Definition doc_no_marker : string :=
  "<html><body><h1>Publications</h1></body></html>".

(** The records of the examples of the specification. *)
Definition pub_sensors : Publication :=
  {| identifiers := None; authorships := None; book := None;
     journal := Some {| journal_title := Some "Sensors";
                        journal_label := None; journal_other_keys := false |};
     volume := Some "21"; issue := Some "4"; firstPage := Some "100";
     lastPage := Some "110"; subType := None;
     type_ := Some {| type_label := Some "Article" |};
     conferencePublication := None; publishedYear := Some 2021%Z;
     title := Some "A sensor"; citingPubCount := Some 3%Z |}.

Definition pub_conference_paper : Publication :=
  {| identifiers := None; authorships := None; book := None;
     journal := None; volume := None; issue := None; firstPage := None;
     lastPage := None;
     subType := Some {| nameEng := Some "Conference Paper" |};
     type_ := None; conferencePublication := None;
     publishedYear := Some 2022%Z; title := Some "A talk";
     citingPubCount := None |}.

Definition pub_of_year (year : Z) (name : string) : Publication :=
  {| identifiers := None; authorships := None; book := None;
     journal := None; volume := None; issue := None; firstPage := None;
     lastPage := None; subType := None; type_ := None;
     conferencePublication := None; publishedYear := Some year;
     title := Some name; citingPubCount := None |}.

(** ** Notions of the further properties *)

(** [pub.get("publishedYear", 0)] *)
Definition year_of (pub : Publication) : Z :=
  Str.get (publishedYear pub) 0%Z.

(** The labels [get_pub_type] looks at, in lower case. *)
Definition main_label `{unicode} (pub : Publication) : string :=
  Str.lower (Str.get (type_label (Str.get (type_ pub) no_main_type)) "").
Definition sub_label `{unicode} (pub : Publication) : string :=
  Str.lower (Str.get (nameEng (Str.get (subType pub) no_sub_type)) "").

(** The main type names a journal, or the record has a journal entry. *)
Definition journal_marked `{unicode} (pub : Publication) : bool :=
  Str.contains "journal" (main_label pub) || has_journal pub.

(** The sub-type names a conference, or the conference flag is set. *)
Definition conference_marked `{unicode} (pub : Publication) : bool :=
  Str.contains "conference" (sub_label pub)
  || Str.get (conferencePublication pub) false.

(** The string holds a decimal digit. *)
Definition has_digit `{unicode} (s : string) : bool :=
  existsb Str.isdecimal (Str.chars s).


(** The page makes the fetch loop ask for the next one: its content is
    not empty and its paging says that it is not the last. *)
Definition continues (r : response) : bool :=
  match r with
  | UrlError _ => false
  | Json data =>
      match Str.get (content data) [] with
      | [] => false
      | _ :: _ => negb (Str.get (last (Str.get (paging data) no_paging)) true)
      end
  end.

(** The records of a page. *)
Definition page_content (r : response) : list Publication :=
  match r with
  | UrlError _ => []
  | Json data => Str.get (content data) []
  end.

(** A service with two pages, one whose first page fails, and one that
    never reports a last page. *)
Definition server_two_pages (url : string) : response :=
  if String.eqb url (page_url 1) then
    Json {| content := Some [pub_sensors; pub_conference_paper];
            paging := Some {| last := Some false |} |}
  else if String.eqb url (page_url 2) then
    Json {| content := Some [pub_untitled]; paging := None |}
  else UrlError "HTTP Error 404: Not Found".

Definition server_down (url : string) : response :=
  UrlError "<urlopen error timed out>".

Definition server_endless (url : string) : response :=
  Json {| content := Some [pub_untitled];
          paging := Some {| last := Some false |} |}.

(** A document with one marker pair. *)
Definition doc_one_pair : string :=
  "<main>" ++ MARKER_START ++ "old list" ++ MARKER_END ++ "</main>".

(** A record whose title holds a backslash before a letter. *)
Definition pub_latex_title : Publication :=
  {| identifiers := None; authorships := None; book := None;
     journal := None; volume := None; issue := None; firstPage := None;
     lastPage := None; subType := None; type_ := None;
     conferencePublication := None; publishedYear := Some 2022%Z;
     title := Some "Bounds on \mathcal{H}-norms"; citingPubCount := None |}.

(** Two authorships at the same position around one at an earlier one. *)
Definition pub_tied_authors : Publication :=
  pub_of_authorships
    [ counted_author (Some 2%Z) "Ann" "Able";
      counted_author (Some 1%Z) "Bob" "Baker";
      counted_author (Some 2%Z) "Cid" "Cole" ].

(** * Proofs *)

(** ** The examples of the specification *)

Section Examples.

Context `{U : unicode}.

Example venue_of_sensors :
  extract_venue pub_sensors
  = "Sensors, vol. 21, no. 4, pp. 100" ++ en_dash ++ "110".
Proof. vm_compute. reflexivity. Qed.

Example type_of_article_in_journal : get_pub_type pub_sensors = "journal".
Proof. vm_compute. reflexivity. Qed.

Example type_of_conference_paper :
  get_pub_type pub_conference_paper = "conference".
Proof. vm_compute. reflexivity. Qed.

Example years_in_descending_order :
  let by_year :=
    group_by_year [ pub_of_year 2021 "a"; pub_of_year 2023 "b";
                    pub_of_year 2021 "c"; pub_of_year 2022 "d" ] in
  sorted_reverse (List.map fst by_year) = [2023; 2022; 2021]%Z
  /\ lookup_year 2021 by_year = [ pub_of_year 2021 "a"; pub_of_year 2021 "c" ].
Proof. split; reflexivity. Qed.

Example patching_twice_is_patching_once :
  let doc := "<main>" ++ MARKER_START ++ "old" ++ MARKER_END ++ "</main>" in
  let once := file (update_index "<p>new</p>" doc) in
  once = "<main>" ++ replacement_of "<p>new</p>" ++ "</main>"
  /\ file (update_index "<p>new</p>" once) = once.
Proof. split; reflexivity. Qed.

End Examples.

(** ** Facts on strings *)

Section StringFacts.

Lemma append_nil_r (s : string) : s ++ "" = s.
Proof. induction s as [|c s IH]; simpl; [reflexivity | now rewrite IH]. Qed.

Lemma append_assoc (a b c : string) : (a ++ b) ++ c = a ++ b ++ c.
Proof. induction a as [|x a IH]; simpl; [reflexivity | now rewrite IH]. Qed.

Lemma length_append (a b : string) :
  length (a ++ b) = length a + length b.
Proof. induction a as [|x a IH]; simpl; [reflexivity | now rewrite IH]. Qed.

Lemma append_inv_head (a b c : string) : a ++ b = a ++ c -> b = c.
Proof.
  induction a as [|x a IH]; simpl; intros H; [exact H |].
  injection H as H. now apply IH.
Qed.

Lemma append_eq_nil (a b : string) : a ++ b = "" -> a = "" /\ b = "".
Proof. destruct a; simpl; intros H; [now split | discriminate]. Qed.

Lemma prefix_append (p r : string) : prefix p (p ++ r) = true.
Proof.
  induction p as [|c p IH]; simpl; [now destruct r |].
  destruct (ascii_dec c c) as [_|n]; [exact IH | now elim n].
Qed.

Lemma prefix_split (p s : string) :
  prefix p s = true -> exists r, s = p ++ r.
Proof.
  revert s; induction p as [|c p IH]; intros s H.
  - now exists s.
  - destruct s as [|d s]; simpl in H; [discriminate |].
    destruct (ascii_dec c d) as [->|_]; [| discriminate].
    destruct (IH s H) as [r ->]. now exists r.
Qed.

Lemma prefix_iff (p s : string) :
  prefix p s = true <-> exists r, s = p ++ r.
Proof.
  split; [apply prefix_split |].
  intros [r ->]. apply prefix_append.
Qed.

End StringFacts.

(** ** DOI extraction *)

Section Doi.

Lemma is_doi_spec (ident : Identifier) :
  is_doi ident = true <-> doi_typed ident.
Proof.
  unfold is_doi, doi_typed.
  destruct ident as [src url]; simpl.
  split.
  - destruct src as [[[[[l|]]|]]|]; simpl; try discriminate.
    intros H. apply String.eqb_eq in H. subst l.
    now eexists; eexists; repeat split.
  - intros (s & t & -> & H2 & H3). simpl.
    rewrite H2. simpl. rewrite H3. reflexivity.
Qed.

Lemma is_doi_false (ident : Identifier) :
  ~ doi_typed ident -> is_doi ident = false.
Proof.
  intros H. destruct (is_doi ident) eqn:E; [| reflexivity].
  now apply is_doi_spec in E.
Qed.

Lemma extract_doi_loop_none (idents : list Identifier) :
  Forall (fun i => ~ doi_typed i) idents -> extract_doi_loop idents = "".
Proof.
  induction 1 as [|i l Hi _ IH]; simpl; [reflexivity |].
  now rewrite (is_doi_false i Hi).
Qed.

Lemma extract_doi_loop_first (before after : list Identifier)
    (ident : Identifier) :
  Forall (fun i => ~ doi_typed i) before -> doi_typed ident ->
  extract_doi_loop (before ++ ident :: after) = Str.get (realUrl ident) "".
Proof.
  intros Hb Hi. induction Hb as [|i l Hn _ IH]; simpl.
  - apply is_doi_spec in Hi. now rewrite Hi.
  - now rewrite (is_doi_false i Hn).
Qed.

(** C8: when an identifier of the record has the source-type label "DOI",
    DOI extraction returns the resolvable URL of the first such identifier
    as it is; when no identifier has it, it returns the empty string. *)
Theorem extract_doi_first_doi_url (pub : Publication) :
  (forall before ident after url,
      Str.get (identifiers pub) [] = (before ++ ident :: after)%list ->
      Forall (fun i => ~ doi_typed i) before ->
      doi_typed ident ->
      realUrl ident = Some url ->
      extract_doi pub = url)
  /\ (Forall (fun i => ~ doi_typed i) (Str.get (identifiers pub) []) ->
      extract_doi pub = "").
Proof.
  unfold extract_doi; split.
  - intros before ident after url -> Hb Hi Hu.
    rewrite (extract_doi_loop_first before after ident Hb Hi).
    now rewrite Hu.
  - apply extract_doi_loop_none.
Qed.

End Doi.

Lemma extract_doi_first_doi_url_witness :
  extract_doi pub_two_dois = "https://doi.org/10.1109/5.771073"
  /\ extract_doi empty_pub = "".
Proof.
  split.
  - apply (proj1 (extract_doi_first_doi_url pub_two_dois)
             [url_identifier "https://ieeexplore.ieee.org/document/771073"]
             (doi_identifier "https://doi.org/10.1109/5.771073")
             [doi_identifier "https://doi.org/10.1007/s00145-001-0001-1"]).
    + reflexivity.
    + repeat constructor. intros (s & t & H & _). discriminate.
    + eexists; eexists; repeat split.
    + reflexivity.
  - apply (proj2 (extract_doi_first_doi_url empty_pub)). constructor.
Defined.

(** ** Publisher inference *)

Section Publisher.

Lemma contains_occurs (pat s : string) :
  Str.contains pat s = true <-> occurs pat s.
Proof.
  unfold occurs. induction s as [|c r IH]; cbn [Str.contains].
  - rewrite orb_false_r, prefix_iff. split.
    + intros [b ->]. now exists "", b.
    + intros (a & b & E). symmetry in E. apply append_eq_nil in E.
      destruct E as [_ E]. exists b. now symmetry.
  - rewrite orb_true_iff, prefix_iff, IH. split.
    + intros [[b ->]|(a & b & ->)]; [now exists "", b |].
      now exists (String c a), b.
    + intros (a & b & E). destruct a as [|d a].
      * left. now exists b.
      * right. injection E as -> ->. now exists a, b.
Qed.

Lemma contains_not_occurs (pat s : string) :
  ~ occurs pat s -> Str.contains pat s = false.
Proof.
  intros H. destruct (Str.contains pat s) eqn:E; [| reflexivity].
  now apply contains_occurs in E.
Qed.

Lemma publisher_of_book_city (pub : Publication) :
  (city_is_piscataway pub -> publisher_of_book pub = Some "IEEE")
  /\ (~ city_is_piscataway pub -> publisher_of_book pub = None).
Proof.
  unfold publisher_of_book, city_is_piscataway. cbv zeta. split.
  - intros (b & first & rest & -> & Hb & Hp & Hc).
    cbn [Str.get]. rewrite Hb, Hp. cbn [Str.get].
    apply contains_occurs in Hc. now rewrite Hc.
  - intros Hn. destruct (book pub) as [b|]; [| reflexivity].
    cbn [Str.get]. destruct (book_true b) eqn:Hb; [| reflexivity].
    destruct (publishedAt b) as [[|first rest]|] eqn:Hp;
      cbn [Str.get]; try reflexivity.
    destruct (Str.contains "Piscataway" _) eqn:Hc; [| reflexivity].
    elim Hn. exists b, first, rest. apply contains_occurs in Hc.
    now repeat split.
Qed.

Lemma publisher_of_identifiers_skip (before rest : list Identifier) :
  Forall (fun i => ~ names_publisher i) before ->
  publisher_of_identifiers (before ++ rest) = publisher_of_identifiers rest.
Proof.
  induction 1 as [|i l Hi _ IH]; [reflexivity |].
  cbn [app publisher_of_identifiers]. cbv zeta.
  fold (url_of i).
  rewrite (contains_not_occurs "ieeexplore" (url_of i)),
    (contains_not_occurs "springer" (url_of i)); [exact IH | |];
    intros H; apply Hi; [now right | now left].
Qed.

(** C7 fails on the DOI: the script looks for the DOI prefix anywhere in
    the DOI URL.  A record whose DOI has the prefix 10.36244 and holds
    10.1109 behind it gets the publisher IEEE, where a DOI of that prefix
    gives the empty string. *)
Theorem doi_prefix_found_behind_prefix :
  extract_doi pub_doi_suffix
  = "https://doi.org/" ++ "10.36244" ++ "/ICJ.2010.1109.3"
  /\ publisher_of_book pub_doi_suffix = None
  /\ publisher_of_identifiers (Str.get (identifiers pub_doi_suffix) []) = None
  /\ get_publisher pub_doi_suffix = "IEEE"
  /\ get_publisher pub_doi_plain = "".
Proof. repeat split. Qed.

End Publisher.

(** ** Venues *)

Section Venue.

Context `{U : unicode}.

(** The venue is a title followed by the locator; the title is cleaned
    exactly when the record has a journal entry. *)
Lemma extract_venue_locator (pub : Publication) :
  extract_venue pub
  = (if has_journal pub then clean_journal_title (journal_raw pub)
     else book_venue pub) ++ locator pub.
Proof.
  unfold extract_venue, locator, has_pages, journal_raw, book_venue,
    has_journal, has_book.
  cbv zeta.
  set (base := if journal_true (Str.get (journal pub) no_journal)
               then _ else _).
  match goal with |- _ = ?b ++ _ =>
    replace b with base
  end.
  2:{ subst base.
      destruct (journal_true (Str.get (journal pub) no_journal));
        [| reflexivity].
      destruct (journal_title (Str.get (journal pub) no_journal));
        [reflexivity |].
      destruct (journal_label (Str.get (journal pub) no_journal));
        reflexivity. }
  clearbody base.
  destruct (Str.nonempty (Str.get (volume pub) ""));
    destruct (Str.nonempty (Str.get (issue pub) ""));
    destruct (Str.nonempty (Str.get (firstPage pub) ""));
    destruct (Str.nonempty (Str.get (lastPage pub) ""));
    destruct (Str.get (firstPage pub) "" =? Str.get (lastPage pub) "");
    cbn [andb negb];
    repeat rewrite append_assoc; cbn [append];
    repeat rewrite append_nil_r; reflexivity.
Qed.

(** C10, as the script has it: in a record without book and journal the
    venue is the locator alone, so it begins with a comma and a space when
    the volume, the issue, or both the first and the last page are present
    and not empty, and it is empty otherwise. *)
Theorem extract_venue_without_title (pub : Publication) :
  has_book pub = false -> has_journal pub = false ->
  extract_venue pub = locator pub
  /\ (if Str.nonempty (Str.get (volume pub) "")
         || Str.nonempty (Str.get (issue pub) "")
         || has_pages pub
      then prefix ", " (extract_venue pub) = true
      else extract_venue pub = "").
Proof.
  intros Hb Hj. rewrite extract_venue_locator, Hj.
  unfold book_venue. rewrite Hb. cbn [append].
  split; [reflexivity |].
  unfold locator. cbv zeta.
  destruct (Str.nonempty (Str.get (volume pub) ""));
    [reflexivity |].
  destruct (Str.nonempty (Str.get (issue pub) ""));
    [reflexivity |].
  destruct (has_pages pub); cbn [orb append]; [| reflexivity].
  destruct (Str.get (firstPage pub) "" =? Str.get (lastPage pub) "");
    reflexivity.
Qed.

(** C4, as the script has it: the cleanup is applied exactly when the
    record has a journal entry, to the title of the journal, else to its
    label, else to the venue seeded from the book; without a journal entry
    the title of the book is embedded as it is. *)
Theorem extract_venue_cleans_with_journal (pub : Publication) :
  (has_journal pub = false ->
   extract_venue pub = book_venue pub ++ locator pub)
  /\ (has_journal pub = true ->
      extract_venue pub
      = clean_journal_title (journal_raw pub) ++ locator pub).
Proof.
  rewrite extract_venue_locator.
  split; intros ->; reflexivity.
Qed.

End Venue.

(** The examples are run with the database of CPython 3.11. *)
Section VenueExamples.

#[local] Existing Instance unicode_14.

Lemma extract_venue_without_title_witness :
  extract_venue pub_volume_only = ", vol. 12".
Proof.
  destruct (extract_venue_without_title pub_volume_only) as [H _];
    [reflexivity | reflexivity |].
  rewrite H. reflexivity.
Defined.

Lemma extract_venue_cleans_with_journal_witness :
  extract_venue pub_book_chapter = "PROCEEDINGS OF ICC 1938-1883"
  /\ extract_venue pub_book_in_series = "Proceedings Of Icc".
Proof.
  split.
  - rewrite (proj1 (extract_venue_cleans_with_journal pub_book_chapter));
      reflexivity.
  - rewrite (proj2 (extract_venue_cleans_with_journal pub_book_in_series));
      [vm_compute |]; reflexivity.
Defined.

End VenueExamples.

(** C10 as it is written fails: a record without book and journal whose
    first page is present, without a last page, has the empty venue. *)
Lemma first_page_alone_gives_empty_venue :
  (forall U : unicode, extract_venue pub_first_page_only = "")
  /\ (forall U : unicode,
      ~ (forall pub : Publication,
           book pub = None -> journal pub = None ->
           Str.nonempty (Str.get (volume pub) "") = true
           \/ Str.nonempty (Str.get (issue pub) "") = true
           \/ Str.nonempty (Str.get (firstPage pub) "") = true
           \/ Str.nonempty (Str.get (lastPage pub) "") = true ->
           prefix ", " (extract_venue pub) = true)).
Proof.
  split; [reflexivity |].
  intros U H.
  specialize (H pub_first_page_only eq_refl eq_refl).
  assert (E : prefix ", " (extract_venue pub_first_page_only) = false)
    by reflexivity.
  rewrite H in E; [discriminate |].
  right; right; left. reflexivity.
Qed.

(** C4 as it is written fails: the journal entry has neither title nor
    label, the venue falls back to the title of the book, and that title
    is cleaned. *)
Lemma book_title_is_cleaned :
  book_venue pub_book_in_series = "PROCEEDINGS OF ICC 1938-1883"
  /\ (forall U : unicode,
      extract_venue pub_book_in_series = "Proceedings Of Icc")
  /\ (forall U : unicode,
      ~ (forall pub : Publication,
           journal_title (Str.get (journal pub) no_journal) = None ->
           journal_label (Str.get (journal pub) no_journal) = None ->
           extract_venue pub = book_venue pub ++ locator pub)).
Proof.
  split; [reflexivity |]. split; [intros U; vm_compute; reflexivity |].
  intros U H. specialize (H pub_book_in_series eq_refl eq_refl).
  vm_compute in H. discriminate H.
Qed.

(** ** Author order *)

Section Authors.

Context {A : Type} (key : A -> Z).

Lemma insert_by_perm (x : A) (l : list A) :
  Permutation (insert_by key x l) (x :: l).
Proof.
  induction l as [|y l IH]; simpl; [reflexivity |].
  destruct (key x <=? key y)%Z; [reflexivity |].
  rewrite IH. apply perm_swap.
Qed.

Lemma sorted_perm (l : list A) : Permutation (sorted key l) l.
Proof.
  induction l as [|x l IH]; simpl; [reflexivity |].
  rewrite insert_by_perm. now constructor.
Qed.

Lemma insert_by_sorted (x : A) (l : list A) :
  StronglySorted (fun a b => (key a <= key b)%Z) l ->
  StronglySorted (fun a b => (key a <= key b)%Z) (insert_by key x l).
Proof.
  induction 1 as [|y l Hs IH Hy]; simpl.
  - repeat constructor.
  - destruct (key x <=? key y)%Z eqn:E.
    + apply Z.leb_le in E. constructor; [now constructor |].
      constructor; [exact E |].
      eapply Forall_impl; [| exact Hy].
      intros z Hz. cbv beta in *. lia.
    + apply Z.leb_gt in E. constructor; [exact IH |].
      apply (Permutation_Forall (Permutation_sym (insert_by_perm x l))).
      constructor; [cbv beta; lia | exact Hy].
Qed.

Lemma sorted_sorted (l : list A) :
  StronglySorted (fun a b => (key a <= key b)%Z) (sorted key l).
Proof.
  induction l as [|x l IH]; simpl; [constructor |].
  now apply insert_by_sorted.
Qed.

Lemma StronglySorted_weaken (R R' : A -> A -> Prop) (l : list A) :
  (forall a b, In a l -> In b l -> R a b -> R' a b) ->
  StronglySorted R l -> StronglySorted R' l.
Proof.
  intros H Hs. induction Hs as [|x l Hs IH Hx].
  - constructor.
  - constructor.
    + apply IH. intros a b Ha Hb. apply H; now right.
    + rewrite Forall_forall in *. intros b Hb.
      apply H; [now left | now right | now apply Hx].
Qed.

End Authors.

Section AuthorOrder.

Context `{U : unicode}.

(** C5, as the script has it: the author string lists the counted
    authorships in non-decreasing order of their sort key, the list
    position, or 999 without one; when every position is below 999, an
    authorship without position comes after all those with one. *)
Theorem extract_authors_order (pub : Publication) :
  let shown := sorted_authorships pub in
  extract_authors pub = Str.join ", " (List.map author_part shown)
  /\ Permutation shown
       (filter (fun a => Str.get (authorTyped a) false)
               (Str.get (authorships pub) []))
  /\ StronglySorted (fun a b => (position_key a <= position_key b)%Z) shown
  /\ ((forall a z, In a shown -> listPosition a = Some z -> (z < 999)%Z) ->
      StronglySorted
        (fun a b => listPosition a = None -> listPosition b = None) shown).
Proof.
  cbv zeta. unfold sorted_authorships.
  split; [reflexivity |].
  split; [apply sorted_perm |].
  split; [apply sorted_sorted |].
  intros Hlt.
  eapply StronglySorted_weaken; [| apply sorted_sorted].
  intros a b Ha Hb Hab Hna. cbv beta in Hab.
  destruct (listPosition b) as [z|] eqn:Eb; [| reflexivity].
  exfalso. specialize (Hlt b z Hb Eb).
  unfold position_key in Hab. rewrite Hna, Eb in Hab. simpl in Hab. lia.
Qed.

End AuthorOrder.

Section AuthorExamples.

#[local] Existing Instance unicode_14.

Lemma extract_authors_order_witness :
  extract_authors pub_three_authors = "C. Cole, A. Able, B. Baker"
  /\ StronglySorted
       (fun a b => listPosition a = None -> listPosition b = None)
       (sorted_authorships pub_three_authors).
Proof.
  destruct (extract_authors_order pub_three_authors) as (H1 & _ & _ & H4).
  split; [rewrite H1; reflexivity |].
  apply H4. intros a z Ha Hz.
  simpl in Ha. destruct Ha as [<-|[<-|[<-|[]]]]; simpl in Hz;
    try discriminate; injection Hz as <-; reflexivity.
Defined.

End AuthorExamples.

(** C5 as it is written fails: an authorship at position 1000 is listed
    after one without position. *)
Lemma unpositioned_before_position_1000 :
  sorted_authorships pub_large_collaboration
  = [ counted_author None "Bob" "Baker";
      counted_author (Some 1000%Z) "Ann" "Able" ]
  /\ (forall U : unicode,
      extract_authors pub_large_collaboration = "B. Baker, A. Able")
  /\ ~ (forall pub : Publication,
          StronglySorted
            (fun a b => listPosition a = None -> listPosition b = None)
            (sorted_authorships pub)).
Proof.
  split; [reflexivity |]. split; [intros U; vm_compute; reflexivity |].
  intros H. specialize (H pub_large_collaboration).
  apply StronglySorted_inv in H. destruct H as [_ H].
  apply Forall_inv in H. specialize (H eq_refl). discriminate H.
Qed.

(** ** Escaping *)

Section Escape.

Context `{U : unicode}.

Lemma replace_append (c : ascii) (by_ a b : string) :
  Str.replace c by_ (a ++ b) = Str.replace c by_ a ++ Str.replace c by_ b.
Proof.
  induction a as [|x a IH]; simpl; [reflexivity |].
  destruct (Ascii.eqb x c); rewrite IH; [| reflexivity].
  now rewrite append_assoc.
Qed.

Lemma html_escape_append (a b : string) :
  html_escape (a ++ b) = html_escape a ++ html_escape b.
Proof. unfold html_escape. now rewrite !replace_append. Qed.

Lemma has_markup_append (a b : string) :
  has_markup (a ++ b) = has_markup a || has_markup b.
Proof.
  induction a as [|x a IH]; simpl; [reflexivity |].
  now rewrite IH, orb_assoc.
Qed.

Lemma html_escape_char (c : ascii) :
  has_markup (html_escape (String c "")) = false.
Proof. destruct c as [[] [] [] [] [] [] [] []]; reflexivity. Qed.

(** What [html.escape] returns holds no angle bracket and no quote. *)
Lemma html_escape_no_markup (s : string) :
  has_markup (html_escape s) = false.
Proof.
  induction s as [|c s IH]; [reflexivity |].
  change (String c s) with (String c "" ++ s).
  now rewrite html_escape_append, has_markup_append, html_escape_char, IH.
Qed.

(** The title and the venue of every record are escaped. *)
Lemma title_and_venue_escaped (pub : Publication) :
  has_markup (html_escape (Str.get (title pub) "Unknown Title")) = false
  /\ has_markup (html_escape (extract_venue pub)) = false.
Proof. split; apply html_escape_no_markup. Qed.

(** C1 fails on the author names: the title and the venue of the record go
    through [html.escape], the author string is embedded as
    [extract_authors] built it, with the angle brackets of the family
    name. *)
Theorem author_names_not_escaped :
  extract_authors pub_markup = "E. Moneypenny <img src=x onerror=alert(1)>"
  /\ has_markup (extract_authors pub_markup) = true
  /\ nth 2 (pub_parts pub_markup) ""
     = I ++ "            Safety of &lt;b&gt;R&amp;D&lt;/b&gt;"
  /\ nth 4 (pub_parts pub_markup) ""
     = I ++ "        <div class=" ++ quoted "pub-authors"
       ++ ">E. Moneypenny <img src=x onerror=alert(1)></div>"
  /\ nth 5 (pub_parts pub_markup) ""
     = I ++ "        <div class=" ++ quoted "pub-venue"
       ++ ">Q&amp;A Letters</div>"
  /\ In (nth 4 (pub_parts pub_markup) "") (html_parts [pub_markup]).
Proof.
  repeat split; try reflexivity.
  vm_compute. tauto.
Qed.

End Escape.

(** ** The renderer *)

Section Render.

Context `{U : unicode}.

Lemma lookup_year_key (y : Z) (q : Publication)
    (m : list (Z * list Publication)) :
  In q (lookup_year y m) -> In y (List.map fst m).
Proof.
  induction m as [|[y0 l] m IH]; simpl; [tauto |].
  destruct (y0 =? y)%Z eqn:E.
  - apply Z.eqb_eq in E. now left.
  - intros H. right. now apply IH.
Qed.

Lemma by_year_append_keeps (y y' : Z) (p q : Publication)
    (m : list (Z * list Publication)) :
  In q (lookup_year y m) -> In q (lookup_year y (by_year_append y' p m)).
Proof.
  induction m as [|[y0 l] m IH]; simpl; [tauto |].
  destruct (y0 =? y')%Z eqn:E'; simpl; destruct (y0 =? y)%Z; auto.
  intros H. apply in_or_app. now left.
Qed.

Lemma by_year_append_adds (y : Z) (p : Publication)
    (m : list (Z * list Publication)) :
  In p (lookup_year y (by_year_append y p m)).
Proof.
  induction m as [|[y0 l] m IH]; simpl.
  - rewrite Z.eqb_refl. now left.
  - destruct (y0 =? y)%Z eqn:E; simpl; rewrite E; [| exact IH].
    apply in_or_app. right. now left.
Qed.

Lemma group_keeps (pubs : list Publication) :
  forall (m : list (Z * list Publication)) (y : Z) (q : Publication),
  In q (lookup_year y m) ->
  In q (lookup_year y (fold_left group_step pubs m)).
Proof.
  induction pubs as [|p pubs IH]; intros m y q H; simpl; [exact H |].
  apply IH. unfold group_step. cbv zeta.
  destruct (Str.get (publishedYear p) 0 =? 0)%Z; [exact H |].
  now apply by_year_append_keeps.
Qed.

Lemma group_by_year_in (pubs : list Publication) (pub : Publication) :
  In pub pubs -> Str.get (publishedYear pub) 0%Z <> 0%Z ->
  In pub (lookup_year (Str.get (publishedYear pub) 0%Z) (group_by_year pubs)).
Proof.
  unfold group_by_year.
  generalize (@nil (Z * list Publication)) as m.
  induction pubs as [|p pubs IH]; intros m Hin Hy; [destruct Hin |].
  simpl. destruct Hin as [->|Hin]; [| now apply IH].
  apply group_keeps. unfold group_step. cbv zeta.
  apply Z.eqb_neq in Hy. rewrite Hy.
  apply by_year_append_adds.
Qed.

Lemma flat_map_segment {A B : Type} (f : A -> list B) (l : list A) (x : A) :
  In x l ->
  exists before after, flat_map f l = (before ++ f x ++ after)%list.
Proof.
  intros H. apply in_split in H. destruct H as (l1 & l2 & ->).
  exists (flat_map f l1), (flat_map f l2).
  now rewrite flat_map_app.
Qed.

(** The lines of every record with a year are part of the fragment. *)
Lemma html_parts_segment (pubs : list Publication) (pub : Publication) :
  In pub pubs -> Str.get (publishedYear pub) 0%Z <> 0%Z ->
  exists before after,
    html_parts pubs = (before ++ pub_parts pub ++ after)%list.
Proof.
  intros Hin Hy.
  pose proof (group_by_year_in pubs pub Hin Hy) as Hl.
  set (y := Str.get (publishedYear pub) 0%Z) in *.
  assert (Hk : In y (sorted_reverse (List.map fst (group_by_year pubs)))).
  { unfold sorted_reverse.
    apply (Permutation_in _ (Permutation_sym (sorted_perm Z.opp _))).
    eapply lookup_year_key; exact Hl. }
  unfold html_parts. cbv zeta.
  destruct (flat_map_segment
              (fun year => year_parts year
                             (lookup_year year (group_by_year pubs)))
              _ y Hk) as (b1 & a1 & ->).
  destruct (flat_map_segment pub_parts _ pub Hl) as (b2 & a2 & E2).
  unfold year_parts. rewrite E2.
  match goal with
  | |- context [(?hdr ++ (b2 ++ pub_parts pub ++ a2) ++ ?ftr)%list] =>
      exists (b1 ++ hdr ++ b2)%list, (a2 ++ ftr ++ a1)%list;
      generalize hdr ftr
  end.
  intros hdr ftr. now rewrite <- !app_assoc.
Qed.

Lemma join_cons (sep x y : string) (r : list string) :
  Str.join sep (x :: y :: r) = x ++ sep ++ Str.join sep (y :: r).
Proof. reflexivity. Qed.

(** The text joined from a list ends with the text joined from any
    non-empty end of the list. *)
Lemma join_prefix (sep : string) (b l : list string) :
  l <> [] ->
  exists before, Str.join sep (b ++ l) = before ++ Str.join sep l.
Proof.
  intros Hl. induction b as [|x b [before IH]]; [now exists "" |].
  exists (x ++ sep ++ before). cbn [app].
  destruct (b ++ l)%list as [|y r] eqn:E.
  - apply app_eq_nil in E. now destruct E.
  - rewrite join_cons, IH. now rewrite !append_assoc.
Qed.

(** The text of the block of every record with a year, down to its
    title, is part of the fragment. *)
Lemma build_html_title_block (pubs : list Publication) (pub : Publication) :
  In pub pubs -> Str.get (publishedYear pub) 0%Z <> 0%Z ->
  exists before after,
    build_html pubs = before ++ title_block (title_html pub) ++ after.
Proof.
  intros Hin Hy.
  destruct (html_parts_segment pubs pub Hin Hy) as (b & a & E).
  unfold build_html. rewrite E.
  destruct (join_prefix newline b (pub_parts pub ++ a)) as [before Eb].
  { unfold pub_parts. discriminate. }
  rewrite Eb. exists before.
  unfold pub_parts. cbv zeta. cbn [app].
  do 4 rewrite join_cons.
  match goal with
  | |- context [Str.join newline ?rest] => exists (Str.join newline rest)
  end.
  unfold title_block. now rewrite !append_assoc.
Qed.

(** C9: for a record with a non-zero published year and no title, the
    fragment shows "Unknown Title" in the title position, inside a link to
    the DOI URL when the record has one: the text that [build_html]
    returns holds the opening of the block of the record and its title
    element around the placeholder. *)
Theorem unknown_title_placeholder
    (publications : list Publication) (pub : Publication) :
  In pub publications ->
  Str.get (publishedYear pub) 0%Z <> 0%Z ->
  title pub = None ->
  title_html pub
  = (if Str.nonempty (extract_doi pub)
     then "<a href=" ++ quoted (extract_doi pub) ++ " target="
          ++ quoted "_blank" ++ " rel=" ++ quoted "noopener"
          ++ ">Unknown Title</a>"
     else "Unknown Title")
  /\ nth 2 (pub_parts pub) "" = I ++ "            " ++ title_html pub
  /\ (exists before after,
        html_parts publications = (before ++ pub_parts pub ++ after)%list)
  /\ exists before after,
       build_html publications
       = before
         ++ title_block
              (if Str.nonempty (extract_doi pub)
               then "<a href=" ++ quoted (extract_doi pub) ++ " target="
                    ++ quoted "_blank" ++ " rel=" ++ quoted "noopener"
                    ++ ">Unknown Title</a>"
               else "Unknown Title")
         ++ after.
Proof.
  intros Hin Hy Ht.
  assert (E : title_html pub
              = (if Str.nonempty (extract_doi pub)
                 then "<a href=" ++ quoted (extract_doi pub) ++ " target="
                      ++ quoted "_blank" ++ " rel=" ++ quoted "noopener"
                      ++ ">Unknown Title</a>"
                 else "Unknown Title")).
  { unfold title_html. rewrite Ht. cbv zeta.
    destruct (Str.nonempty (extract_doi pub)); reflexivity. }
  split; [exact E |]. split; [reflexivity |].
  split; [now apply html_parts_segment |].
  rewrite <- E. now apply build_html_title_block.
Qed.

End Render.

Section RenderExamples.

#[local] Existing Instance unicode_14.

Lemma unknown_title_placeholder_witness :
  title_html pub_untitled = "Unknown Title"
  /\ title_html pub_untitled_doi
     = "<a href=" ++ quoted "https://doi.org/10.1109/5.771073" ++ " target="
       ++ quoted "_blank" ++ " rel=" ++ quoted "noopener"
       ++ ">Unknown Title</a>"
  /\ (exists before after,
        html_parts [pub_untitled_doi; pub_untitled]
        = (before ++ pub_parts pub_untitled ++ after)%list)
  /\ exists before after,
       build_html [pub_untitled_doi; pub_untitled]
       = before ++ title_block "Unknown Title" ++ after.
Proof.
  assert (H2 : In pub_untitled [pub_untitled_doi; pub_untitled])
    by (right; left; reflexivity).
  assert (H1 : In pub_untitled_doi [pub_untitled_doi; pub_untitled])
    by (left; reflexivity).
  split; [| split; [| split]].
  - rewrite (proj1 (unknown_title_placeholder _ pub_untitled H2
                      ltac:(discriminate) eq_refl)).
    reflexivity.
  - rewrite (proj1 (unknown_title_placeholder _ pub_untitled_doi H1
                      ltac:(discriminate) eq_refl)).
    reflexivity.
  - exact (proj1 (proj2 (proj2 (unknown_title_placeholder _ pub_untitled H2
                                  ltac:(discriminate) eq_refl)))).
  - exact (proj2 (proj2 (proj2 (unknown_title_placeholder _ pub_untitled H2
                                  ltac:(discriminate) eq_refl)))).
Defined.

End RenderExamples.

(** ** Code points *)

Section CodePoints.

Lemma concat_app (a b : list string) :
  Str.concat (a ++ b) = Str.concat a ++ Str.concat b.
Proof.
  induction a as [|x a IH]; cbn [app Str.concat]; [reflexivity |].
  now rewrite IH, append_assoc.
Qed.

Lemma chars_cons (c : ascii) (r : string) :
  Str.chars (String c r)
  = match Str.chars r with
    | x :: l =>
        if Str.continues_code_point x then String c x :: l
        else String c "" :: x :: l
    | [] => [String c ""]
    end.
Proof. reflexivity. Qed.

Lemma chars_head (c : ascii) (r : string) :
  exists t l, Str.chars (String c r) = String c t :: l.
Proof.
  rewrite chars_cons. destruct (Str.chars r) as [|x l]; [now exists "", [] |].
  destruct (Str.continues_code_point x);
    [now exists x, l | now exists "", (x :: l)].
Qed.

Lemma chars_chunk (t : string) :
  forall (c : ascii) (s : string),
  Str.all_continuation t = true -> Str.continues_code_point s = false ->
  Str.chars (String c (t ++ s)) = String c t :: Str.chars s.
Proof.
  induction t as [|e t IH]; intros c s Ht Hs.
  - cbn [append]. rewrite chars_cons. destruct s as [|d s'].
    + reflexivity.
    + destruct (chars_head d s') as (t' & l & E). rewrite E.
      cbn [Str.continues_code_point] in *. now rewrite Hs.
  - cbn [Str.all_continuation] in Ht. apply andb_true_iff in Ht.
    destruct Ht as [He Ht].
    cbn [append]. rewrite chars_cons, (IH e s Ht Hs).
    cbn [Str.continues_code_point]. now rewrite He.
Qed.

Lemma concat_chars (s : string) : Str.concat (Str.chars s) = s.
Proof.
  induction s as [|c r IH]; [reflexivity |].
  rewrite chars_cons. destruct (Str.chars r) as [|x l].
  - cbn in IH. subst r. reflexivity.
  - cbn [Str.concat] in IH.
    destruct (Str.continues_code_point x); cbn [Str.concat append];
      now rewrite IH.
Qed.

Lemma code_point_chunk (x : string) :
  Str.code_point x = true -> chunk x = true.
Proof.
  destruct x as [|c t]; [discriminate |]. cbn.
  intros H. now apply andb_true_iff in H.
Qed.

Lemma code_points_segmented (l : list string) :
  Forall (fun y => Str.code_point y = true) l -> segmented l.
Proof.
  destruct 1 as [|x r Hx Hr]; [exact Logic.I |].
  split; [now apply code_point_chunk | exact Hr].
Qed.

Lemma segmented_tail (x : string) (r : list string) :
  segmented (x :: r) -> segmented r.
Proof. intros [_ H]. now apply code_points_segmented. Qed.

Lemma concat_starts (l : list string) :
  Forall (fun y => Str.code_point y = true) l ->
  Str.continues_code_point (Str.concat l) = false.
Proof.
  destruct 1 as [|x r Hx Hr]; [reflexivity |].
  destruct x as [|d t]; [discriminate |].
  cbn in Hx |- *. apply andb_true_iff in Hx.
  now apply negb_true_iff.
Qed.

(** The characters of a string put together from characters are those
    characters. *)
Lemma chars_concat (l : list string) :
  segmented l -> Str.chars (Str.concat l) = l.
Proof.
  assert (H : forall r, Forall (fun y => Str.code_point y = true) r ->
                        Str.chars (Str.concat r) = r).
  { induction 1 as [|x r Hx Hr IH]; [reflexivity |].
    destruct x as [|c t]; [discriminate |].
    cbn in Hx. apply andb_true_iff in Hx. destruct Hx as [_ Ht].
    cbn [Str.concat append].
    rewrite (chars_chunk t c _ Ht (concat_starts r Hr)). now rewrite IH. }
  destruct l as [|x r]; [reflexivity |].
  intros [Hx Hr]. destruct x as [|c t]; [discriminate |].
  cbn in Hx. cbn [Str.concat append].
  rewrite (chars_chunk t c _ Hx (concat_starts r Hr)). now rewrite (H r Hr).
Qed.

Lemma segmented_chars (s : string) : segmented (Str.chars s).
Proof.
  induction s as [|c r IH]; [exact Logic.I |].
  rewrite chars_cons. destruct (Str.chars r) as [|x l].
  - split; [reflexivity | constructor].
  - destruct IH as [Hx Hl]. destruct x as [|d t]; [discriminate |].
    cbn in Hx. cbn [Str.continues_code_point].
    destruct (Str.is_continuation d) eqn:Ed.
    + split; [| exact Hl]. cbn. now rewrite Ed.
    + split; [reflexivity |]. constructor; [| exact Hl].
      cbn. now rewrite Ed.
Qed.

Lemma concat_inj (a b : list string) :
  segmented a -> segmented b -> Str.concat a = Str.concat b -> a = b.
Proof.
  intros Ha Hb E.
  rewrite <- (chars_concat a Ha), <- (chars_concat b Hb). now rewrite E.
Qed.

Lemma subsequence_Forall {A : Type} (P : A -> Prop) (l' l : list A) :
  subsequence l' l -> Forall P l -> Forall P l'.
Proof.
  induction 1 as [|x l' l _ IH|x l' l _ IH]; intros H.
  - constructor.
  - apply IH. now inversion H.
  - inversion H; subst. constructor; [assumption | now apply IH].
Qed.

Lemma subsequence_refl {A : Type} (l : list A) : subsequence l l.
Proof. induction l; now constructor. Qed.

Lemma subsequence_empty {A : Type} (l : list A) : subsequence [] l.
Proof. induction l; now constructor. Qed.

Lemma subsequence_trans {A : Type} (l1 l2 l3 : list A) :
  subsequence l1 l2 -> subsequence l2 l3 -> subsequence l1 l3.
Proof.
  intros H12 H23. revert l1 H12.
  induction H23 as [|x l2 l3 _ IH|x l2 l3 _ IH]; intros l1 H12.
  - exact H12.
  - constructor. now apply IH.
  - inversion H12; subst; constructor; now apply IH.
Qed.

(** Taking characters away leaves a list of characters. *)
Lemma subsequence_segmented (l' l : list string) :
  subsequence l' l -> segmented l -> segmented l'.
Proof.
  induction 1 as [|x l' l Hs _|x l' l Hs _]; intros H.
  - exact Logic.I.
  - destruct H as [_ H]. apply code_points_segmented.
    now apply (subsequence_Forall _ _ _ Hs).
  - destruct H as [Hx H]. split; [exact Hx |].
    now apply (subsequence_Forall _ _ _ Hs).
Qed.

End CodePoints.

(** ** Stripping *)

Section Strip.

Context `{U : unicode}.

Lemma lstrip_subsequence (l : list string) :
  subsequence (Str.lstrip_chars l) l.
Proof.
  induction l as [|x r IH]; [constructor |].
  cbn [Str.lstrip_chars]. destruct (Str.isspace x).
  - now constructor.
  - apply subsequence_refl.
Qed.

Lemma rstrip_subsequence (l : list string) :
  subsequence (Str.rstrip_chars l) l.
Proof.
  induction l as [|x r IH]; [constructor |].
  cbn [Str.rstrip_chars]. destruct (Str.rstrip_chars r) as [|y r'].
  - destruct (Str.isspace x); constructor; apply subsequence_empty.
  - now constructor.
Qed.

Lemma strip_subsequence (l : list string) :
  subsequence (Str.strip_chars l) l.
Proof.
  eapply subsequence_trans;
    [apply rstrip_subsequence | apply lstrip_subsequence].
Qed.

Lemma sub_from_subsequence (l : list string) :
  forall skip, subsequence (Issn.sub_from skip l) l.
Proof.
  induction l as [|x r IH]; intros skip; [destruct skip; constructor |].
  cbn [Issn.sub_from]. destruct skip as [|k]; [| now constructor].
  destruct (Issn.match_at (x :: r)) as [[|n]|]; now constructor.
Qed.

Lemma rstrip_cons (x : string) (r : list string) :
  Str.rstrip_chars (x :: r)
  = match Str.rstrip_chars r with
    | [] => if Str.isspace x then [] else [x]
    | r' => x :: r'
    end.
Proof. reflexivity. Qed.

Lemma rstrip_idem (l : list string) :
  Str.rstrip_chars (Str.rstrip_chars l) = Str.rstrip_chars l.
Proof.
  induction l as [|x r IH]; [reflexivity |].
  rewrite rstrip_cons.
  destruct (Str.rstrip_chars r) as [|d r'] eqn:E.
  - destruct (Str.isspace x) eqn:Ex; [reflexivity |].
    rewrite rstrip_cons. cbn [Str.rstrip_chars]. now rewrite Ex.
  - rewrite rstrip_cons. now rewrite IH.
Qed.

Lemma lstrip_starts_clean (l : list string) :
  starts_clean (Str.lstrip_chars l) = true.
Proof.
  induction l as [|x r IH]; [reflexivity |].
  cbn [Str.lstrip_chars]. destruct (Str.isspace x) eqn:E; [exact IH |].
  cbn. now rewrite E.
Qed.

Lemma rstrip_starts_clean (l : list string) :
  starts_clean l = true -> starts_clean (Str.rstrip_chars l) = true.
Proof.
  destruct l as [|x r]; [reflexivity |].
  rewrite rstrip_cons. cbn [starts_clean]. intros H.
  destruct (Str.rstrip_chars r).
  - apply negb_true_iff in H. rewrite H. cbn. now rewrite H.
  - exact H.
Qed.

Lemma lstrip_fixed (l : list string) :
  starts_clean l = true -> Str.lstrip_chars l = l.
Proof.
  destruct l as [|x r]; [reflexivity |].
  cbn. intros H. apply negb_true_iff in H. now rewrite H.
Qed.

Lemma strip_starts_clean (l : list string) :
  starts_clean (Str.strip_chars l) = true.
Proof. apply rstrip_starts_clean, lstrip_starts_clean. Qed.

Lemma strip_ends_clean (l : list string) :
  Str.rstrip_chars (Str.strip_chars l) = Str.strip_chars l.
Proof. apply rstrip_idem. Qed.

Lemma strip_fixed (l : list string) :
  starts_clean l = true -> Str.rstrip_chars l = l -> Str.strip_chars l = l.
Proof.
  intros H1 H2. unfold Str.strip_chars. now rewrite (lstrip_fixed l H1).
Qed.

Lemma strip_chars_idem (l : list string) :
  Str.strip_chars (Str.strip_chars l) = Str.strip_chars l.
Proof. apply strip_fixed; [apply strip_starts_clean | apply strip_ends_clean]. Qed.

Lemma rstrip_clean (m : list string) :
  Forall (fun y => Str.isspace y = false) m -> Str.rstrip_chars m = m.
Proof.
  induction 1 as [|x m Hx _ IH]; [reflexivity |].
  rewrite rstrip_cons, IH, Hx. now destruct m.
Qed.

Lemma rstrip_app (a b : list string) :
  b <> [] -> Str.rstrip_chars b = b ->
  Str.rstrip_chars (a ++ b) = (a ++ b)%list.
Proof.
  intros Hn Hb. induction a as [|x a IH]; [exact Hb |].
  cbn [app]. rewrite rstrip_cons, IH.
  destruct (a ++ b)%list eqn:E; [| reflexivity].
  apply app_eq_nil in E. now destruct E.
Qed.

Lemma rstrip_fixed_tail (x y : string) (r : list string) :
  Str.rstrip_chars (x :: y :: r) = x :: y :: r ->
  Str.rstrip_chars (y :: r) = y :: r.
Proof.
  rewrite (rstrip_cons x). destruct (Str.rstrip_chars (y :: r)) as [|z r'].
  - destruct (Str.isspace x); discriminate.
  - now intros [= -> ->].
Qed.

Lemma rstrip_fixed_last (x : string) :
  Str.rstrip_chars [x] = [x] -> Str.isspace x = false.
Proof. cbn. now destruct (Str.isspace x). Qed.

(** The characters of the stripped string. *)
Lemma chars_strip (s : string) :
  Str.chars (Str.strip s) = Str.strip_chars (Str.chars s).
Proof.
  unfold Str.strip. apply chars_concat.
  eapply subsequence_segmented; [apply strip_subsequence |].
  apply segmented_chars.
Qed.

Lemma strip_idem (s : string) : Str.strip (Str.strip s) = Str.strip s.
Proof.
  unfold Str.strip at 1. rewrite chars_strip.
  unfold Str.strip. now rewrite strip_chars_idem.
Qed.

Lemma chars_sub (s : string) :
  Str.chars (Issn.sub s) = Issn.sub_from 0 (Str.chars s).
Proof.
  unfold Issn.sub. apply chars_concat.
  eapply subsequence_segmented; [apply sub_from_subsequence |].
  apply segmented_chars.
Qed.

End Strip.

(** ** Case mappings *)

Section CaseMappings.

Context `{U : unicode}.

Lemma ascii_char_some (x : string) (c : ascii) :
  Str.ascii_char x = Some c ->
  x = String c "" /\ (Str.code c <? 128)%nat = true.
Proof.
  unfold Str.ascii_char. destruct x as [|d [|? ?]]; try discriminate.
  destruct (Str.code d <? 128)%nat eqn:E; [| discriminate].
  intros [= ->]. now split.
Qed.

Lemma ascii_code_point (c : ascii) :
  (Str.code c <? 128)%nat = true -> Str.code_point (String c "") = true.
Proof.
  intros H. apply Nat.ltb_lt in H. cbn.
  unfold Str.is_continuation, Str.in_range.
  destruct (128 <=? Str.code c)%nat eqn:E; [| reflexivity].
  apply Nat.leb_le in E. lia.
Qed.

Lemma junk_not_ascii (x : string) :
  Str.code_point x = false -> Str.ascii_char x = None.
Proof.
  intros H. destruct (Str.ascii_char x) as [c|] eqn:E; [| reflexivity].
  apply ascii_char_some in E. destruct E as [-> E].
  rewrite (ascii_code_point c E) in H. discriminate.
Qed.

Lemma upper_char_junk (x : string) :
  Str.code_point x = false -> Str.upper_char x = [x].
Proof.
  intros H. unfold Str.upper_char. now rewrite (junk_not_ascii x H), H.
Qed.

Lemma lower_char_junk (x : string) :
  Str.code_point x = false -> Str.lower_char x = [x].
Proof.
  intros H. unfold Str.lower_char. now rewrite (junk_not_ascii x H), H.
Qed.

Lemma title_char_junk (x : string) :
  Str.code_point x = false -> Str.title_char x = [x].
Proof.
  intros H. unfold Str.title_char. now rewrite (junk_not_ascii x H), H.
Qed.

Lemma title_ucs4_junk (p : bool) (b a : list string) (x : string) :
  Str.code_point x = false -> Str.title_ucs4 p b a x = [x].
Proof.
  intros H. unfold Str.title_ucs4, Str.lower_ucs4.
  destruct p; [| now apply title_char_junk].
  destruct (String.eqb x Str.capital_sigma) eqn:E;
    [| now apply lower_char_junk].
  apply String.eqb_eq in E. subst x. discriminate.
Qed.

Hypothesis database : regular.

Lemma upper_char_nonempty (x : string) : Str.upper_char x <> [].
Proof.
  destruct (Str.code_point x) eqn:E.
  - now apply database.
  - now rewrite upper_char_junk.
Qed.

Lemma upper_char_code_points (x : string) :
  Str.code_point x = true ->
  Forall (fun y => Str.code_point y = true) (Str.upper_char x).
Proof. intros H. now apply database. Qed.

Lemma title_ucs4_full (p : bool) (b a : list string) (x : string) :
  Str.code_point x = true ->
  Str.title_ucs4 p b a x <> []
  /\ Forall (fun y => Str.code_point y = true) (Str.title_ucs4 p b a x).
Proof.
  intros H. unfold Str.title_ucs4, Str.lower_ucs4.
  destruct p; [| now apply database].
  destruct (String.eqb x Str.capital_sigma); [| now apply database].
  split; [discriminate |]. unfold Str.handle_capital_sigma.
  destruct (_ && _); now repeat constructor.
Qed.

Lemma title_ucs4_nonempty (p : bool) (b a : list string) (x : string) :
  Str.title_ucs4 p b a x <> [].
Proof.
  destruct (Str.code_point x) eqn:E.
  - now apply title_ucs4_full.
  - now rewrite title_ucs4_junk.
Qed.

Lemma title_ucs4_text (p : bool) (b a : list string) (x : string) :
  Str.isspace x = false ->
  Forall (fun y => Str.isspace y = false) (Str.title_ucs4 p b a x).
Proof.
  intros H. destruct database as (_ & (Hl & Ht & Hs & Hf) & _).
  unfold Str.title_ucs4, Str.lower_ucs4.
  destruct p; [| now apply Ht].
  destruct (String.eqb x Str.capital_sigma); [| now apply Hl].
  unfold Str.handle_capital_sigma.
  destruct (_ && _); now repeat constructor.
Qed.

Lemma title_ucs4_fixed (p : bool) (b a : list string) (x : string) :
  upper_fixed x -> Forall upper_fixed (Str.title_ucs4 p b a x) ->
  Str.title_ucs4 p b a x = [x].
Proof.
  destruct database as (_ & _ & (Hl & Ht & Hs & Hf)).
  unfold Str.title_ucs4, Str.lower_ucs4.
  destruct p; [| now apply Ht].
  destruct (String.eqb x Str.capital_sigma); [| now apply Hl].
  unfold Str.handle_capital_sigma.
  intros _ H. apply Forall_inv in H.
  destruct (_ && _); contradiction.
Qed.

Lemma upper_chars_segmented (l : list string) :
  segmented l -> segmented (Str.upper_chars l).
Proof.
  assert (H : forall r, Forall (fun y => Str.code_point y = true) r ->
              Forall (fun y => Str.code_point y = true) (Str.upper_chars r)).
  { induction 1 as [|x r Hx _ IH]; [constructor |].
    cbn. apply Forall_app. split; [now apply upper_char_code_points | exact IH]. }
  destruct l as [|x r]; [trivial |]. intros [Hx Hr].
  unfold Str.upper_chars. cbn [flat_map].
  destruct (Str.code_point x) eqn:E.
  - apply code_points_segmented, Forall_app.
    split; [now apply upper_char_code_points | now apply H].
  - rewrite (upper_char_junk x E). split; [exact Hx | now apply H].
Qed.

Lemma title_from_code_points (l : list string) :
  Forall (fun y => Str.code_point y = true) l ->
  forall b p,
  Forall (fun y => Str.code_point y = true) (Str.title_from b p l).
Proof.
  induction 1 as [|x r Hx _ IH]; intros b p; [constructor |].
  cbn [Str.title_from]. apply Forall_app.
  split; [now apply title_ucs4_full | apply IH].
Qed.

Lemma title_from_segmented (l : list string) (b : list string) (p : bool) :
  segmented l -> segmented (Str.title_from b p l).
Proof.
  destruct l as [|x r]; [trivial |]. intros [Hx Hr].
  cbn [Str.title_from].
  destruct (Str.code_point x) eqn:E.
  - apply code_points_segmented, Forall_app.
    split; [now apply title_ucs4_full | now apply title_from_code_points].
  - rewrite (title_ucs4_junk _ _ _ x E).
    split; [exact Hx | now apply title_from_code_points].
Qed.

Lemma title_from_nonempty (x : string) (r b : list string) (p : bool) :
  Str.title_from b p (x :: r) <> [].
Proof.
  cbn [Str.title_from]. intros H. apply app_eq_nil in H.
  destruct H as [H _]. now apply title_ucs4_nonempty in H.
Qed.

(** Title-casing a stripped text gives a stripped text. *)
Lemma title_from_ends_clean (l : list string) :
  Str.rstrip_chars l = l ->
  forall b p,
  Str.rstrip_chars (Str.title_from b p l) = Str.title_from b p l.
Proof.
  induction l as [|x r IH]; intros H b p; [reflexivity |].
  destruct r as [|y r].
  - cbn [Str.title_from]. rewrite app_nil_r.
    apply rstrip_clean, title_ucs4_text. now apply rstrip_fixed_last.
  - change (Str.title_from b p (x :: y :: r))
      with (Str.title_ucs4 p b (y :: r) x
            ++ Str.title_from (x :: b) (Str.iscased x) (y :: r))%list.
    apply rstrip_app; [apply title_from_nonempty |].
    apply IH. now apply rstrip_fixed_tail in H.
Qed.

Lemma title_from_starts_clean (l : list string) (b : list string) (p : bool) :
  starts_clean l = true -> starts_clean (Str.title_from b p l) = true.
Proof.
  destruct l as [|x r]; [reflexivity |].
  cbn [starts_clean Str.title_from]. intros H. apply negb_true_iff in H.
  pose proof (title_ucs4_text p b r x H) as Ht.
  pose proof (title_ucs4_nonempty p b r x) as Hn.
  destruct (Str.title_ucs4 p b r x) as [|z m]; [contradiction |].
  apply Forall_inv in Ht. cbn. now rewrite Ht.
Qed.

Lemma title_from_stripped (l : list string) :
  starts_clean l = true -> Str.rstrip_chars l = l ->
  Str.strip_chars (Str.title_from [] false l) = Str.title_from [] false l.
Proof.
  intros H1 H2. apply strip_fixed.
  - now apply title_from_starts_clean.
  - now apply title_from_ends_clean.
Qed.

Lemma flat_map_length {A : Type} (f : A -> list A) (l : list A) :
  (forall x, f x <> []) -> (List.length l <= List.length (flat_map f l))%nat.
Proof.
  intros Hf. induction l as [|x l IH]; [apply Nat.le_refl |].
  cbn [flat_map]. rewrite length_app. cbn [List.length].
  specialize (Hf x). destruct (f x); [contradiction |]. cbn [List.length]. lia.
Qed.

(** A text that upper-casing leaves as it is consists of characters that
    are their own upper case. *)
Lemma flat_map_fixed {A : Type} (f : A -> list A) (l : list A) :
  (forall x, f x <> []) -> flat_map f l = l ->
  Forall (fun x => f x = [x]) l.
Proof.
  intros Hf. induction l as [|x l IH]; intros H; [constructor |].
  cbn [flat_map] in H.
  pose proof (flat_map_length f l Hf) as Hl.
  pose proof (Hf x) as Hx.
  destruct (f x) as [|y m] eqn:E; [contradiction |].
  cbn [app] in H. injection H as -> H.
  assert (Hm : m = []).
  { apply (f_equal (@List.length A)) in H. rewrite length_app in H.
    destruct m; [reflexivity |]. cbn [List.length] in H. lia. }
  subst m. constructor; [exact E | now apply IH].
Qed.

Lemma upper_chars_fixed (l : list string) :
  Str.upper_chars l = l -> Forall upper_fixed l.
Proof. apply flat_map_fixed, upper_char_nonempty. Qed.

(** Title-casing a text of upper-case characters, when it gives a text of
    upper-case characters, changes nothing. *)
Lemma title_from_fixed (l : list string) :
  Forall upper_fixed l ->
  forall b p,
  Forall upper_fixed (Str.title_from b p l) -> Str.title_from b p l = l.
Proof.
  induction 1 as [|x r Hx _ IH]; intros b p H; [reflexivity |].
  cbn [Str.title_from] in *. apply Forall_app in H. destruct H as [Hm Ht].
  rewrite (title_ucs4_fixed p b r x Hx Hm).
  cbn [app]. f_equal. now apply IH.
Qed.

(** [clean_journal_title] on the characters of the title. *)
Lemma clean_journal_title_chars (s : string) :
  let t := Str.strip_chars (Issn.sub_from 0 (Str.chars s)) in
  clean_journal_title s
  = if String.eqb (Str.concat t) (Str.concat (Str.upper_chars t))
       && (5 <? List.length t)%nat
    then Str.concat (Str.title_from [] false t)
    else Str.concat t.
Proof.
  cbv zeta. unfold clean_journal_title. cbv zeta.
  unfold Str.upper, Str.title, Str.py_len.
  rewrite !chars_strip, !chars_sub. unfold Str.strip.
  now rewrite !chars_sub.
Qed.

End CaseMappings.

(** ** Journal-title cleanup *)

Section Cleanup.

Context `{U : unicode}.

(** What the cleanup returns, as a list of characters: it has no white
    space at its ends. *)
Lemma clean_journal_title_shape (s : string) :
  regular ->
  exists r,
    clean_journal_title s = Str.concat r /\ segmented r
    /\ starts_clean r = true /\ Str.rstrip_chars r = r
    /\ let t := Str.strip_chars (Issn.sub_from 0 (Str.chars s)) in
       if String.eqb (Str.concat t) (Str.concat (Str.upper_chars t))
          && (5 <? List.length t)%nat
       then r = Str.title_from [] false t
       else r = t.
Proof.
  intros R. rewrite clean_journal_title_chars. cbv zeta.
  set (t := Str.strip_chars (Issn.sub_from 0 (Str.chars s))).
  assert (St : segmented t).
  { eapply subsequence_segmented; [apply strip_subsequence |].
    eapply subsequence_segmented; [apply sub_from_subsequence |].
    apply segmented_chars. }
  assert (Ct : starts_clean t = true) by apply strip_starts_clean.
  assert (Et : Str.rstrip_chars t = t) by apply strip_ends_clean.
  destruct (_ && _).
  - exists (Str.title_from [] false t). split; [reflexivity |].
    split; [now apply title_from_segmented |].
    split; [now apply title_from_starts_clean |].
    split; [now apply title_from_ends_clean | reflexivity].
  - exists t. now repeat split.
Qed.

(** C6, as the script has it: cleaning a cleaned title again changes
    nothing whenever the cleaned title holds no ISSN-shaped token left to
    strip, and "ACTA POLYTECHNICA HUNGARICA 1785-8860" becomes
    "Acta Polytechnica Hungarica". *)
Theorem clean_journal_title_idempotent :
  (regular ->
   forall s : string,
     Issn.sub (clean_journal_title s) = clean_journal_title s ->
     clean_journal_title (clean_journal_title s) = clean_journal_title s)
  /\ clean_journal_title "ACTA POLYTECHNICA HUNGARICA 1785-8860"
     = "Acta Polytechnica Hungarica".
Proof.
  split; [| vm_compute; reflexivity].
  intros R s Hsub.
  destruct (clean_journal_title_shape s R) as (r & Er & Sr & Cr & Rr & Hr).
  cbv zeta in Hr.
  set (t := Str.strip_chars (Issn.sub_from 0 (Str.chars s))) in *.
  rewrite Er in Hsub |- *.
  assert (Hs : Issn.sub_from 0 r = r).
  { apply concat_inj; [| exact Sr |].
    - eapply subsequence_segmented; [apply sub_from_subsequence | exact Sr].
    - unfold Issn.sub in Hsub. now rewrite (chars_concat r Sr) in Hsub. }
  rewrite clean_journal_title_chars. cbv zeta.
  rewrite (chars_concat r Sr), Hs, (strip_fixed r Cr Rr).
  destruct (String.eqb (Str.concat r) (Str.concat (Str.upper_chars r))
            && (5 <? List.length r)%nat) eqn:E2; [| reflexivity].
  destruct (String.eqb (Str.concat t) (Str.concat (Str.upper_chars t))
            && (5 <? List.length t)%nat) eqn:E1.
  - f_equal. rewrite Hr at 2. f_equal.
    apply andb_true_iff in E1, E2. destruct E1 as [E1 _], E2 as [E2 _].
    apply String.eqb_eq in E1, E2.
    assert (St : segmented t).
    { eapply subsequence_segmented; [apply strip_subsequence |].
      eapply subsequence_segmented; [apply sub_from_subsequence |].
      apply segmented_chars. }
    apply concat_inj in E1;
      [| exact St | now apply upper_chars_segmented].
    apply concat_inj in E2;
      [| exact Sr | now apply upper_chars_segmented].
    rewrite Hr. apply (title_from_fixed R).
    + apply (upper_chars_fixed R). now symmetry.
    + rewrite <- Hr. apply (upper_chars_fixed R). now symmetry.
  - subst r. rewrite E2 in E1. discriminate.
Qed.

End Cleanup.

(** ** The regular database, decided *)

Section Regular.

Context `{U : unicode}.

Lemma same_spec (a b : list string) : same a b = true <-> a = b.
Proof.
  unfold same. destruct (list_eq_dec string_dec a b) as [E|E].
  - now split.
  - split; [discriminate | contradiction].
Qed.

Lemma full_spec (m : list string) :
  full m = true ->
  m <> [] /\ Forall (fun y => Str.code_point y = true) m.
Proof.
  unfold full. intros H. apply andb_true_iff in H. destruct H as [H1 H2].
  split.
  - intros ->. discriminate.
  - apply Forall_forall. now apply forallb_forall.
Qed.

Lemma text_spec (m : list string) :
  text m = true -> Forall (fun y => Str.isspace y = false) m.
Proof.
  unfold text. intros H. apply Forall_forall. intros y Hy.
  apply negb_true_iff. revert y Hy. now apply forallb_forall.
Qed.

Lemma is_upper_fixed_spec (x : string) :
  is_upper_fixed x = true <-> upper_fixed x.
Proof. apply same_spec. Qed.

Lemma leaves_spec (m : list string) (x : string) :
  leaves m x = true -> Forall upper_fixed m -> m = [x].
Proof.
  unfold leaves. intros H Hm. apply orb_true_iff in H.
  destruct H as [H|H]; [| now apply same_spec].
  apply negb_true_iff in H.
  assert (E : forallb is_upper_fixed m = true).
  { apply forallb_forall. intros y Hy. apply is_upper_fixed_spec.
    revert y Hy. now apply Forall_forall. }
  congruence.
Qed.

(** The database is regular when it is at every code point. *)
Lemma regular_pointwise :
  (forall x, regular_at x = true) ->
  Str.isspace Str.small_sigma = false ->
  Str.isspace Str.final_sigma = false ->
  is_upper_fixed Str.small_sigma = false ->
  is_upper_fixed Str.final_sigma = false ->
  regular.
Proof.
  intros H S1 S2 F1 F2.
  assert (Hf : forall x, Str.code_point x = true ->
                 full (Str.upper_char x) = true
                 /\ full (Str.lower_char x) = true
                 /\ full (Str.title_char x) = true).
  { intros x Hx. specialize (H x). unfold regular_at in H.
    rewrite Hx in H. cbn [negb orb] in H.
    apply andb_true_iff in H. destruct H as [H _].
    apply andb_true_iff in H. destruct H as [H _].
    apply andb_true_iff in H. destruct H as [H H3].
    apply andb_true_iff in H. now destruct H. }
  assert (Ht : forall x, Str.isspace x = false ->
                 text (Str.lower_char x) = true
                 /\ text (Str.title_char x) = true).
  { intros x Hx. specialize (H x). unfold regular_at in H.
    rewrite Hx in H. cbn [orb] in H.
    apply andb_true_iff in H. destruct H as [H _].
    apply andb_true_iff in H. destruct H as [_ H].
    now apply andb_true_iff in H. }
  assert (Hl : forall x, upper_fixed x ->
                 leaves (Str.lower_char x) x = true
                 /\ leaves (Str.title_char x) x = true).
  { intros x Hx. apply is_upper_fixed_spec in Hx.
    specialize (H x). unfold regular_at in H.
    rewrite Hx in H. cbn [negb orb] in H.
    apply andb_true_iff in H. destruct H as [_ H].
    now apply andb_true_iff in H. }
  repeat split; try assumption.
  - now apply full_spec, Hf.
  - now apply full_spec, Hf.
  - now apply full_spec, Hf.
  - now apply full_spec, Hf.
  - now apply full_spec, Hf.
  - now apply full_spec, Hf.
  - intros x Hx. now apply text_spec, Ht.
  - intros x Hx. now apply text_spec, Ht.
  - intros x Hx. now apply leaves_spec, Hl.
  - intros x Hx. now apply leaves_spec, Hl.
  - intros E. apply is_upper_fixed_spec in E. congruence.
  - intros E. apply is_upper_fixed_spec in E. congruence.
Qed.

End Regular.

(** ** The database of CPython 3.11 is regular *)

Section Database.

#[local] Existing Instance unicode_14.

Lemma ord_utf8 (x : string) (n : N) : ord x = Some n -> utf8 n = x.
Proof.
  unfold ord. cbv zeta.
  match goal with
  | |- (if String.eqb (utf8 ?m) x then _ else _) = _ -> _ =>
      destruct (String.eqb (utf8 m) x) eqn:E; [| discriminate];
      intros [= <-]; now apply String.eqb_eq
  end.
Qed.

(** The code points with a case mapping. *)
Lemma unicode_14_listed :
  forallb (fun e => regular_at (utf8 (N.pred (Npos (fst e)))))
          (FMapPositive.PositiveMap.elements case_table)
  = true.
Proof. vm_compute. reflexivity. Qed.

(** The strings of one byte, the ASCII characters among them. *)
Lemma unicode_14_byte (c : ascii) : regular_at (String c "") = true.
Proof. destruct c as [[] [] [] [] [] [] [] []]; vm_compute; reflexivity. Qed.

(** The code points without case mapping. *)
Lemma unicode_14_unlisted (x : string) :
  Str.ascii_char x = None -> case_of x = None -> regular_at x = true.
Proof.
  intros Ha Hl.
  assert (E : same [x] [x] = true) by now apply same_spec.
  assert (N : same [x] [] = false).
  { unfold same. now destruct (list_eq_dec string_dec [x] []). }
  assert (Hu : Str.upper_char x = [x]).
  { unfold Str.upper_char. rewrite Ha. cbn [ToUpperFull unicode_14].
    rewrite Hl. now destruct (Str.code_point x). }
  assert (Hw : Str.lower_char x = [x]).
  { unfold Str.lower_char. rewrite Ha. cbn [ToLowerFull unicode_14].
    rewrite Hl. now destruct (Str.code_point x). }
  assert (Ht : Str.title_char x = [x]).
  { unfold Str.title_char. rewrite Ha. cbn [ToTitleFull unicode_14].
    rewrite Hl. now destruct (Str.code_point x). }
  unfold regular_at, leaves, is_upper_fixed, text, full.
  rewrite Hw, Ht, Hu. cbn [forallb]. rewrite Hu, E, N.
  now destruct (Str.code_point x), (Str.isspace x).
Qed.

Lemma unicode_14_regular : regular.
Proof.
  apply regular_pointwise; [| vm_compute; reflexivity ..].
  intros x.
  destruct (Str.ascii_char x) as [c|] eqn:Ea.
  - apply ascii_char_some in Ea. destruct Ea as [-> _].
    apply unicode_14_byte.
  - destruct (case_of x) as [c|] eqn:El; [| now apply unicode_14_unlisted].
    unfold case_of in El. destruct (ord x) as [n|] eqn:En; [| discriminate].
    apply ord_utf8 in En.
    apply FMapPositive.PositiveMap.elements_correct in El.
    pose proof unicode_14_listed as H.
    rewrite forallb_forall in H. specialize (H _ El). cbn [fst] in H.
    rewrite N.succ_pos_spec, N.pred_succ, En in H. exact H.
Qed.

(** The cleanup of a Hungarian title in capitals: it loses its ISSN and
    is title-cased, and cleaning it again changes nothing. *)
Lemma clean_journal_title_idempotent_witness :
  clean_journal_title "HÍRADÁSTECHNIKA 0018-2028" = "Híradástechnika"
  /\ clean_journal_title (clean_journal_title "HÍRADÁSTECHNIKA 0018-2028")
     = "Híradástechnika".
Proof.
  split; [vm_compute; reflexivity |].
  rewrite (proj1 clean_journal_title_idempotent unicode_14_regular
             "HÍRADÁSTECHNIKA 0018-2028");
    vm_compute; reflexivity.
Defined.

End Database.

(** C6 as it is written fails: stripping a token joins what stood before
    it and what stood behind it into a new token, which the second
    cleanup strips. *)
Lemma clean_journal_title_not_idempotent :
  (forall U : unicode,
     clean_journal_title "ACTA 2019 2061-2079-2125" = "Acta 2019-2125"
     /\ clean_journal_title (clean_journal_title "ACTA 2019 2061-2079-2125")
        = "Acta")
  /\ (forall U : unicode,
      ~ (forall s : string,
           clean_journal_title (clean_journal_title s)
           = clean_journal_title s)).
Proof.
  split; [intros U; split; vm_compute; reflexivity |].
  intros U H. specialize (H "ACTA 2019 2061-2079-2125").
  vm_compute in H. discriminate H.
Qed.

(** ** Occurrences of a pattern *)

Section Occurrences.

Lemma length_zero_nil (s : string) : length s = 0 -> s = "".
Proof. destruct s; [reflexivity | discriminate]. Qed.

Lemma append_eq_append (a x p y : string) :
  a ++ x = p ++ y ->
  (exists d, p = a ++ d /\ x = d ++ y) \/ (exists d, a = p ++ d /\ y = d ++ x).
Proof.
  revert p; induction a as [|c a IH]; intros p H.
  - left. now exists p.
  - destruct p as [|c' p].
    + right. now exists (String c a).
    + simpl in H. injection H as -> H.
      destruct (IH p H) as [(d & -> & ->)|(d & -> & ->)];
        [left | right]; now exists d.
Qed.

Lemma append_same_length (a b a' b' : string) :
  a ++ b = a' ++ b' -> length a = length a' -> a = a' /\ b = b'.
Proof.
  revert a'; induction a as [|c a IH]; intros [|c' a'] H L;
    try discriminate; simpl in *.
  - now split.
  - injection H as -> H. injection L as L.
    destruct (IH a' H L) as [-> ->]. now split.
Qed.

Lemma drop_append (a b : string) : Str.drop (length a) (a ++ b) = b.
Proof. induction a as [|c a IH]; [now destruct b | exact IH]. Qed.

Lemma take_append (a b : string) : Str.take (length a) (a ++ b) = a.
Proof.
  induction a as [|c a IH]; [now destruct b |].
  simpl. now rewrite IH.
Qed.

(** A prefix of [u ++ v] that is not longer than [u] is a prefix of [u]. *)
Lemma prefix_short (p u v : string) :
  prefix p (u ++ v) = true -> length p <= length u ->
  exists y, u = p ++ y.
Proof.
  intros H L. apply prefix_split in H. destruct H as [r H].
  destruct (append_eq_append u v p r H) as [(d & -> & ->)|(d & -> & ->)].
  - rewrite length_append in L.
    assert (d = "") as -> by (apply length_zero_nil; lia).
    exists "". now rewrite !append_nil_r.
  - now exists d.
Qed.

Lemma only_at_end_nil (pat : string) : only_at_end pat "".
Proof.
  intros a b H. apply (f_equal length) in H.
  simpl in H. rewrite !length_append in H.
  apply length_zero_nil. lia.
Qed.

Lemma only_at_end_tail (pat : string) (c : ascii) (a : string) :
  only_at_end pat (String c a) -> only_at_end pat a.
Proof.
  intros H x y E. apply (H (String c x) y). simpl. now rewrite E.
Qed.

(** With [pat] not empty and [a] not empty and holding [pat] at its end
    only, [pat] is no prefix of [a ++ pat ++ b]. *)
Lemma only_at_end_no_prefix (pat : string) (c : ascii) (a b : string) :
  only_at_end pat (String c a) ->
  prefix pat (String c a ++ pat ++ b) = false.
Proof.
  intros H. destruct (prefix pat (String c a ++ pat ++ b)) eqn:E;
    [| reflexivity].
  exfalso. rewrite <- append_assoc in E.
  apply prefix_short in E; [| rewrite length_append; lia].
  destruct E as [y E].
  assert (Hy : y = "") by (apply (H "" y); exact E).
  subst y. apply (f_equal length) in E.
  rewrite append_nil_r, length_append in E. simpl in E. lia.
Qed.

Lemma find_some (pat s : string) :
  forall i, Marker.find pat s = Some i ->
  exists a b, s = a ++ pat ++ b /\ length a = i /\ only_at_end pat a.
Proof.
  induction s as [|c r IH]; intros i H.
  - cbn [Marker.find] in H. destruct (prefix pat "") eqn:P; [| discriminate].
    injection H as <-. apply prefix_split in P. destruct P as [b P].
    exists "", b. repeat split; [exact P | apply only_at_end_nil].
  - cbn [Marker.find] in H.
    destruct (prefix pat (String c r)) eqn:P.
    + injection H as <-. apply prefix_split in P. destruct P as [b P].
      exists "", b. repeat split; [exact P | apply only_at_end_nil].
    + destruct (Marker.find pat r) as [j|] eqn:F; [| discriminate].
      injection H as <-.
      destruct (IH j eq_refl) as (a & b & -> & <- & Ha).
      exists (String c a), b. repeat split.
      intros x y E. destruct x as [|c' x].
      * exfalso. simpl in E.
        assert (P' : prefix pat (String c (a ++ pat ++ b)) = true).
        { change (String c (a ++ pat ++ b))
            with (String c a ++ pat ++ b).
          rewrite <- append_assoc. change (String c a ++ pat)
            with (String c (a ++ pat)). rewrite E.
          rewrite append_assoc. apply prefix_append. }
        rewrite P' in P. discriminate.
      * simpl in E. injection E as _ E. now apply (Ha x y).
Qed.

Lemma find_prefix (pat s : string) :
  prefix pat s = true -> Marker.find pat s = Some 0.
Proof. intros H. destruct s; cbn [Marker.find]; now rewrite H. Qed.

Lemma find_first (pat a b : string) :
  only_at_end pat a -> Marker.find pat (a ++ pat ++ b) = Some (length a).
Proof.
  induction a as [|c a IH]; intros H.
  - cbn [append length]. apply find_prefix, prefix_append.
  - change (String c a ++ pat ++ b) with (String c (a ++ pat ++ b)).
    cbn [Marker.find].
    change (String c (a ++ pat ++ b)) with (String c a ++ pat ++ b).
    rewrite (only_at_end_no_prefix pat c a b H).
    rewrite IH by (eapply only_at_end_tail; exact H).
    reflexivity.
Qed.

Lemma find_none (pat s : string) :
  Marker.find pat s = None -> ~ occurs pat s.
Proof.
  induction s as [|c r IH]; intros H (a & b & E).
  - symmetry in E. apply append_eq_nil in E.
    destruct E as [-> E]. apply append_eq_nil in E. destruct E as [-> ->].
    simpl in H. discriminate.
  - cbn [Marker.find] in H.
    destruct (prefix pat (String c r)) eqn:P; [discriminate |].
    destruct (Marker.find pat r) eqn:F; [discriminate |].
    destruct a as [|c' a].
    + simpl in E. rewrite E, prefix_append in P. discriminate.
    + simpl in E. injection E as _ E. apply IH; [reflexivity |].
      now exists a, b.
Qed.

End Occurrences.

(** ** The document patcher *)

Section Patcher.

Variable repl : string -> string.

Lemma subn_from_skip (s : string) :
  forall k, Marker.subn_from repl k s
            = Marker.subn_from repl 0 (Str.drop k s).
Proof.
  induction s as [|c r IH]; intros [|k]; try reflexivity.
  cbn [Marker.subn_from Str.drop]. apply IH.
Qed.

Lemma subn_cons_none (c : ascii) (r : string) :
  Marker.match_at (String c r) = None ->
  Marker.subn repl (String c r)
  = (String c (fst (Marker.subn repl r)), snd (Marker.subn repl r)).
Proof.
  intros H. unfold Marker.subn. cbn [Marker.subn_from]. rewrite H.
  now destruct (Marker.subn_from repl 0 r).
Qed.

(** A match [m] at the head of [s] is replaced, and the search goes on
    behind it. *)
Lemma subn_match (s m post : string) :
  s = m ++ post -> Marker.match_at s = Some (length m) -> 0 < length m ->
  Marker.subn repl s
  = (repl m ++ fst (Marker.subn repl post), S (snd (Marker.subn repl post))).
Proof.
  intros E M L. destruct s as [|c r].
  - symmetry in E. apply append_eq_nil in E. destruct E as [-> _].
    simpl in L. lia.
  - unfold Marker.subn. cbn [Marker.subn_from]. rewrite M.
    destruct (length m) as [|n] eqn:Lm; [lia |].
    rewrite subn_from_skip.
    replace (Str.drop n r) with post.
    2:{ change (Str.drop n r) with (Str.drop (S n) (String c r)).
        now rewrite E, <- Lm, drop_append. }
    replace (Str.take (S n) (String c r)) with m
      by (now rewrite E, <- Lm, take_append).
    now destruct (Marker.subn_from repl 0 post).
Qed.

Lemma match_at_some (s : string) (n : nat) :
  Marker.match_at s = Some n ->
  exists mid post,
    s = MARKER_START ++ mid ++ MARKER_END ++ post
    /\ only_at_end MARKER_END mid
    /\ n = length (MARKER_START ++ mid ++ MARKER_END).
Proof.
  unfold Marker.match_at.
  destruct (prefix MARKER_START s) eqn:P; [| discriminate].
  apply prefix_split in P. destruct P as [r ->].
  rewrite drop_append.
  destruct (Marker.find MARKER_END r) as [i|] eqn:F; [| discriminate].
  intros H. injection H as <-.
  apply find_some in F. destruct F as (mid & post & -> & <- & Hm).
  exists mid, post. repeat split; [exact Hm |].
  rewrite !length_append.
  change (length MARKER_START) with 27. change (length MARKER_END) with 25.
  simpl. lia.
Qed.

Lemma match_at_span (mid post : string) :
  only_at_end MARKER_END mid ->
  Marker.match_at (MARKER_START ++ mid ++ MARKER_END ++ post)
  = Some (length (MARKER_START ++ mid ++ MARKER_END)).
Proof.
  intros H. unfold Marker.match_at.
  rewrite prefix_append, drop_append, (find_first _ _ _ H).
  rewrite !length_append. f_equal; lia.
Qed.

Lemma match_at_not_prefix (s : string) :
  prefix MARKER_START s = false -> Marker.match_at s = None.
Proof. intros H. unfold Marker.match_at. now rewrite H. Qed.

(** Without a match at any place the text is returned as it is. *)
Lemma subn_no_match (s : string) :
  (forall a b, s = a ++ b -> Marker.match_at b = None) ->
  Marker.subn repl s = (s, 0).
Proof.
  induction s as [|c r IH]; intros H; [reflexivity |].
  rewrite subn_cons_none by (apply (H ""); reflexivity).
  rewrite IH; [reflexivity |].
  intros a b ->. now apply (H (String c a)).
Qed.

Lemma no_pair_no_match (doc : string) :
  ~ has_marker_pair doc ->
  forall a b, doc = a ++ b -> Marker.match_at b = None.
Proof.
  intros Hn a b ->.
  destruct (Marker.match_at b) as [n|] eqn:M; [| reflexivity].
  exfalso. apply Hn. apply match_at_some in M.
  destruct M as (mid & post & -> & _). now exists a, mid, post.
Qed.

Lemma subn_no_pair (doc : string) :
  ~ has_marker_pair doc -> Marker.subn repl doc = (doc, 0).
Proof. intros H. apply subn_no_match, no_pair_no_match, H. Qed.

(** The first span is replaced, and the search goes on behind it. *)
Lemma subn_span (pre mid post : string) :
  only_at_end MARKER_START pre -> only_at_end MARKER_END mid ->
  Marker.subn repl (pre ++ MARKER_START ++ mid ++ MARKER_END ++ post)
  = (pre ++ repl (MARKER_START ++ mid ++ MARKER_END)
       ++ fst (Marker.subn repl post),
     S (snd (Marker.subn repl post))).
Proof.
  intros Hp Hm. induction pre as [|c pre IH].
  - cbn [append].
    apply subn_match.
    + now rewrite !append_assoc.
    + now apply match_at_span.
    + rewrite length_append. change (length MARKER_START) with 27. lia.
  - change (String c pre ++ MARKER_START ++ mid ++ MARKER_END ++ post)
      with (String c (pre ++ MARKER_START ++ mid ++ MARKER_END ++ post)).
    rewrite subn_cons_none.
    + rewrite IH by (eapply only_at_end_tail; exact Hp). reflexivity.
    + apply match_at_not_prefix.
      exact (only_at_end_no_prefix MARKER_START c pre _ Hp).
Qed.

Lemma no_start_no_pair (doc : string) :
  Marker.find MARKER_START doc = None -> ~ has_marker_pair doc.
Proof.
  intros F (pre & mid & post & E).
  apply (find_none _ _ F). now exists pre, (mid ++ MARKER_END ++ post).
Qed.

(** A document holds no marker pair, or it has a first span. *)
Lemma first_span_dec (doc : string) :
  ~ has_marker_pair doc
  \/ exists pre mid post,
       doc = pre ++ MARKER_START ++ mid ++ MARKER_END ++ post
       /\ only_at_end MARKER_START pre /\ only_at_end MARKER_END mid.
Proof.
  destruct (Marker.find MARKER_START doc) as [i|] eqn:F.
  2:{ left. now apply no_start_no_pair. }
  apply find_some in F. destruct F as (a & b & -> & _ & Ha).
  destruct (Marker.find MARKER_END b) as [j|] eqn:G.
  { apply find_some in G. destruct G as (m & q & -> & _ & Hm).
    right. now exists a, m, q. }
  left. intros (p & m & q & E).
  apply (find_none _ _ G).
  destruct (append_eq_append _ _ _ _ E) as [(d & -> & E')|(d & -> & E')].
  - (* the pair starts at or behind the first start marker *)
    assert (E2 : MARKER_START ++ b
                 = (d ++ MARKER_START ++ m) ++ MARKER_END ++ q)
      by (rewrite E'; now rewrite !append_assoc).
    destruct (append_eq_append _ _ _ _ E2) as [(e & _ & ->)|(e & E1 & E3)].
    + now exists e, q.
    + apply (f_equal length) in E1. rewrite !length_append in E1.
      assert (e = "") as -> by (apply length_zero_nil; lia).
      exists "", q. now rewrite E3.
  - (* the pair would start before the first start marker *)
    exfalso.
    assert (P : prefix MARKER_START (d ++ MARKER_START ++ b) = true)
      by (rewrite <- E'; apply prefix_append).
    rewrite <- append_assoc in P.
    apply prefix_short in P; [| rewrite length_append; lia].
    destruct P as [y P].
    assert (Hy : y = "").
    { apply (Ha p y). now rewrite append_assoc, P. }
    subst y. rewrite append_nil_r in P.
    apply (f_equal length) in P. rewrite length_append in P.
    assert (d = "") as -> by (apply length_zero_nil; lia).
    rewrite append_nil_r in E.
    apply append_inv_head in E.
    apply (find_none _ _ G).
    apply append_inv_head in E. subst b. now exists m, q.
Qed.

End Patcher.

Section Replaced.

Variable repl : string -> string.

(** [re.subn] replaces each span of the document once. *)
Lemma subn_replaced (doc : string) :
  replaced repl doc (fst (Marker.subn repl doc)) (snd (Marker.subn repl doc)).
Proof.
  remember (length doc) as n eqn:L.
  assert (Hn : length doc <= n) by lia. clear L.
  revert doc Hn. induction n as [|n IH]; intros doc Hn;
    destruct (first_span_dec doc)
      as [Hnone|(pre & mid & post & -> & Hp & Hm)].
  - rewrite (subn_no_pair repl doc Hnone). now constructor.
  - rewrite !length_append in Hn.
    change (length MARKER_START) with 27 in Hn. lia.
  - rewrite (subn_no_pair repl doc Hnone). now constructor.
  - rewrite (subn_span repl pre mid post Hp Hm). cbn [fst snd].
    constructor; [exact Hp | exact Hm |].
    apply IH. rewrite !length_append in Hn.
    change (length MARKER_START) with 27 in Hn. lia.
Qed.

Lemma replaced_inv (doc out : string) (n : nat) :
  replaced repl doc out n ->
  (~ has_marker_pair doc /\ out = doc /\ n = 0)
  \/ (exists pre mid post o k,
         doc = pre ++ MARKER_START ++ mid ++ MARKER_END ++ post
         /\ out = pre ++ repl (MARKER_START ++ mid ++ MARKER_END) ++ o
         /\ n = S k
         /\ only_at_end MARKER_START pre /\ only_at_end MARKER_END mid
         /\ replaced repl post o k).
Proof.
  destruct 1 as [doc Hnone|pre mid post o k Hp Hm H]; [now left |].
  right. exists pre, mid, post, o, k. now repeat split.
Qed.

(** The spans of a document are determined: [replaced] relates it to one
    text and one count. *)
Lemma replaced_functional (doc out out' : string) (n n' : nat) :
  replaced repl doc out n -> replaced repl doc out' n' ->
  out = out' /\ n = n'.
Proof.
  intros H. revert out' n'.
  induction H as [doc Hnone|pre mid post out n Hp Hm H IH];
    intros out' n' H'; apply replaced_inv in H'.
  - destruct H' as [(_ & -> & ->)|(pre' & mid' & post' & o' & k & E & _)];
      [now split |].
    exfalso. apply Hnone. now exists pre', mid', post'.
  - destruct H'
      as [(Hnone' & _)
         |(pre' & mid' & post' & o' & k & E1 & -> & -> & Hp' & Hm' & Hr)].
    + exfalso. apply Hnone'. now exists pre, mid, post.
    + assert (Lp : length pre = length pre').
      { pose proof (find_first MARKER_START pre'
                      (mid' ++ MARKER_END ++ post') Hp') as F'.
        pose proof (find_first MARKER_START pre
                      (mid ++ MARKER_END ++ post) Hp) as F.
        rewrite E1, F' in F. now injection F. }
      destruct (append_same_length _ _ _ _ E1 Lp) as [<- E4].
      apply append_inv_head in E4.
      assert (Lm : length mid = length mid').
      { pose proof (find_first MARKER_END mid' post' Hm') as F'.
        pose proof (find_first MARKER_END mid post Hm) as F.
        rewrite E4, F' in F. now injection F. }
      destruct (append_same_length _ _ _ _ E4 Lm) as [<- E5].
      apply append_inv_head in E5. subst post'.
      destruct (IH o' k Hr) as [-> ->]. now split.
Qed.

End Replaced.

Section TemplateFacts.

Lemma has_char_append (c : ascii) (a b : string) :
  has_char c (a ++ b) = has_char c a || has_char c b.
Proof.
  induction a as [|x a IH]; simpl; [reflexivity |].
  now rewrite IH, orb_assoc.
Qed.

(** A replacement string without backslash is its own template. *)
Lemma parse_literal (s : string) :
  has_char "\" s = false -> Template.parse s = Some (literal s).
Proof.
  unfold Template.parse. induction s as [|c r IH]; [reflexivity |].
  cbn [has_char]. intros H. apply orb_false_iff in H. destruct H as [Hc Hr].
  cbn [Template.parse_from literal]. rewrite Hc. cbn [negb].
  now rewrite (IH Hr).
Qed.

Lemma replacement_no_backslash (publications_html : string) :
  has_char "\" publications_html = false ->
  has_char "\" (replacement_of publications_html) = false.
Proof.
  intros H. unfold replacement_of.
  rewrite !has_char_append, H. reflexivity.
Qed.

End TemplateFacts.

Section UpdateIndex.

Context `{U : unicode}.

(** C2, as the script has it: one call of [update_index] replaces every
    marker span of the document, from left to right and without overlap,
    each once; the number of replacements is the number of spans, and the
    file is written when there is at least one. *)
Theorem update_index_replaces_every_span
    (publications_html doc : string) (template : list Template.piece) :
  Template.parse (replacement_of publications_html) = Some template ->
  exists out n,
    replaced (Template.expand template) doc out n
    /\ (forall out' n',
           replaced (Template.expand template) doc out' n' ->
           out' = out /\ n' = n)
    /\ match n with
       | 0 =>
           result (update_index publications_html doc) = Returns false
           /\ file (update_index publications_html doc) = doc
           /\ writes (update_index publications_html doc) = []
       | S _ =>
           result (update_index publications_html doc) = Returns true
           /\ file (update_index publications_html doc) = out
           /\ writes (update_index publications_html doc) = [out]
           /\ printed (update_index publications_html doc)
              = [ "Updated index.html (" ++ of_nat n
                  ++ " replacement(s) made)." ]
       end.
Proof.
  intros Ht.
  pose proof (subn_replaced (Template.expand template) doc) as Hr.
  exists (fst (Marker.subn (Template.expand template) doc)),
         (snd (Marker.subn (Template.expand template) doc)).
  split; [exact Hr |]. split.
  - intros out' n' H'.
    exact (replaced_functional _ _ _ _ _ _ H' Hr).
  - unfold update_index. cbv zeta.
    change (MARKER_START ++ newline ++ publications_html ++ newline
            ++ "        " ++ MARKER_END)
      with (replacement_of publications_html).
    rewrite Ht.
    destruct (Marker.subn (Template.expand template) doc) as [out [|n]];
      cbn [fst snd Nat.eqb result file writes printed]; repeat split.
Qed.

Lemma update_index_replaces_every_span_witness :
  exists out n,
    replaced (Template.expand (literal (replacement_of "<p>new</p>")))
      doc_two_pairs out n
    /\ (forall out' n',
           replaced (Template.expand (literal (replacement_of "<p>new</p>")))
             doc_two_pairs out' n' ->
           out' = out /\ n' = n)
    /\ match n with
       | 0 =>
           result (update_index "<p>new</p>" doc_two_pairs) = Returns false
           /\ file (update_index "<p>new</p>" doc_two_pairs) = doc_two_pairs
           /\ writes (update_index "<p>new</p>" doc_two_pairs) = []
       | S _ =>
           result (update_index "<p>new</p>" doc_two_pairs) = Returns true
           /\ file (update_index "<p>new</p>" doc_two_pairs) = out
           /\ writes (update_index "<p>new</p>" doc_two_pairs) = [out]
           /\ printed (update_index "<p>new</p>" doc_two_pairs)
              = [ "Updated index.html (" ++ of_nat n
                  ++ " replacement(s) made)." ]
       end.
Proof.
  apply (update_index_replaces_every_span "<p>new</p>" doc_two_pairs).
  reflexivity.
Defined.

(** C2 as it is written fails: with two marker pairs in the document one
    call replaces both spans. *)
Lemma update_index_replaces_two_spans :
  file (update_index "<p>new</p>" doc_two_pairs)
  = "<ul>" ++ replacement_of "<p>new</p>" ++ "</ul><ol>"
    ++ replacement_of "<p>new</p>" ++ "</ol>"
  /\ printed (update_index "<p>new</p>" doc_two_pairs)
     = [ "Updated index.html (2 replacement(s) made)." ]
  /\ ~ (forall (publications_html doc : string)
               (template : list Template.piece),
          Template.parse (replacement_of publications_html) = Some template ->
          snd (Marker.subn (Template.expand template) doc) <= 1).
Proof.
  split; [reflexivity |]. split; [reflexivity |].
  intros H.
  specialize (H "<p>new</p>" doc_two_pairs
                (literal (replacement_of "<p>new</p>")) eq_refl).
  vm_compute in H. lia.
Qed.


End UpdateIndex.

Section UpdateIndexExamples.

#[local] Existing Instance unicode_14.


End UpdateIndexExamples.

(** * Further properties of the script *)

(** ** Type classification and publisher *)

Section Classification.

Context `{U : unicode}.

(** The record is classified as a journal article exactly when it is
    marked as one, or its main type names a book and nothing marks a
    conference; every other record is a conference paper.  So the test for
    a conference inside the book branch of [get_pub_type] never decides. *)
Theorem get_pub_type_journal_iff (pub : Publication) :
  (get_pub_type pub = "journal" <->
   journal_marked pub = true
   \/ (conference_marked pub = false
       /\ Str.contains "book" (main_label pub) = true))
  /\ (get_pub_type pub = "journal" \/ get_pub_type pub = "conference").
Proof.
  unfold get_pub_type, journal_marked, conference_marked, has_journal,
    main_label, sub_label.
  cbv zeta.
  replace (match journal pub with
           | Some j => journal_true j
           | None => false
           end)
    with (journal_true (Str.get (journal pub) no_journal))
    by (now destruct (journal pub)).
  destruct (Str.contains "journal" _ || journal_true _).
  { split; [| now left]. split; [now left | reflexivity]. }
  destruct (Str.contains "conference" _) eqn:Ec; cbn [orb].
  { split; [| now right]. split; [discriminate |].
    intros [H|[H _]]; discriminate. }
  destruct (Str.get (conferencePublication pub) false).
  { split; [| now right]. split; [discriminate |].
    intros [H|[H _]]; discriminate. }
  destruct (Str.contains "book" _).
  - split; [| now left]. split; [now right | reflexivity].
  - split; [| now right]. split; [discriminate |].
    intros [H|[_ H]]; discriminate.
Qed.

Lemma publisher_of_identifiers_range (idents : list Identifier) (p : string) :
  publisher_of_identifiers idents = Some p -> p = "IEEE" \/ p = "Springer".
Proof.
  induction idents as [|ident rest IH]; [discriminate |].
  cbn [publisher_of_identifiers]. cbv zeta.
  destruct (Str.contains "ieeexplore" _); [intros [= <-]; now left |].
  destruct (Str.contains "springer" _); [intros [= <-]; now right |].
  exact IH.
Qed.

(** The publisher label is "IEEE", "Springer" or empty, whatever the
    record holds. *)
Theorem get_publisher_range (pub : Publication) :
  get_publisher pub = "IEEE" \/ get_publisher pub = "Springer"
  \/ get_publisher pub = "".
Proof.
  unfold get_publisher.
  destruct (publisher_of_book pub) as [p|] eqn:Eb.
  - left. unfold publisher_of_book in Eb. cbv zeta in Eb.
    destruct (book_true _); [| discriminate].
    destruct (Str.get (publishedAt _) []); [discriminate |].
    destruct (Str.contains "Piscataway" _); [| discriminate].
    now injection Eb as <-.
  - destruct (publisher_of_identifiers _) as [p|] eqn:Ei.
    + destruct (publisher_of_identifiers_range _ _ Ei) as [->| ->];
        [now left | right; now left].
    + unfold publisher_of_doi.
      destruct (_ || _); [now left |].
      destruct (Str.contains "10.1007" _); [right; now left |].
      destruct (Str.contains "10.36244" _); right; now right.
Qed.

(** The checks of publisher inference in their order, the first that
    holds deciding: the city of the book; then the identifiers in turn,
    each for "ieeexplore" and then for "springer" in its URL; then the DOI
    URL, for 10.1109 or 10.23919, then for 10.1007, each looked for
    anywhere in it; otherwise the label is empty. *)
Theorem get_publisher_rules (pub : Publication) :
  (city_is_piscataway pub -> get_publisher pub = "IEEE")
  /\ (~ city_is_piscataway pub ->
      forall before ident after,
        Str.get (identifiers pub) [] = (before ++ ident :: after)%list ->
        Forall (fun i => ~ names_publisher i) before ->
        (occurs "ieeexplore" (url_of ident) -> get_publisher pub = "IEEE")
        /\ (~ occurs "ieeexplore" (url_of ident) ->
            occurs "springer" (url_of ident) ->
            get_publisher pub = "Springer"))
  /\ (~ city_is_piscataway pub ->
      Forall (fun i => ~ names_publisher i) (Str.get (identifiers pub) []) ->
      (occurs "10.1109" (extract_doi pub)
       \/ occurs "10.23919" (extract_doi pub) ->
       get_publisher pub = "IEEE")
      /\ (~ occurs "10.1109" (extract_doi pub) ->
          ~ occurs "10.23919" (extract_doi pub) ->
          (occurs "10.1007" (extract_doi pub) ->
           get_publisher pub = "Springer")
          /\ (~ occurs "10.1007" (extract_doi pub) ->
              get_publisher pub = ""))).
Proof.
  destruct (publisher_of_book_city pub) as [Hc Hn].
  unfold get_publisher. split; [| split].
  - intros H. now rewrite (Hc H).
  - intros H before ident after E Hb. rewrite (Hn H), E.
    rewrite (publisher_of_identifiers_skip before _ Hb).
    cbn [publisher_of_identifiers]. cbv zeta. fold (url_of ident).
    split.
    + intros Hi. apply contains_occurs in Hi. now rewrite Hi.
    + intros Hi Hs. apply contains_occurs in Hs.
      now rewrite (contains_not_occurs _ _ Hi), Hs.
  - intros H Hb. rewrite (Hn H).
    rewrite <- (app_nil_r (Str.get (identifiers pub) [])).
    rewrite (publisher_of_identifiers_skip _ [] Hb).
    cbn [publisher_of_identifiers]. unfold publisher_of_doi.
    split.
    + intros [Hd|Hd]; apply contains_occurs in Hd; rewrite Hd;
        [reflexivity | now rewrite orb_true_r].
    + intros H1 H2.
      rewrite (contains_not_occurs _ _ H1), (contains_not_occurs _ _ H2).
      cbn [orb]. split.
      * intros H3. apply contains_occurs in H3. now rewrite H3.
      * intros H3. rewrite (contains_not_occurs _ _ H3).
        now destruct (Str.contains "10.36244" (extract_doi pub)).
Qed.

End Classification.

Lemma get_publisher_rules_witness :
  get_publisher pub_two_dois = "IEEE"
  /\ get_publisher (pub_of_doi "https://doi.org/10.1007/s00145-001-0001-1")
     = "Springer".
Proof.
  assert (Hb : forall pub, book pub = None -> ~ city_is_piscataway pub).
  { intros pub E (b & first & rest & H & _). congruence. }
  assert (Hn : forall pat s, Str.contains pat s = false -> ~ occurs pat s).
  { intros pat s E H. apply contains_occurs in H. congruence. }
  split.
  - apply (proj1 (proj2 (get_publisher_rules pub_two_dois))
             (Hb pub_two_dois eq_refl) []
             (url_identifier "https://ieeexplore.ieee.org/document/771073")
             [ doi_identifier "https://doi.org/10.1109/5.771073";
               doi_identifier "https://doi.org/10.1007/s00145-001-0001-1" ]);
      [reflexivity | constructor |].
    now exists "https://", ".ieee.org/document/771073".
  - apply (proj2 (proj2 (get_publisher_rules
                           (pub_of_doi
                              "https://doi.org/10.1007/s00145-001-0001-1")))
             (Hb (pub_of_doi "https://doi.org/10.1007/s00145-001-0001-1")
                 eq_refl)).
    + repeat constructor. intros [H|H]; revert H; now apply Hn.
    + now apply Hn.
    + now apply Hn.
    + now exists "https://doi.org/", "/s00145-001-0001-1".
Defined.

(** ** Authors *)

Section Stability.

Lemma insert_by_filter {A : Type} (key : A -> Z) (k : Z) (x : A)
    (l : list A) :
  filter (fun a => (key a =? k)%Z) (insert_by key x l)
  = filter (fun a => (key a =? k)%Z) (x :: l).
Proof.
  induction l as [|y l IH]; [reflexivity |].
  cbn [insert_by]. destruct (key x <=? key y)%Z eqn:E; [reflexivity |].
  apply Z.leb_gt in E.
  cbn [filter] in *. rewrite IH.
  destruct (key x =? k)%Z eqn:Ex; [| reflexivity].
  apply Z.eqb_eq in Ex.
  assert (Ey : (key y =? k)%Z = false) by (apply Z.eqb_neq; lia).
  now rewrite Ey.
Qed.

Lemma sorted_filter {A : Type} (key : A -> Z) (k : Z) (l : list A) :
  filter (fun a => (key a =? k)%Z) (sorted key l)
  = filter (fun a => (key a =? k)%Z) l.
Proof.
  induction l as [|x l IH]; [reflexivity |].
  cbn [sorted fold_right]. fold (sorted key l).
  rewrite insert_by_filter. cbn [filter]. now rewrite IH.
Qed.

(** Counted authorships with the same sort key (the same list position,
    or none and 999) are listed in the order of the record. *)
Theorem sorted_authorships_stable (pub : Publication) (k : Z) :
  filter (fun a => (position_key a =? k)%Z) (sorted_authorships pub)
  = filter (fun a => (position_key a =? k)%Z)
      (filter (fun a => Str.get (authorTyped a) false)
              (Str.get (authorships pub) [])).
Proof. apply sorted_filter. Qed.

End Stability.

(** ** Cleanup of journal titles *)

Section CleanupMore.

Context `{U : unicode}.

(** A cleaned title has no white space at its ends, also after the
    title-casing, when the database is regular. *)
Theorem clean_journal_title_stripped (s : string) :
  regular -> Str.strip (clean_journal_title s) = clean_journal_title s.
Proof.
  intros R.
  destruct (clean_journal_title_shape s R) as (r & -> & Sr & Cr & Rr & _).
  unfold Str.strip.
  now rewrite (chars_concat r Sr), (strip_fixed r Cr Rr).
Qed.

Lemma token_has_digit (l : list string) :
  Issn.token l = true -> existsb Str.isdecimal l = true.
Proof.
  destruct l as [|x l]; [discriminate |].
  unfold Issn.token.
  destruct l as [|? [|? [|? [|? [|? [|? [|? [|? ?]]]]]]]]; try discriminate.
  cbn [existsb]. destruct (Str.isdecimal x); [reflexivity | discriminate].
Qed.

Lemma skipn_has_digit (n : nat) (l : list string) :
  existsb Str.isdecimal (skipn n l) = true ->
  existsb Str.isdecimal l = true.
Proof.
  revert l; induction n as [|n IH]; intros [|x l] H; try exact H.
  cbn [skipn] in H. cbn [existsb]. rewrite (IH l H).
  apply orb_true_r.
Qed.

Lemma backtrack_has_digit (k : nat) (l : list string) (n : nat) :
  Issn.backtrack k l = Some n -> existsb Str.isdecimal l = true.
Proof.
  induction k as [|k IH]; [discriminate |].
  cbn [Issn.backtrack].
  destruct (Issn.token (skipn (S k) l)) eqn:T; [| exact IH].
  intros _. eapply skipn_has_digit, token_has_digit, T.
Qed.

Lemma match_at_has_digit (l : list string) (n : nat) :
  Issn.match_at l = Some n -> existsb Str.isdecimal l = true.
Proof.
  unfold Issn.match_at, Issn.group.
  destruct (Issn.backtrack (Issn.spaces l) l) as [k|] eqn:E;
    [| discriminate].
  intros _. now apply backtrack_has_digit in E.
Qed.

Lemma sub_from_without_digit (l : list string) :
  existsb Str.isdecimal l = false -> Issn.sub_from 0 l = l.
Proof.
  induction l as [|x r IH]; [reflexivity |].
  intros H. cbn [Issn.sub_from].
  destruct (Issn.match_at (x :: r)) as [n|] eqn:M.
  - apply match_at_has_digit in M. congruence.
  - cbn [existsb] in H. apply orb_false_iff in H.
    now rewrite IH.
Qed.

(** A title without digit holds no ISSN: nothing is taken out of it, and
    the cleanup gives the stripped title, or the stripped title in title
    case. *)
Theorem clean_journal_title_without_digit (s : string) :
  has_digit s = false ->
  Issn.sub s = s
  /\ (clean_journal_title s = Str.strip s
      \/ clean_journal_title s = Str.title (Str.strip s)).
Proof.
  intros H.
  assert (E : Issn.sub s = s).
  { unfold Issn.sub. rewrite (sub_from_without_digit _ H).
    apply concat_chars. }
  split; [exact E |].
  unfold clean_journal_title. cbv zeta. rewrite E.
  destruct (_ && _); [now right | now left].
Qed.

End CleanupMore.

Section CleanupExamples.

#[local] Existing Instance unicode_14.

Lemma clean_journal_title_stripped_witness :
  clean_journal_title ("ÉPÍTÉSZET" ++ utf8 0xA0) = "Építészet"
  /\ Str.strip (clean_journal_title ("ÉPÍTÉSZET" ++ utf8 0xA0))
     = "Építészet".
Proof.
  split; [vm_compute; reflexivity |].
  rewrite (clean_journal_title_stripped _ unicode_14_regular).
  vm_compute; reflexivity.
Defined.

Lemma clean_journal_title_without_digit_witness :
  clean_journal_title "  SENSORS AND ACTUATORS "
  = Str.title (Str.strip "  SENSORS AND ACTUATORS ")
  /\ clean_journal_title "  SENSORS AND ACTUATORS " = "Sensors And Actuators".
Proof.
  destruct (clean_journal_title_without_digit "  SENSORS AND ACTUATORS ")
    as [_ [H|H]]; [reflexivity | vm_compute in H; discriminate H |].
  split; [exact H | vm_compute; reflexivity].
Defined.

(** White space and digits beyond ASCII: an ISSN in Arabic-Indic digits
    behind a no-break space is stripped, and accented capitals are
    title-cased. *)
Example clean_journal_title_beyond_ascii :
  clean_journal_title
    ("Journal" ++ utf8 0xA0
     ++ Str.concat (List.map utf8 [0x661; 0x662; 0x663; 0x664]%N) ++ "-"
     ++ Str.concat (List.map utf8 [0x665; 0x666; 0x667; 0x668]%N))
  = "Journal"
  /\ clean_journal_title "ABCDÉÉ" = "Abcdéé"
  /\ clean_journal_title "ÉPÍTÉS - ÉPÍTÉSZETTUDOMÁNY 0013-9661 1588-2764"
     = "Építés - Építészettudomány".
Proof. repeat split; vm_compute; reflexivity. Qed.

(** The lower case of the Kelvin sign is the letter k: a main type
    written with it names a book. *)
Example get_pub_type_kelvin_sign :
  get_pub_type
    {| identifiers := None; authorships := None; book := None;
       journal := None; volume := None; issue := None; firstPage := None;
       lastPage := None; subType := None;
       type_ := Some {| type_label := Some ("BOO" ++ utf8 0x212A) |};
       conferencePublication := None; publishedYear := None; title := None;
       citingPubCount := None |}
  = "journal".
Proof. vm_compute. reflexivity. Qed.

End CleanupExamples.

(** ** Grouping by year *)

Section Grouping.

Context `{U : unicode}.





Lemma group_step_yearless (pubs : list Publication) :
  forall m : list (Z * list Publication),
  fold_left group_step
    (filter (fun p => negb (year_of p =? 0)%Z) pubs) m
  = fold_left group_step pubs m.
Proof.
  induction pubs as [|p pubs IH]; intros m; [reflexivity |].
  cbn [filter fold_left].
  destruct (year_of p =? 0)%Z eqn:E; cbn [negb fold_left].
  - rewrite IH. unfold group_step at 3. cbv zeta. fold (year_of p).
    now rewrite E.
  - apply IH.
Qed.




Lemma build_html_yearless (publications : list Publication) :
  build_html publications
  = build_html (filter (fun p => negb (year_of p =? 0)%Z) publications)
  /\ (forallb (fun p => (year_of p =? 0)%Z) publications = true ->
      build_html publications = "").
Proof.
  assert (E : group_by_year
                (filter (fun p => negb (year_of p =? 0)%Z) publications)
              = group_by_year publications)
    by apply group_step_yearless.
  split.
  - unfold build_html, html_parts. now rewrite E.
  - intros H. unfold build_html, html_parts. cbv zeta.
    rewrite <- E. clear E.
    replace (filter (fun p => negb (year_of p =? 0)%Z) publications)
      with (@nil Publication); [reflexivity |].
    induction publications as [|p ps IH]; [reflexivity |].
    cbn [forallb] in H. apply andb_true_iff in H. destruct H as [H1 H2].
    cbn [filter]. rewrite H1. cbn [negb]. now apply IH.
Qed.

(** The records without year, or with the year 0, leave no trace in the
    fragment; from records that all lack a year the fragment is empty. *)
Theorem build_html_ignores_yearless (publications : list Publication) :
  build_html publications
  = build_html (filter (fun p => negb (year_of p =? 0)%Z) publications)
  /\ (forallb (fun p => (year_of p =? 0)%Z) publications = true ->
      build_html publications = "").
Proof. exact (build_html_yearless publications). Qed.

End Grouping.

Section GroupingExamples.

#[local] Existing Instance unicode_14.

Lemma build_html_ignores_yearless_witness :
  build_html [pub_of_year 0 "a"; empty_pub] = "".
Proof.
  apply (proj2 (build_html_ignores_yearless [pub_of_year 0 "a"; empty_pub])).
  reflexivity.
Defined.

End GroupingExamples.

(** ** Escaping in the rendered lines *)

Section RenderedText.

Context `{U : unicode}.


End RenderedText.

(** ** More on the document patcher *)

Section PatcherMore.

Lemma expand_literal (s m : string) : Template.expand (literal s) m = s.
Proof. induction s as [|c r IH]; [reflexivity |]. cbn. now rewrite IH. Qed.

(** A check that decides [only_at_end] on a given text. *)
Lemma only_at_end_check (pat s : string) :
  Marker.find pat (s ++ pat) = Some (length s) -> only_at_end pat s.
Proof.
  intros F. apply find_some in F.
  destruct F as (a & b & E & L & Ha).
  destruct (append_same_length _ _ _ _ E (eq_sym L)) as [-> _].
  exact Ha.
Qed.

Lemma subn_ext (f g : string -> string) (s : string) :
  (forall m, f m = g m) ->
  forall k, Marker.subn_from f k s = Marker.subn_from g k s.
Proof.
  intros H. induction s as [|c r IH]; intros k; [reflexivity |].
  cbn [Marker.subn_from]. destruct k as [|k]; [| apply IH].
  destruct (Marker.match_at (String c r)) as [[|n]|];
    rewrite ?IH, ?H; reflexivity.
Qed.

(** The number of replacements is zero exactly without a marker pair. *)
Lemma subn_count_zero (repl : string -> string) (doc : string) :
  snd (Marker.subn repl doc) = 0 <-> ~ has_marker_pair doc.
Proof.
  split.
  - intros H Hp.
    destruct (first_span_dec doc)
      as [Hn|(pre & mid & post & -> & Hs & He)]; [now apply Hn |].
    rewrite (subn_span repl pre mid post Hs He) in H. discriminate.
  - intros Hn. now rewrite (subn_no_pair repl doc Hn).
Qed.

(** What [update_index] does with a fragment without backslash. *)
Lemma update_index_literal (publications_html doc : string) :
  has_char "\" publications_html = false ->
  update_index publications_html doc
  = let (new_content, count) :=
      Marker.subn (fun _ => replacement_of publications_html) doc in
    if (count =? 0)%nat then
      {| result := Returns false; file := doc; writes := [];
         printed :=
           [ "ERROR: Could not find publication markers in index.html!";
             "Looking for: " ++ MARKER_START ++ " ... " ++ MARKER_END ] |}
    else
      {| result := Returns true; file := new_content;
         writes := [new_content];
         printed :=
           [ "Updated index.html (" ++ of_nat count
             ++ " replacement(s) made)." ] |}.
Proof.
  intros Hb. unfold update_index. cbv zeta.
  change (MARKER_START ++ newline ++ publications_html ++ newline
          ++ "        " ++ MARKER_END)
    with (replacement_of publications_html).
  rewrite (parse_literal _ (replacement_no_backslash _ Hb)).
  unfold Marker.subn.
  rewrite (subn_ext _ (fun _ => replacement_of publications_html));
    [reflexivity |].
  intros m. apply expand_literal.
Qed.

Lemma update_index_one_span
    (publications_html pre mid post : string) :
  has_char "\" publications_html = false ->
  only_at_end MARKER_START pre ->
  only_at_end MARKER_END mid ->
  ~ has_marker_pair post ->
  let r := update_index publications_html
             (pre ++ MARKER_START ++ mid ++ MARKER_END ++ post) in
  result r = Returns true
  /\ file r
     = pre ++ (MARKER_START ++ newline ++ publications_html ++ newline
               ++ "        " ++ MARKER_END) ++ post
  /\ writes r = [file r]
  /\ printed r = [ "Updated index.html (1 replacement(s) made)." ].
Proof.
  intros Hb Hs He Hp. cbv zeta.
  rewrite (update_index_literal _ _ Hb).
  rewrite (subn_span _ pre mid post Hs He), (subn_no_pair _ post Hp).
  cbn [fst snd Nat.eqb result file writes printed].
  repeat split.
Qed.

(** With one marker pair in the document and no backslash in the
    fragment, the text around the span is kept, the span becomes the two
    markers around the fragment, and the file is written once. *)
Theorem update_index_single_span
    (publications_html pre mid post : string) :
  has_char "\" publications_html = false ->
  only_at_end MARKER_START pre ->
  only_at_end MARKER_END mid ->
  ~ has_marker_pair post ->
  let r := update_index publications_html
             (pre ++ MARKER_START ++ mid ++ MARKER_END ++ post) in
  result r = Returns true
  /\ file r
     = pre ++ (MARKER_START ++ newline ++ publications_html ++ newline
               ++ "        " ++ MARKER_END) ++ post
  /\ writes r = [file r]
  /\ printed r = [ "Updated index.html (1 replacement(s) made)." ].
Proof. exact (update_index_one_span publications_html pre mid post). Qed.

End PatcherMore.

Section PatcherExamples.

#[local] Existing Instance unicode_14.

Lemma update_index_single_span_witness :
  file (update_index "<p>new</p>" doc_one_pair)
  = "<main>" ++ MARKER_START ++ newline ++ "<p>new</p>" ++ newline
    ++ "        " ++ MARKER_END ++ "</main>".
Proof.
  destruct (update_index_single_span "<p>new</p>" "<main>" "old list"
              "</main>") as (_ & H & _).
  - reflexivity.
  - apply only_at_end_check. reflexivity.
  - apply only_at_end_check. reflexivity.
  - apply no_start_no_pair. reflexivity.
  - exact H.
Defined.

End PatcherExamples.

Section Idempotence.

Lemma string_cons_inv (x y : ascii) (s t : string) :
  String x s = String y t -> x = y /\ s = t.
Proof. intros H. injection H as -> ->. now split. Qed.

(** The end marker does not occur in a replacement before its own end
    when it does not occur in the fragment. *)
Lemma replacement_end_only (publications_html : string) :
  ~ occurs MARKER_END publications_html ->
  only_at_end MARKER_END
    (newline ++ publications_html ++ newline ++ "        ").
Proof.
  intros Hn a b E.
  assert (Ht : only_at_end MARKER_END (newline ++ "        "))
    by (apply only_at_end_check; reflexivity).
  destruct a as [|c a]; [discriminate E |].
  change (newline ++ publications_html ++ newline ++ "        ")
    with (String "010" (publications_html ++ newline ++ "        ")) in E.
  cbn [append] in E. apply string_cons_inv in E. destruct E as [_ E].
  rewrite append_assoc in E.
  destruct (append_eq_append _ _ _ _ E) as [(d & -> & E1)|(d & Eh & E1)].
  - (* the occurrence starts behind the fragment *)
    exact (Ht d b E1).
  - exfalso.
    destruct (append_eq_append _ _ _ _ E1) as [(e & -> & _)|(e & Ee & E2)].
    + (* the occurrence lies in the fragment *)
      apply Hn. now exists a, e.
    + (* the occurrence would hold the line feed behind the fragment *)
      destruct e as [|x e].
      * rewrite append_nil_r in Ee. subst d.
        apply Hn. exists a, "". now rewrite append_nil_r.
      * change ((newline ++ "        ") ++ MARKER_END)
          with (String "010" ("        " ++ MARKER_END)) in E2.
        cbn [append] in E2. apply string_cons_inv in E2.
        destruct E2 as [<- _].
        apply (f_equal (has_char "010")) in Ee.
        rewrite has_char_append in Ee.
        change (has_char "010" MARKER_END) with false in Ee.
        cbn [has_char] in Ee.
        rewrite Ascii.eqb_refl, orb_true_r in Ee. discriminate.
Qed.

Variable repl : string -> string.
Variable mid_r : string.
Hypothesis repl_const :
  forall m, repl m = MARKER_START ++ mid_r ++ MARKER_END.
Hypothesis mid_r_end : only_at_end MARKER_END mid_r.

(** Replacing the spans of a text whose spans are replaced already
    changes nothing. *)
Lemma subn_idem (doc : string) :
  Marker.subn repl (fst (Marker.subn repl doc)) = Marker.subn repl doc.
Proof.
  remember (length doc) as n eqn:L.
  assert (Hn : length doc <= n) by lia. clear L.
  revert doc Hn. induction n as [|n IH]; intros doc Hn;
    destruct (first_span_dec doc)
      as [Hnone|(pre & mid & post & -> & Hp & Hm)].
  - rewrite (subn_no_pair repl doc Hnone). cbn [fst].
    now apply subn_no_pair.
  - rewrite !length_append in Hn.
    change (length MARKER_START) with 27 in Hn. lia.
  - rewrite (subn_no_pair repl doc Hnone). cbn [fst].
    now apply subn_no_pair.
  - rewrite (subn_span repl pre mid post Hp Hm). cbn [fst].
    rewrite repl_const, !append_assoc.
    rewrite (subn_span repl pre mid_r _ Hp mid_r_end).
    rewrite IH.
    2:{ rewrite !length_append in Hn.
        change (length MARKER_START) with 27 in Hn. lia. }
    now rewrite repl_const, !append_assoc.
Qed.

End Idempotence.

Section UpdateTwice.

Context `{U : unicode}.

(** Patching twice with the same fragment gives the document that
    patching once gives, for a fragment without backslash in which the
    end marker does not occur. *)
Theorem update_index_idempotent (publications_html doc : string) :
  has_char "\" publications_html = false ->
  ~ occurs MARKER_END publications_html ->
  file (update_index publications_html
          (file (update_index publications_html doc)))
  = file (update_index publications_html doc)
  /\ result (update_index publications_html
               (file (update_index publications_html doc)))
     = result (update_index publications_html doc).
Proof.
  intros Hb He.
  assert (Hr : forall m : string,
             replacement_of publications_html
             = MARKER_START
               ++ (newline ++ publications_html ++ newline ++ "        ")
               ++ MARKER_END)
    by (intros _; unfold replacement_of; now rewrite !append_assoc).
  pose proof (subn_idem (fun _ => replacement_of publications_html)
                (newline ++ publications_html ++ newline ++ "        ")
                Hr (replacement_end_only _ He) doc) as Hi.
  rewrite (update_index_literal _ doc Hb).
  destruct (Marker.subn (fun _ => replacement_of publications_html) doc)
    as [new_content count] eqn:E1.
  cbn [fst] in Hi.
  destruct count as [|count]; cbn [Nat.eqb file result].
  - rewrite (update_index_literal _ doc Hb), E1. now split.
  - rewrite (update_index_literal _ new_content Hb), Hi. now split.
Qed.

Lemma update_index_outcome (publications_html doc : string) :
  (result (update_index publications_html doc) = Returns true <->
   Template.parse (replacement_of publications_html) <> None
   /\ has_marker_pair doc)
  /\ (result (update_index publications_html doc) = Returns true ->
      writes (update_index publications_html doc)
      = [file (update_index publications_html doc)])
  /\ (result (update_index publications_html doc) <> Returns true ->
      writes (update_index publications_html doc) = []
      /\ file (update_index publications_html doc) = doc).
Proof.
  unfold update_index. cbv zeta.
  change (MARKER_START ++ newline ++ publications_html ++ newline
          ++ "        " ++ MARKER_END)
    with (replacement_of publications_html).
  destruct (Template.parse (replacement_of publications_html))
    as [template|].
  2:{ cbn [result file writes]. repeat split; try discriminate.
      intros [H _]. now elim H. }
  pose proof (subn_count_zero (Template.expand template) doc) as Hz.
  destruct (Marker.subn (Template.expand template) doc) as [out [|n]];
    cbn [snd Nat.eqb result file writes] in *.
  - repeat split; try discriminate.
    intros [_ Hp]. exfalso. now apply (proj1 Hz).
  - split; [| split].
    + split; [intros _ | reflexivity]. split; [discriminate |].
      destruct (first_span_dec doc) as [Hn|(pre & mid & post & -> & _)].
      * apply Hz in Hn. discriminate.
      * now exists pre, mid, post.
    + reflexivity.
    + intros H. now elim H.
Qed.

(** [update_index] returns true exactly when the replacement is a
    well-formed template and the document holds a marker pair; it writes
    the file then, once, and never otherwise. *)
Theorem update_index_writes_iff (publications_html doc : string) :
  (result (update_index publications_html doc) = Returns true <->
   Template.parse (replacement_of publications_html) <> None
   /\ has_marker_pair doc)
  /\ (result (update_index publications_html doc) = Returns true ->
      writes (update_index publications_html doc)
      = [file (update_index publications_html doc)])
  /\ (result (update_index publications_html doc) <> Returns true ->
      writes (update_index publications_html doc) = []
      /\ file (update_index publications_html doc) = doc).
Proof. exact (update_index_outcome publications_html doc). Qed.

(** The exit status of [main] is 0 or 1; it is 0 exactly when nothing was
    fetched, or the fragment is a well-formed template and the document
    holds a marker pair.  The file is written in the second case only,
    and once. *)
Theorem main_exit_status (publications : list Publication) (doc : string) :
  (result (main publications doc) = Returns 0%Z
   \/ result (main publications doc) = Returns 1%Z)
  /\ (result (main publications doc) = Returns 0%Z <->
      publications = []
      \/ (Template.parse (replacement_of (build_html publications)) <> None
          /\ has_marker_pair doc))
  /\ (writes (main publications doc) = []
      /\ file (main publications doc) = doc
      \/ writes (main publications doc) = [file (main publications doc)]
         /\ publications <> []
         /\ result (main publications doc) = Returns 0%Z).
Proof.
  destruct publications as [|p ps].
  { cbn [main result writes file]. split; [now left |].
    split; [| left; now split]. split; [now left | reflexivity]. }
  unfold main.
  destruct (update_index_outcome (build_html (p :: ps)) doc)
    as (Hiff & Hw & Hn).
  destruct (result (update_index (build_html (p :: ps)) doc))
    as [[|]|] eqn:Er; cbn [result writes file].
  - split; [now left |]. split.
    + split; [intros _; right; now apply Hiff | reflexivity].
    + right. rewrite (Hw eq_refl). repeat split. discriminate.
  - split; [now right |]. split.
    + split; [discriminate |].
      intros [H|H]; [discriminate |]. apply Hiff in H. discriminate.
    + left. apply Hn. discriminate.
  - split; [now right |]. split.
    + split; [discriminate |].
      intros [H|H]; [discriminate |]. apply Hiff in H. discriminate.
    + left. apply Hn. discriminate.
Qed.

End UpdateTwice.

Section UpdateTwiceExamples.

#[local] Existing Instance unicode_14.

Lemma update_index_idempotent_witness :
  file (update_index "<p>new</p>"
          (file (update_index "<p>new</p>" doc_two_pairs)))
  = file (update_index "<p>new</p>" doc_two_pairs).
Proof.
  apply (update_index_idempotent "<p>new</p>" doc_two_pairs).
  - reflexivity.
  - apply find_none. reflexivity.
Defined.

Lemma update_index_writes_iff_witness :
  writes (update_index "<p>new</p>" doc_one_pair)
  = [file (update_index "<p>new</p>" doc_one_pair)]
  /\ writes (update_index "<p>new</p>" doc_no_marker) = []
  /\ file (update_index "<p>new</p>" doc_no_marker) = doc_no_marker.
Proof.
  split.
  - apply (proj1 (proj2 (update_index_writes_iff "<p>new</p>" doc_one_pair))).
    reflexivity.
  - apply (proj2 (proj2 (update_index_writes_iff "<p>new</p>" doc_no_marker))).
    discriminate.
Defined.

End UpdateTwiceExamples.

(** ** Backslashes in the fragment *)

Section BadEscape.

Context `{U : unicode}.

Lemma parse_from_bad_escape (c : ascii) (b : string) :
  Str.is_cased c = true -> Template.escape_of c = None -> c <> "g"%char ->
  Template.parse_from 0 (String "\" (String c b)) = None.
Proof.
  intros Hc He Hg.
  destruct c as [[] [] [] [] [] [] [] []];
    try discriminate Hc; try discriminate He;
    try (now elim Hg); reflexivity.
Qed.

Lemma parse_bad_escape (a b : string) (c : ascii) :
  has_char "\" a = false ->
  Str.is_cased c = true -> Template.escape_of c = None -> c <> "g"%char ->
  Template.parse (a ++ String "\" (String c b)) = None.
Proof.
  intros Ha Hc He Hg. unfold Template.parse.
  induction a as [|x a IH].
  - now apply parse_from_bad_escape.
  - cbn [has_char] in Ha. apply orb_false_iff in Ha. destruct Ha as [Hx Ha].
    cbn [append Template.parse_from]. rewrite Hx. cbn [negb].
    now rewrite (IH Ha).
Qed.

(** A fragment whose first backslash stands before an ASCII letter that
    is no escape of [re] (any letter but a, b, f, g, n, r, t, v) makes
    [update_index] raise the error of [re] before it writes, with or
    without markers in the document. *)
Theorem update_index_bad_escape (a b : string) (c : ascii) (doc : string) :
  has_char "\" a = false ->
  Str.is_cased c = true -> Template.escape_of c = None -> c <> "g"%char ->
  result (update_index (a ++ String "\" (String c b)) doc) = Raises
  /\ file (update_index (a ++ String "\" (String c b)) doc) = doc
  /\ writes (update_index (a ++ String "\" (String c b)) doc) = [].
Proof.
  intros Ha Hc He Hg. unfold update_index. cbv zeta.
  replace (MARKER_START ++ newline ++ (a ++ String "\" (String c b))
           ++ newline ++ "        " ++ MARKER_END)
    with ((MARKER_START ++ newline ++ a)
          ++ String "\" (String c (b ++ newline ++ "        " ++ MARKER_END)))
    by (now rewrite !append_assoc).
  rewrite parse_bad_escape; try assumption.
  now repeat split.
Qed.

End BadEscape.

Section BadEscapeExamples.

#[local] Existing Instance unicode_14.

Lemma update_index_bad_escape_witness :
  result (update_index "Bounds on \mathcal{H}-norms" doc_one_pair) = Raises
  /\ result (main [pub_latex_title] doc_one_pair) = Returns 1%Z
  /\ file (main [pub_latex_title] doc_one_pair) = doc_one_pair.
Proof.
  split.
  - apply (update_index_bad_escape "Bounds on " "athcal{H}-norms" "m"
             doc_one_pair); try reflexivity.
    discriminate.
  - split; reflexivity.
Defined.

End BadEscapeExamples.

(** ** Fetching the pages *)

Section Fetch.

Context `{U : unicode}.

Variable server : string -> response.

(** More fuel does not change what the loop returns. *)
Lemma fetch_loop_more_fuel (fuel : nat) :
  forall page acc r,
  fetch_loop fuel server page acc = Some r ->
  forall more, fetch_loop (fuel + more) server page acc = Some r.
Proof.
  induction fuel as [|fuel IH]; intros page acc r H more; [discriminate |].
  cbn [Nat.add fetch_loop] in *. cbv zeta in *.
  destruct (server (page_url page)) as [e|data]; [exact H |].
  destruct (Str.get (content data) []) as [|c cs]; [exact H |].
  destruct (Str.get (last (Str.get (paging data) no_paging)) true);
    [exact H |].
  destruct (fetch_loop fuel server (S page) (acc ++ c :: cs))
    as [[found lines]|] eqn:E; [| discriminate].
  now rewrite (IH _ _ _ E more).
Qed.

(** From page [page] on, with [k] pages that continue before one that
    does not, the loop returns what it had, the content of those pages
    and that of the page it stops at. *)
Lemma fetch_loop_stops (k : nat) :
  forall page acc fuel,
  (forall i, page <= i < page + k ->
             continues (server (page_url i)) = true) ->
  continues (server (page_url (page + k))) = false ->
  k < fuel ->
  exists lines,
    fetch_loop fuel server page acc
    = Some ((acc ++ flat_map (fun i => page_content (server (page_url i)))
                     (seq page (S k)))%list,
            lines).
Proof.
  induction k as [|k IH]; intros page acc fuel Hc Hs Hf;
    (destruct fuel as [|fuel]; [lia |]);
    cbn [fetch_loop]; cbv zeta.
  - rewrite Nat.add_0_r in Hs. cbn [seq flat_map]. rewrite app_nil_r.
    unfold continues, page_content in *.
    destruct (server (page_url page)) as [e|data].
    + rewrite app_nil_r. eauto.
    + destruct (Str.get (content data) []) as [|c cs].
      * rewrite app_nil_r. eauto.
      * apply negb_false_iff in Hs. rewrite Hs. eauto.
  - assert (Hp : continues (server (page_url page)) = true)
      by (apply Hc; lia).
    cbn [seq flat_map].
    unfold continues, page_content in Hp |- *.
    destruct (server (page_url page)) as [e|data]; [discriminate |].
    destruct (Str.get (content data) []) as [|c cs]; [discriminate |].
    apply negb_true_iff in Hp. rewrite Hp.
    destruct (IH (S page) (acc ++ c :: cs)%list fuel) as [lines E].
    + intros i Hi. apply Hc. lia.
    + replace (S page + k) with (page + S k) by lia. exact Hs.
    + lia.
    + rewrite E. rewrite <- app_assoc. eauto.
Qed.

(** When the pages 1 to [k] continue and the page after them does not (it
    fails, is empty, or is marked as the last), [fetch_publications]
    returns the content of the pages 1 to [k + 1] in their order, the
    failed or empty page giving nothing, with any bound above [k]
    requests. *)
Theorem fetch_publications_stops (k fuel : nat) :
  (forall i, 1 <= i <= k -> continues (server (page_url i)) = true) ->
  continues (server (page_url (S k))) = false ->
  k < fuel ->
  exists lines,
    fetch_publications fuel server
    = Some (flat_map (fun i => page_content (server (page_url i)))
              (seq 1 (S k)),
            lines).
Proof.
  intros Hc Hs Hf. unfold fetch_publications.
  destruct (fetch_loop_stops k 1 [] fuel) as [lines E].
  - intros i Hi. apply Hc. lia.
  - exact Hs.
  - exact Hf.
  - rewrite E. cbn [app]. eauto.
Qed.

(** The loop has no bound on the pages: when every page continues, no
    number of requests ends it. *)
Theorem fetch_publications_never_ends :
  (forall i, 1 <= i -> continues (server (page_url i)) = true) ->
  forall fuel, fetch_publications fuel server = None.
Proof.
  intros Hc fuel. unfold fetch_publications.
  assert (H : forall page acc, 1 <= page ->
                fetch_loop fuel server page acc = None).
  { induction fuel as [|fuel IH]; intros page acc Hp; [reflexivity |].
    cbn [fetch_loop]. cbv zeta.
    specialize (Hc page Hp). unfold continues in Hc.
    destruct (server (page_url page)) as [e|data]; [discriminate |].
    destruct (Str.get (content data) []) as [|c cs]; [discriminate |].
    apply negb_true_iff in Hc. rewrite Hc.
    rewrite IH by lia. reflexivity. }
  now rewrite H.
Qed.

(** When the first page fails or is empty, the script changes nothing: it
    exits with status 0 and the file is not written. *)
Theorem script_nothing_fetched (fuel : nat) (doc : string) :
  page_content (server (page_url 1)) = [] ->
  0 < fuel ->
  exists r,
    script fuel server doc = Some r
    /\ result r = Returns 0%Z /\ file r = doc /\ writes r = [].
Proof.
  intros Hp Hf. destruct fuel as [|fuel]; [lia |].
  unfold script, fetch_publications. cbn [fetch_loop]. cbv zeta.
  unfold page_content in Hp.
  destruct (server (page_url 1)) as [e|data].
  - eexists. split; [reflexivity |]. now repeat split.
  - rewrite Hp. eexists. split; [reflexivity |]. now repeat split.
Qed.

End Fetch.

Section FetchExamples.

#[local] Existing Instance unicode_14.

Lemma fetch_publications_stops_witness :
  exists lines,
    fetch_publications 5 server_two_pages
    = Some ([pub_sensors; pub_conference_paper; pub_untitled], lines).
Proof.
  apply (fetch_publications_stops server_two_pages 1 5).
  - intros i Hi. assert (i = 1) as -> by lia. reflexivity.
  - reflexivity.
  - lia.
Defined.

Lemma fetch_publications_never_ends_witness :
  fetch_publications 1000 server_endless = None.
Proof.
  apply (fetch_publications_never_ends server_endless).
  intros i _. reflexivity.
Defined.

Lemma script_nothing_fetched_witness :
  exists r,
    script 3 server_down doc_one_pair = Some r
    /\ result r = Returns 0%Z /\ file r = doc_one_pair /\ writes r = [].
Proof.
  apply (script_nothing_fetched server_down 3 doc_one_pair).
  - reflexivity.
  - lia.
Defined.

End FetchExamples.

(** ** Records without year, and the DOI *)

Section Edges.

Context `{U : unicode}.

(** When something was fetched but no record has a year, the fragment is
    empty and [main] still patches: the span between the markers of a
    document with one pair is emptied, and the status is 0. *)
Theorem main_yearless_empties_list
    (publications : list Publication) (pre mid post : string) :
  publications <> [] ->
  forallb (fun p => (year_of p =? 0)%Z) publications = true ->
  only_at_end MARKER_START pre ->
  only_at_end MARKER_END mid ->
  ~ has_marker_pair post ->
  let r := main publications
             (pre ++ MARKER_START ++ mid ++ MARKER_END ++ post) in
  result r = Returns 0%Z
  /\ file r
     = pre ++ (MARKER_START ++ newline ++ newline ++ "        "
               ++ MARKER_END) ++ post
  /\ writes r = [file r].
Proof.
  intros Hne Hy Hs He Hp. cbv zeta.
  destruct publications as [|p ps]; [now elim Hne |].
  unfold main.
  rewrite (proj2 (build_html_yearless (p :: ps)) Hy).
  destruct (update_index_one_span "" pre mid post eq_refl Hs He Hp)
    as (Hr & Hf & Hw & _).
  rewrite Hr. cbn [result file writes]. rewrite Hw, Hf. now repeat split.
Qed.

Lemma extract_doi_loop_origin (idents : list Identifier) :
  extract_doi_loop idents = ""
  \/ exists ident,
       In ident idents /\ doi_typed ident
       /\ realUrl ident = Some (extract_doi_loop idents).
Proof.
  induction idents as [|ident rest IH]; [now left |].
  cbn [extract_doi_loop].
  destruct (is_doi ident) eqn:E.
  - apply is_doi_spec in E.
    destruct (realUrl ident) as [url|] eqn:Eu; [| now left].
    right. exists ident. cbn [Str.get]. repeat split; [now left | exact E | exact Eu].
  - destruct IH as [IH|(i & Hi & Hd & Hu)]; [now left |].
    right. exists i. repeat split; [now right | exact Hd | exact Hu].
Qed.

(** What DOI extraction returns is empty or the URL of an identifier of
    the record that is typed "DOI": never the URL of another
    identifier. *)
Theorem extract_doi_is_doi_url (pub : Publication) :
  extract_doi pub = ""
  \/ exists ident,
       In ident (Str.get (identifiers pub) []) /\ doi_typed ident
       /\ realUrl ident = Some (extract_doi pub).
Proof. apply extract_doi_loop_origin. Qed.

Example tied_authors_keep_order :
  extract_authors pub_tied_authors = "B. Baker, A. Able, C. Cole".
Proof. reflexivity. Qed.

End Edges.

Section EdgesExamples.

#[local] Existing Instance unicode_14.

Lemma main_yearless_empties_list_witness :
  file (main [empty_pub] doc_one_pair)
  = "<main>" ++ MARKER_START ++ newline ++ newline ++ "        "
    ++ MARKER_END ++ "</main>".
Proof.
  destruct (main_yearless_empties_list [empty_pub] "<main>" "old list"
              "</main>") as (_ & H & _).
  - discriminate.
  - reflexivity.
  - apply only_at_end_check. reflexivity.
  - apply only_at_end_check. reflexivity.
  - apply no_start_no_pair. reflexivity.
  - exact H.
Defined.

End EdgesExamples.
